(** * SpeakToMe back end: appointment lifecycle and access control

    A shallow embedding of the Express/TypeScript sources
    (models/Appointment.ts, controllers/appointmentController.ts,
    middleware/auth.ts, controllers/authController.ts, models/User.ts,
    routes/appointments.ts, routes/auth.ts and the SQL schema) together
    with the properties of the specification they do or do not satisfy.

    The relational store is a record of tables (lists of rows); every
    model function is a pure function of the store and returns the new
    store explicitly.  [CURRENT_TIMESTAMP] and the JWT clock are passed
    as an argument [now]. *)

From Stdlib Require Import ZArith String Ascii List Bool Lia.
From stdpp Require Import base option list gmap strings.
Import ListNotations.
Open Scope string_scope.
Open Scope Z_scope.

(** ** JavaScript values *)

Module Js.

(** The values request bodies and URL parameters carry.  Numbers are
    integers (ids and counters); NaN only arises from [parseInt] and
    is its [None]. *)
Inductive JsValue : Type :=
| JUndefined
| JNull
| JBool (b : bool)
| JNum (n : Z)
| JStr (s : string).

(** ToBoolean, as used by [!x], [x && y], [x || y] and [if (x)]. *)
Definition truthy (v : JsValue) : bool :=
  match v with
  | JUndefined | JNull => false
  | JBool b => b
  | JNum n => negb (n =? 0)
  | JStr s => negb (String.eqb s "")
  end.

(** [a || b] *)
Definition or_else (a b : JsValue) : JsValue :=
  if truthy a then a else b.

Definition isSpace (c : ascii) : bool :=
  match nat_of_ascii c with
  | 9%nat | 10%nat | 11%nat | 12%nat | 13%nat | 32%nat => true
  | _ => false
  end.

Fixpoint trimStart (s : string) : string :=
  match s with
  | String c r => if isSpace c then trimStart r else s
  | EmptyString => s
  end.

Definition digitVal (c : ascii) : option Z :=
  let n := Z.of_nat (nat_of_ascii c) in
  if (48 <=? n) && (n <=? 57) then Some (n - 48)
  else if (97 <=? n) && (n <=? 122) then Some (n - 87)
  else if (65 <=? n) && (n <=? 90) then Some (n - 55)
  else None.

(** The longest prefix of digits below [radix]; [acc] is [None] until
    a first digit has been read. *)
Fixpoint digits (radix : Z) (s : string) (acc : option Z) : option Z :=
  match s with
  | String c r =>
      match digitVal c with
      | Some d =>
          if d <? radix
          then digits radix r (Some (match acc with
                                     | Some a => a * radix + d
                                     | None => d
                                     end))
          else acc
      | None => acc
      end
  | EmptyString => acc
  end.

(** [parseInt(s)] without a radix argument: leading white space, an
    optional sign, an optional [0x] prefix, then digits; [None] is NaN. *)
Definition parseIntStr (s : string) : option Z :=
  let s1 := trimStart s in
  let '(neg, s2) :=
    match s1 with
    | String "-"%char r => (true, r)
    | String "+"%char r => (false, r)
    | _ => (false, s1)
    end in
  let r :=
    match s2 with
    | String "0"%char (String "x"%char r') => digits 16 r' None
    | String "0"%char (String "X"%char r') => digits 16 r' None
    | _ => digits 10 s2 None
    end in
  (fun n => if neg : bool then - n else n) <$> r.

(** [parseInt(v)]: the argument is first converted to a string.
    [undefined], [null] and booleans give words without digits, hence
    NaN; an integer prints as its decimal numeral. *)
Definition parseInt (v : JsValue) : option Z :=
  match v with
  | JStr s => parseIntStr s
  | JNum n => Some n
  | JUndefined | JNull | JBool _ => None
  end.

Definition upperChar (c : ascii) : ascii :=
  let n := nat_of_ascii c in
  if (97 <=? n)%nat && (n <=? 122)%nat then ascii_of_nat (n - 32) else c.

(** [s.toUpperCase()] on the ASCII range. *)
Fixpoint toUpperCase (s : string) : string :=
  match s with
  | String c r => String (upperChar c) (toUpperCase r)
  | EmptyString => EmptyString
  end.

Definition lowerChar (c : ascii) : ascii :=
  let n := nat_of_ascii c in
  if (65 <=? n)%nat && (n <=? 90)%nat then ascii_of_nat (n + 32) else c.

Fixpoint toLowerCase (s : string) : string :=
  match s with
  | String c r => String (lowerChar c) (toLowerCase r)
  | EmptyString => EmptyString
  end.

End Js.
Import Js.

(** ** Exceptions and results *)

Inductive Exn : Type :=
| ER_PARSE_ERROR            (* malformed statement *)
| ER_BAD_FIELD_ERROR        (* unknown column in the SET clause *)
| ER_BAD_NULL_ERROR         (* NULL written to a NOT NULL column *)
| ER_NO_REFERENCED_ROW_2    (* foreign key without a parent row *)
| ER_DUP_ENTRY              (* duplicate value in a UNIQUE column *)
| ER_TRUNCATED_WRONG_VALUE  (* value of the wrong type for the column *)
| BindUndefined             (* mysql2: a bind parameter is undefined *)
| JsError (msg : string)    (* [throw new Error(msg)] *)
| TypeError
| JsonWebTokenError
| TokenExpiredError.

Inductive Result (A : Type) : Type :=
| Ok (a : A)
| Throw (e : Exn).
Arguments Ok {A} a.
Arguments Throw {A} e.

Definition bind {A B : Type} (r : Result A) (k : A -> Result B) : Result B :=
  match r with
  | Ok a => k a
  | Throw e => Throw e
  end.

Notation "'try!' x ':=' r 'in' k" := (bind r (fun x => k))
  (at level 10, x pattern, r at level 100, k at level 200).

(** ** The relational store *)

Record StatusType : Type := {
  st_id : Z;
  st_name : string;
  st_category : string
}.

Module User.
Record t : Type := {
  id : Z;
  email : string;
  password_hash : string;
  first_name : string;
  last_name : string;
  phone : option string;
  avatar_url : option string;
  role_id : Z;
  is_active : bool;
  is_verified : bool;
  email_verified_at : option Z;
  created_at : Z;
  updated_at : Z;
  last_login : option Z
}.
End User.

Module Appointment.
Record t : Type := {
  id : Z;
  student_id : Z;
  psychologist_id : option Z;
  scheduled_date : string;
  scheduled_time : string;
  status_id : Z;
  reason_for_visit : option string;
  notes : option string;
  created_at : Z;
  updated_at : Z;
  cancelled_at : option Z;
  completed_at : option Z
}.
End Appointment.

Record Db : Type := {
  roles : list (Z * string);
  status_types : list StatusType;
  users : list User.t;
  appointments : list Appointment.t
}.

(** The rows [INSERT INTO roles] of the schema script seeds. *)
Definition seedRoles : list (Z * string) :=
  [ (1, "TL_MAYOR"); (2, "PSYCHOLOGIST"); (3, "STUDENT") ].

(** The rows [INSERT INTO status_types] of the schema script seeds. *)
Definition seedStatusTypes : list StatusType :=
  [ {| st_id := 1; st_name := "PENDING"; st_category := "appointment" |};
    {| st_id := 2; st_name := "ASSIGNED"; st_category := "appointment" |};
    {| st_id := 3; st_name := "COMPLETED"; st_category := "appointment" |};
    {| st_id := 4; st_name := "CANCELLED"; st_category := "appointment" |};
    {| st_id := 5; st_name := "LOGIN"; st_category := "auth" |};
    {| st_id := 6; st_name := "LOGOUT"; st_category := "auth" |};
    {| st_id := 7; st_name := "ACCOUNT_CREATED"; st_category := "account" |};
    {| st_id := 8; st_name := "MESSAGE_SENT"; st_category := "message" |};
    {| st_id := 9; st_name := "PROFILE_UPDATED"; st_category := "account" |} ].

(** The four states of the specification, by the seeded names. *)
Inductive Status : Type := Pending | Assigned | Completed | Cancelled.

Definition statusName (s : Status) : string :=
  match s with
  | Pending => "PENDING"
  | Assigned => "ASSIGNED"
  | Completed => "COMPLETED"
  | Cancelled => "CANCELLED"
  end.

(** Their ids in the seeded table. *)
Definition statusId (s : Status) : Z :=
  match s with
  | Pending => 1
  | Assigned => 2
  | Completed => 3
  | Cancelled => 4
  end.

(** [SELECT id FROM status_types WHERE name = ? AND category = 'appointment'] *)
Definition appointmentStatusIds (db : Db) (name : string) : list Z :=
  st_id <$> filter (fun s => st_name s = name ∧ st_category s = "appointment")
                   (status_types db).

(** The same query used as a scalar ([LIMIT 1], or a scalar subquery on
    the UNIQUE column [name]). *)
Definition appointmentStatusId (db : Db) (name : string) : option Z :=
  head (appointmentStatusIds db name).

(** [LEFT JOIN status_types s ON a.status_id = s.id], column [status_name]. *)
Definition statusNameOf (db : Db) (a : Appointment.t) : option string :=
  st_name <$> find (fun s => st_id s =? Appointment.status_id a) (status_types db).

Definition hasStatus (db : Db) (a : Appointment.t) (s : Status) : Prop :=
  statusNameOf db a = Some (statusName s).

Definition userExists (db : Db) (uid : Z) : bool :=
  existsb (fun u => User.id u =? uid) (users db).

Definition statusTypeExists (db : Db) (sid : Z) : bool :=
  existsb (fun s => st_id s =? sid) (status_types db).

(** ** models/Appointment.ts *)

Module AppointmentModel.
Import Appointment.

(** [SELECT a.* ... WHERE a.id = ?], first row or [null]. *)
Definition findById (db : Db) (i : Z) : option Appointment.t :=
  find (fun a => id a =? i) (appointments db).

(** AUTO_INCREMENT: one more than every id in the table. *)
Definition insertId (db : Db) : Z :=
  1 + foldr Z.max 0 (id <$> appointments db).

(** The fields [create] destructures from its argument. *)
Record NewAppointment : Type := {
  n_student_id : Z;
  n_psychologist_id : option Z;
  n_scheduled_date : string;
  n_scheduled_time : string;
  n_reason_for_visit : option string;
  n_notes : option string
}.

(** Truthiness of an optional number ([undefined] or a number). *)
Definition given (o : option Z) : bool :=
  match o with
  | Some n => negb (n =? 0)
  | None => false
  end.

Definition missingStatus (name : string) : Exn :=
  JsError ("No existe status_types '" ++ name
           ++ "' en categoría 'appointment'. Asegura la semilla inicial.").

(** The foreign keys of the inserted row: [student_id] and a non-NULL
    [psychologist_id] reference [users]. *)
Definition referencesOk (db : Db) (d : NewAppointment) : bool :=
  userExists db (n_student_id d)
  && match n_psychologist_id d with
     | Some p => userExists db p
     | None => true
     end.

Definition create (db : Db) (now : Z) (d : NewAppointment)
  : Result (Db * Appointment.t) :=
  let statusName := if given (n_psychologist_id d) then "ASSIGNED" else "PENDING" in
  match appointmentStatusId db statusName with
  | None => Throw (missingStatus statusName)
  | Some statusId =>
      if statusId =? 0 then Throw (missingStatus statusName)
      else if negb (referencesOk db d) then Throw ER_NO_REFERENCED_ROW_2
      else
        let row := {| id := insertId db;
                      student_id := n_student_id d;
                      psychologist_id := n_psychologist_id d;
                      scheduled_date := n_scheduled_date d;
                      scheduled_time := n_scheduled_time d;
                      status_id := statusId;
                      reason_for_visit := n_reason_for_visit d;
                      notes := n_notes d;
                      created_at := now;
                      updated_at := now;
                      cancelled_at := None;
                      completed_at := None |} in
        let db' := {| roles := roles db;
                      status_types := status_types db;
                      users := users db;
                      appointments := appointments db ++ [row] |} in
        match findById db' (insertId db) with
        | Some a => Ok (db', a)
        | None => Throw (JsError "Error al crear cita")
        end
  end.

(** [UPDATE appointments SET ... WHERE id = ?] with the new row given
    as a function of the old one. *)
Definition updateWhereId (db : Db) (i : Z) (f : Appointment.t -> Appointment.t) : Db :=
  {| roles := roles db;
                      status_types := status_types db;
     users := users db;
     appointments := (fun a => if id a =? i then f a else a) <$> appointments db |}.

(** A text bind parameter: left out ([undefined]), [null], or a string.
    mysql2 refuses to execute a statement one of whose parameters is
    [undefined]. *)
Inductive BindParam : Type := BUndefined | BNull | BText (s : string).

Definition newline : string := String (ascii_of_nat 10) EmptyString.

(** [CONCAT(IFNULL(notes, ''), IFNULL(CONCAT(label, ?), ''))] *)
Definition appendNote (old : option string) (label : string) (p : BindParam) : string :=
  default "" old ++ match p with
                    | BText s => label ++ s
                    | _ => ""
                    end.

Definition cancel (db : Db) (now : Z) (i : Z) (reason : BindParam)
  : Result (Db * option Appointment.t) :=
  match reason with
  | BUndefined => Throw BindUndefined
  | _ =>
      match findById db i with
      | None => Ok (db, None)
      | Some _ =>
          match appointmentStatusId db "CANCELLED" with
          | None => Throw ER_BAD_NULL_ERROR
          | Some sid =>
              let db' := updateWhereId db i (fun a =>
                {| id := id a;
                   student_id := student_id a;
                   psychologist_id := psychologist_id a;
                   scheduled_date := scheduled_date a;
                   scheduled_time := scheduled_time a;
                   status_id := sid;
                   reason_for_visit := reason_for_visit a;
                   notes := Some (appendNote (notes a)
                              (newline ++ "Razón de cancelación: ") reason);
                   created_at := created_at a;
                   updated_at := now;
                   cancelled_at := Some now;
                   completed_at := completed_at a |}) in
              Ok (db', findById db' i)
          end
      end
  end.

Definition complete (db : Db) (now : Z) (i : Z) (notes' : BindParam)
  : Result (Db * option Appointment.t) :=
  match notes' with
  | BUndefined => Throw BindUndefined
  | _ =>
      match findById db i with
      | None => Ok (db, None)
      | Some _ =>
          match appointmentStatusId db "COMPLETED" with
          | None => Throw ER_BAD_NULL_ERROR
          | Some sid =>
              let db' := updateWhereId db i (fun a =>
                {| id := id a;
                   student_id := student_id a;
                   psychologist_id := psychologist_id a;
                   scheduled_date := scheduled_date a;
                   scheduled_time := scheduled_time a;
                   status_id := sid;
                   reason_for_visit := reason_for_visit a;
                   notes := Some (appendNote (notes a)
                              (newline ++ "Notas de finalización: ") notes');
                   created_at := created_at a;
                   updated_at := now;
                   cancelled_at := cancelled_at a;
                   completed_at := Some now |}) in
              Ok (db', findById db' i)
          end
      end
  end.

(** An id bind parameter: left out ([undefined]), [null], or a number. *)
Inductive IdParam : Type := IUndefined | INull | INum (n : Z).

(** The value [SET psychologist_id = ?] stores: NULL for [null]. *)
Definition stored (p : IdParam) : option Z :=
  match p with
  | INum n => Some n
  | _ => None
  end.

(** [psychologistId] is bound as it comes: [PUT /:id/assign-psychologist]
    validates no body, so it may be [null], which the column takes. *)
Definition assignPsychologist (db : Db) (now : Z) (i : Z) (psychologistId : IdParam)
  : Result (Db * option Appointment.t) :=
  match psychologistId with
  | IUndefined => Throw BindUndefined
  | _ =>
      match findById db i with
      | None => Ok (db, None)
      | Some _ =>
          match appointmentStatusId db "ASSIGNED" with
          | None => Throw ER_BAD_NULL_ERROR
          | Some sid =>
              if negb (match stored psychologistId with
                       | Some p => userExists db p
                       | None => true
                       end)
              then Throw ER_NO_REFERENCED_ROW_2
              else
                let db' := updateWhereId db i (fun a =>
                  {| id := id a;
                     student_id := student_id a;
                     psychologist_id := stored psychologistId;
                     scheduled_date := scheduled_date a;
                     scheduled_time := scheduled_time a;
                     status_id := sid;
                     reason_for_visit := reason_for_visit a;
                     notes := notes a;
                     created_at := created_at a;
                     updated_at := now;
                     cancelled_at := cancelled_at a;
                     completed_at := completed_at a |}) in
                Ok (db', findById db' i)
          end
      end
  end.

(** The rows the COUNT of [checkAvailability] counts: same clinician,
    same date, same time, and a status id outside the ids of the
    appointment status named CANCELLED. *)
Definition occupying (db : Db) (psychologistId : Z) (date time : string)
  : list Appointment.t :=
  filter (fun a => psychologist_id a = Some psychologistId
                   ∧ scheduled_date a = date
                   ∧ scheduled_time a = time
                   ∧ status_id a ∉ appointmentStatusIds db "CANCELLED")
         (appointments db).

Definition checkAvailability (db : Db) (psychologistId : Z) (date time : string) : bool :=
  bool_decide (length (occupying db psychologistId date time) = 0%nat).

(** [checkAvailability] called with a bind parameter that need not be
    a number: mysql2 refuses [undefined], and [psychologist_id = NULL]
    holds of no row, so the count is 0. *)
Definition checkAvailabilityFor (db : Db) (psychologistId : IdParam)
    (date time : string) : Result bool :=
  match psychologistId with
  | IUndefined => Throw BindUndefined
  | INull => Ok true
  | INum n => Ok (checkAvailability db n date time)
  end.

(** The body of [PUT /:id] once [updateAppointmentSchema] has accepted
    it: each key is absent or carries a value of its declared type. *)
Record Patch : Type := {
  p_psychologist_id : option Z;
  p_scheduled_date : option string;
  p_scheduled_time : option string;
  p_status_id : option Z;
  p_status : option string;
  p_reason_for_visit : option string;
  p_notes : option string
}.

Definition present {A : Type} (o : option A) : bool :=
  match o with
  | Some _ => true
  | None => false
  end.

(** [Object.keys(updateData).filter(key => key !== "id")] *)
Definition fields (p : Patch) : list string :=
  (if present (p_psychologist_id p) then ["psychologist_id"] else [])
  ++ (if present (p_scheduled_date p) then ["scheduled_date"] else [])
  ++ (if present (p_scheduled_time p) then ["scheduled_time"] else [])
  ++ (if present (p_status_id p) then ["status_id"] else [])
  ++ (if present (p_status p) then ["status"] else [])
  ++ (if present (p_reason_for_visit p) then ["reason_for_visit"] else [])
  ++ (if present (p_notes p) then ["notes"] else []).

(** [SET field = ?, ..., updated_at = CURRENT_TIMESTAMP]: an empty
    field list leaves [SET , updated_at = ...], which does not parse;
    [status] is not a column of [appointments]. *)
Definition update (db : Db) (now : Z) (i : Z) (p : Patch)
  : Result (Db * option Appointment.t) :=
  match fields p with
  | [] => Throw ER_PARSE_ERROR
  | _ =>
      if present (p_status p) then Throw ER_BAD_FIELD_ERROR
      else
        match findById db i with
        | None => Ok (db, None)
        | Some _ =>
            if negb (match p_psychologist_id p with
                     | Some u => userExists db u
                     | None => true
                     end
                     && match p_status_id p with
                        | Some s => statusTypeExists db s
                        | None => true
                        end)
            then Throw ER_NO_REFERENCED_ROW_2
            else
              let db' := updateWhereId db i (fun a =>
                {| id := id a;
                   student_id := student_id a;
                   psychologist_id :=
                     match p_psychologist_id p with
                     | Some u => Some u
                     | None => psychologist_id a
                     end;
                   scheduled_date := default (scheduled_date a) (p_scheduled_date p);
                   scheduled_time := default (scheduled_time a) (p_scheduled_time p);
                   status_id := default (status_id a) (p_status_id p);
                   reason_for_visit :=
                     match p_reason_for_visit p with
                     | Some r => Some r
                     | None => reason_for_visit a
                     end;
                   notes :=
                     match p_notes p with
                     | Some n => Some n
                     | None => notes a
                     end;
                   created_at := created_at a;
                   updated_at := now;
                   cancelled_at := cancelled_at a;
                   completed_at := completed_at a |}) in
              Ok (db', findById db' i)
        end
  end.

(** [LIMIT ${limit} OFFSET ${offset}] over a result list: the two
    numbers are printed into the statement.  The grammar takes an
    unsigned 64-bit numeral in either place, so a negative number does
    not parse, nor does a number from 2^64 on (from 10^21 on JavaScript
    prints it with an exponent). *)
Definition page {A : Type} (l : list A) (pageNo limit : Z) : Result (list A) :=
  let offset := (pageNo - 1) * limit in
  if (limit <? 0) || (offset <? 0) || (2 ^ 64 <=? limit) || (2 ^ 64 <=? offset)
  then Throw ER_PARSE_ERROR
  else Ok (take (Z.to_nat limit) (drop (Z.to_nat offset) l)).

(** [ORDER BY scheduled_date DESC, scheduled_time DESC] *)
Definition later (a b : Appointment.t) : bool :=
  match String.compare (scheduled_date a) (scheduled_date b) with
  | Gt => true
  | Lt => false
  | Eq => match String.compare (scheduled_time a) (scheduled_time b) with
          | Lt => false
          | _ => true
          end
  end.

Fixpoint insertSorted (a : Appointment.t) (l : list Appointment.t) : list Appointment.t :=
  match l with
  | [] => [a]
  | b :: r => if later a b then a :: l else b :: insertSorted a r
  end.

Definition ordered (l : list Appointment.t) : list Appointment.t :=
  foldr insertSorted [] l.

Definition findByStudent (db : Db) (studentId pageNo limit : Z)
  : Result (list Appointment.t * Z) :=
  let rows := filter (fun a => student_id a = studentId) (appointments db) in
  try! pg := page (ordered rows) pageNo limit in
  Ok (pg, Z.of_nat (length rows)).

Definition findByPsychologist (db : Db) (psychologistId pageNo limit : Z)
  : Result (list Appointment.t * Z) :=
  let rows := filter (fun a => psychologist_id a = Some psychologistId) (appointments db) in
  try! pg := page (ordered rows) pageNo limit in
  Ok (pg, Z.of_nat (length rows)).

(** The filters of [findAll]; a number that is [undefined] or NaN is
    [None], a text that is [undefined] is [None]. *)
Record Filters : Type := {
  f_statusId : option Z;
  f_psychologistId : option Z;
  f_studentId : option Z;
  f_dateFrom : option string;
  f_dateTo : option string
}.

(** Truthiness of an optional text. *)
Definition stated (o : option string) : bool :=
  match o with
  | Some s => negb (String.eqb s "")
  | None => false
  end.

(** [scheduled_date >= ?] and [scheduled_date <= ?], on the texts of
    the two dates. *)
Definition notBefore (date bound : string) : bool :=
  match String.compare date bound with
  | Lt => false
  | _ => true
  end.

Definition notAfter (date bound : string) : bool :=
  match String.compare date bound with
  | Gt => false
  | _ => true
  end.

(** The WHERE clause [findAll] builds: one condition for each filter
    that is truthy. *)
Definition matching (f : Filters) (a : Appointment.t) : bool :=
  (if given (f_statusId f)
   then bool_decide (Some (status_id a) = f_statusId f) else true)
  && (if given (f_psychologistId f)
      then bool_decide (psychologist_id a = f_psychologistId f) else true)
  && (if given (f_studentId f)
      then bool_decide (Some (student_id a) = f_studentId f) else true)
  && (if stated (f_dateFrom f)
      then notBefore (scheduled_date a) (default "" (f_dateFrom f)) else true)
  && (if stated (f_dateTo f)
      then notAfter (scheduled_date a) (default "" (f_dateTo f)) else true).

Definition findAll (db : Db) (pageNo limit : Z) (filters : Filters)
  : Result (list Appointment.t * Z) :=
  let rows := filter (fun a => Is_true (matching filters a)) (appointments db) in
  try! pg := page (ordered rows) pageNo limit in
  Ok (pg, Z.of_nat (length rows)).

(** The row [getStatistics] returns.  A SUM over no row is NULL. *)
Record Statistics : Type := {
  total_appointments : Z;
  completed_appointments : option Z;
  cancelled_appointments : option Z;
  pending_appointments : option Z;
  assigned_appointments : option Z
}.

(** [SUM(CASE WHEN s.name = name THEN 1 ELSE 0 END)] over the joined
    rows. *)
Definition sumNamed (db : Db) (name : string) (rows : list Appointment.t) : option Z :=
  match rows with
  | [] => None
  | _ => Some (Z.of_nat (length (filter (fun a => statusNameOf db a = Some name) rows)))
  end.

(** [getStatistics]: its WHERE clause is the one of [findAll] for the
    clinician and the two dates. *)
Definition getStatistics (db : Db) (psychologistId : option Z)
    (dateFrom dateTo : option string) : Statistics :=
  let filters := {| f_statusId := None;
                    f_psychologistId := psychologistId;
                    f_studentId := None;
                    f_dateFrom := dateFrom;
                    f_dateTo := dateTo |} in
  let rows := filter (fun a => Is_true (matching filters a)) (appointments db) in
  {| total_appointments := Z.of_nat (length rows);
     completed_appointments := sumNamed db "COMPLETED" rows;
     cancelled_appointments := sumNamed db "CANCELLED" rows;
     pending_appointments := sumNamed db "PENDING" rows;
     assigned_appointments := sumNamed db "ASSIGNED" rows |}.

End AppointmentModel.

Module StatusTypeModel.

Section Collation.

(** The comparison and the order of the collation of the text columns
    of [status_types], which the schema leaves to the server. *)
Variable collate : string -> string -> bool.
Variable precedes : string -> string -> bool.

(** [ENUM('appointment', 'auth', 'message', 'account')]: the column
    sorts by the position of its value in this list. *)
Definition categories : list string :=
  [ "appointment"; "auth"; "message"; "account" ].

Fixpoint position (c : string) (l : list string) : nat :=
  match l with
  | [] => 0%nat
  | x :: r => if String.eqb x c then 0%nat else S (position c r)
  end.

(** [ORDER BY category, name] *)
Definition before (s t : StatusType) : bool :=
  let i := position (st_category s) categories in
  let j := position (st_category t) categories in
  (i <? j)%nat || ((i =? j)%nat && precedes (st_name s) (st_name t)).

Fixpoint insertBy (le : StatusType -> StatusType -> bool) (s : StatusType)
    (l : list StatusType) : list StatusType :=
  match l with
  | [] => [s]
  | t :: r => if le s t then s :: l else t :: insertBy le s r
  end.

Definition findAll (db : Db) : list StatusType :=
  foldr (insertBy before) [] (status_types db).

(** [WHERE category = ? ORDER BY name] *)
Definition findByCategory (db : Db) (category : string) : list StatusType :=
  foldr (insertBy (fun s t => precedes (st_name s) (st_name t))) []
        (List.filter (fun s => collate (st_category s) category) (status_types db)).

End Collation.

End StatusTypeModel.

(** ** Requests and replies *)

(** What [authenticateToken] attaches to the request. *)
Record Req : Type := {
  r_user : option User.t;
  r_userId : option Z;
  r_roleId : option Z
}.

Definition anonymous : Req :=
  {| r_user := None; r_userId := None; r_roleId := None |}.

(** The request after [authenticateToken] has found user [u]. *)
Definition authenticated (u : User.t) : Req :=
  {| r_user := Some u; r_userId := Some (User.id u); r_roleId := Some (User.role_id u) |}.

(** A handler answers [res.status(s).json(..)] (status 200 when it
    calls [res.json] directly) or hands an exception to [next]. *)
Inductive Reply (D : Type) : Type :=
| Json (status : Z) (data : option D)
| Next (e : Exn).
Arguments Json {D} status data.
Arguments Next {D} e.

Definition replyStatus {D : Type} (r : Reply D) : option Z :=
  match r with
  | Json status _ => Some status
  | Next _ => None
  end.

(** A middleware answers itself or calls [next()] with the request. *)
Inductive Gate : Type :=
| Continue (req : Req)
| Respond (status : Z).

(** ** controllers/appointmentController.ts *)

Module AppointmentController.
Import Appointment AppointmentModel.

(** [if (req.roleId === 3) appointmentData.student_id = req.userId] *)
Definition ownAppointment (req : Req) (userId : Z) (body : NewAppointment)
  : NewAppointment :=
  match r_roleId req with
  | Some 3 =>
      {| n_student_id := userId;
         n_psychologist_id := n_psychologist_id body;
         n_scheduled_date := n_scheduled_date body;
         n_scheduled_time := n_scheduled_time body;
         n_reason_for_visit := n_reason_for_visit body;
         n_notes := n_notes body |}
  | _ => body
  end.

(** The [status_id] the handler writes into the body (1 or 2) is not
    among the fields [AppointmentModel.create] reads. *)
Definition createAppointment (req : Req) (body : NewAppointment) (db : Db) (now : Z)
  : Db * Reply Appointment.t :=
  match r_userId req with
  | Some userId =>
      if userId =? 0 then (db, Json 401 None)
      else
        let conflict :=
          match n_psychologist_id body with
          | Some p =>
              if p =? 0 then false
              else negb (checkAvailability db p (n_scheduled_date body)
                                           (n_scheduled_time body))
          | None => false
          end in
        if conflict then (db, Json 409 None)
        else
          match create db now (ownAppointment req userId body) with
          | Ok (db', a) => (db', Json 201 (Some a))
          | Throw e => (db, Next e)
          end
  | None => (db, Json 401 None)
  end.

(** The body [{ "status": name }] *)
Definition statusOnly (name : string) : Patch :=
  {| p_psychologist_id := None;
     p_scheduled_date := None;
     p_scheduled_time := None;
     p_status_id := None;
     p_status := Some name;
     p_reason_for_visit := None;
     p_notes := None |}.

(** The body [{ "status_id": n }] *)
Definition statusIdOnly (n : Z) : Patch :=
  {| p_psychologist_id := None;
     p_scheduled_date := None;
     p_scheduled_time := None;
     p_status_id := Some n;
     p_status := None;
     p_reason_for_visit := None;
     p_notes := None |}.

(** [pageNo] and [limit] are the numbers [parseInt(..) || 1] and
    [parseInt(..) || 10] give. *)
Definition getMyAppointments (req : Req) (pageNo limit : Z) (db : Db)
  : Reply (list Appointment.t * Z) :=
  match r_userId req with
  | Some userId =>
      if userId =? 0 then Json 401 None
      else
        let found :=
          match r_roleId req with
          | Some 2 => Some (findByPsychologist db userId pageNo limit)
          | Some 3 => Some (findByStudent db userId pageNo limit)
          | _ => None
          end in
        match found with
        | Some (Ok r) => Json 200 (Some r)
        | Some (Throw e) => Next e
        | None => Json 403 None
        end
  | None => Json 401 None
  end.

(** [const map = { PENDING: 1, ASSIGNED: 2, COMPLETED: 3, CANCELLED: 4 }] *)
Definition statusMap (upper : string) : option Z :=
  if String.eqb upper "PENDING" then Some 1
  else if String.eqb upper "ASSIGNED" then Some 2
  else if String.eqb upper "COMPLETED" then Some 3
  else if String.eqb upper "CANCELLED" then Some 4
  else None.

(** The compatibility block: a [status] string without a truthy
    [status_id] is mapped and then deleted. *)
Definition shim (p : Patch) : Patch :=
  match p_status p with
  | Some s =>
      if given (p_status_id p) then p
      else
        {| p_psychologist_id := p_psychologist_id p;
           p_scheduled_date := p_scheduled_date p;
           p_scheduled_time := p_scheduled_time p;
           p_status_id :=
             match statusMap (toUpperCase s) with
             | Some n => Some n
             | None => p_status_id p
             end;
           p_status := None;
           p_reason_for_visit := p_reason_for_visit p;
           p_notes := p_notes p |}
  | None => p
  end.

Definition nonEmpty (o : option string) : bool :=
  match o with
  | Some s => negb (String.eqb s "")
  | None => false
  end.

Definition updateAppointment (appointmentId : Z) (body : Patch) (db : Db) (now : Z)
  : Db * Reply Appointment.t :=
  let updateData := shim body in
  let conflict :=
    match p_psychologist_id updateData, p_scheduled_date updateData,
          p_scheduled_time updateData with
    | Some p, Some d, Some t =>
        negb (p =? 0) && negb (String.eqb d "") && negb (String.eqb t "")
        && negb (checkAvailability db p d t)
    | _, _, _ => false
    end in
  if conflict then (db, Json 409 None)
  else
    match update db now appointmentId updateData with
    | Ok (db', Some a) => (db', Json 200 (Some a))
    | Ok (db', None) => (db', Json 404 None)
    | Throw e => (db, Next e)
    end.

(** [psychologist_id] is [req.body.psychologist_id]; the route
    validates no body. *)
Definition assignPsychologist (appointmentId : Z) (psychologist_id : IdParam)
    (db : Db) (now : Z) : Db * Reply Appointment.t :=
  match findById db appointmentId with
  | None => (db, Json 404 None)
  | Some appointment =>
      match checkAvailabilityFor db psychologist_id (scheduled_date appointment)
                                 (scheduled_time appointment) with
      | Throw e => (db, Next e)
      | Ok false => (db, Json 409 None)
      | Ok true =>
          match AppointmentModel.assignPsychologist db now appointmentId
                  psychologist_id with
          | Ok (db', a) => (db', Json 200 a)
          | Throw e => (db, Next e)
          end
      end
  end.

Definition cancelAppointment (appointmentId : Z) (reason : BindParam)
    (db : Db) (now : Z) : Db * Reply Appointment.t :=
  match cancel db now appointmentId reason with
  | Ok (db', Some a) => (db', Json 200 (Some a))
  | Ok (db', None) => (db', Json 404 None)
  | Throw e => (db, Next e)
  end.

Definition completeAppointment (appointmentId : Z) (notes : BindParam)
    (db : Db) (now : Z) : Db * Reply Appointment.t :=
  match complete db now appointmentId notes with
  | Ok (db', Some a) => (db', Json 200 (Some a))
  | Ok (db', None) => (db', Json 404 None)
  | Throw e => (db, Next e)
  end.

(** The handlers that only read.  A parameter of the query string is
    absent or a text; repeated and bracketed parameters, which Express
    parses into arrays and objects, are left out. *)
Module Reads.

(** [parseInt(q)] of a parameter of the query string; [None] is NaN. *)
Definition queryInt (q : option string) : option Z :=
  match q with
  | Some s => parseInt (JStr s)
  | None => parseInt JUndefined
  end.

(** [parseInt(q) || d] *)
Definition intOr (q : option string) (d : Z) : Z :=
  match queryInt q with
  | Some n => if n =? 0 then d else n
  | None => d
  end.

(** [q ? parseInt(q) : undefined] *)
Definition intIfStated (q : option string) : option Z :=
  if stated q then queryInt q else None.

Record Pagination : Type := {
  pg_page : Z;
  pg_limit : Z;
  pg_total : Z;
  pg_totalPages : Z
}.

(** [Math.ceil(total / limit)], for a [limit] other than 0. *)
Definition ceilDiv (total limit : Z) : Z := - ((- total) / limit).

(** The query string of [GET /]. *)
Record ListQuery : Type := {
  l_page : option string;
  l_limit : option string;
  l_status_id : option string;
  l_psychologist_id : option string;
  l_student_id : option string;
  l_date_from : option string;
  l_date_to : option string
}.

Definition getAllAppointments (q : ListQuery) (db : Db)
  : Reply (list Appointment.t * Pagination) :=
  let pageNo := intOr (l_page q) 1 in
  let limit := intOr (l_limit q) 10 in
  let filters := {| f_statusId := intIfStated (l_status_id q);
                    f_psychologistId := intIfStated (l_psychologist_id q);
                    f_studentId := intIfStated (l_student_id q);
                    f_dateFrom := l_date_from q;
                    f_dateTo := l_date_to q |} in
  match findAll db pageNo limit filters with
  | Ok (rows, total) =>
      Json 200 (Some (rows, {| pg_page := pageNo;
                               pg_limit := limit;
                               pg_total := total;
                               pg_totalPages := ceilDiv total limit |}))
  | Throw e => Next e
  end.

(** [appointmentId] is [parseInt(req.params.id)]. *)
Definition getAppointmentById (appointmentId : Z) (db : Db) : Reply Appointment.t :=
  match findById db appointmentId with
  | None => Json 404 None
  | Some appointment => Json 200 (Some appointment)
  end.

Definition getAppointmentStatistics (psychologist_id date_from date_to : option string)
    (db : Db) : Reply Statistics :=
  Json 200 (Some (getStatistics db (intIfStated psychologist_id) date_from date_to)).

Section Server.

(** The comparison and the order of the collation of the text columns
    of [status_types]. *)
Variable collate : string -> string -> bool.
Variable precedes : string -> string -> bool.

(** What the count of [checkAvailability] gives when the clinician
    bound is NaN, which [parseInt] makes of a text without digits: the
    verdict, or the error of the server. *)
Variable availabilityOfNaN : Db -> string -> string -> Result bool.

Definition getStatusTypes (category : option string) (db : Db)
  : Reply (list StatusType) :=
  if stated category
  then Json 200 (Some (StatusTypeModel.findByCategory collate precedes db
                         (default "" category)))
  else Json 200 (Some (StatusTypeModel.findAll precedes db)).

(** The data of the answer of [GET /check-availability]; NaN is
    [null] in JSON. *)
Record Availability : Type := {
  is_available : bool;
  av_psychologist_id : option Z;
  av_scheduled_date : string;
  av_scheduled_time : string
}.

Definition checkAvailability (psychologist_id scheduled_date scheduled_time
    : option string) (db : Db) : Reply Availability :=
  if negb (stated psychologist_id) || negb (stated scheduled_date)
     || negb (stated scheduled_time)
  then Json 400 None
  else
    let date := default "" scheduled_date in
    let time := default "" scheduled_time in
    let verdict :=
      match queryInt psychologist_id with
      | Some n => Ok (AppointmentModel.checkAvailability db n date time)
      | None => availabilityOfNaN db date time
      end in
    match verdict with
    | Ok isAvailable =>
        Json 200 (Some {| is_available := isAvailable;
                          av_psychologist_id := queryInt psychologist_id;
                          av_scheduled_date := date;
                          av_scheduled_time := time |})
    | Throw e => Next e
    end.

End Server.

End Reads.

End AppointmentController.

(** ** jsonwebtoken *)

Module Jwt.

Record JwtPayload : Type := {
  userId : Z;
  email : string;
  roleId : Z;
  iat : option Z;
  exp : option Z
}.

(** A bearer value is either the compact serialisation of a payload
    together with its HS256 tag, or any other string.  The tag is
    kept symbolically as the key it was computed with: it verifies
    under a secret exactly when that secret is the key. *)
Inductive Token : Type :=
| Opaque (s : string)
| Jws (p : JwtPayload) (key : string).

(** [jwt.sign(payload, secret, { expiresIn })] at clock [now] (in
    seconds); [expiresIn] is already converted to seconds. *)
Definition sign (p : JwtPayload) (secret : string) (expiresIn : Z) (now : Z)
  : Result Token :=
  if String.eqb secret "" then Throw (JsError "secretOrPrivateKey must have a value")
  else Ok (Jws {| userId := userId p;
                  email := email p;
                  roleId := roleId p;
                  iat := Some now;
                  exp := Some (now + expiresIn) |} secret).

(** [jwt.verify(token, secret)] at clock [now]. *)
Definition verify (t : Token) (secret : option string) (now : Z)
  : Result JwtPayload :=
  match t with
  | Opaque _ => Throw JsonWebTokenError
  | Jws p key =>
      match secret with
      | None => Throw JsonWebTokenError
      | Some s =>
          if String.eqb s "" then Throw JsonWebTokenError
          else if negb (String.eqb key s) then Throw JsonWebTokenError
          else
            match exp p with
            | Some e => if now >=? e then Throw TokenExpiredError else Ok p
            | None => Ok p
            end
      end
  end.

End Jwt.

(** ** config/index.ts *)

Record Config : Type := {
  (** [process.env.JWT_SECRET]: undefined when the variable is unset *)
  jwt_secret : option string
}.

(** ["24h"] and ["7d"], in seconds *)
Definition expiresIn : Z := 24 * 60 * 60.
Definition refreshExpiresIn : Z := 7 * 24 * 60 * 60.

(** ** models/User.ts *)

Module UserModel.
Import User.

Definition findById (db : Db) (i : Z) : option User.t :=
  find (fun u => id u =? i) (users db).

(** [SELECT COUNT( * ) ... WHERE email = ? AND id != ?] > 0; the second
    condition is only added for a truthy [excludeId]. *)
Definition emailExists (db : Db) (e : string) (excludeId : Z) : bool :=
  existsb (fun u => String.eqb (email u) e
                    && (if excludeId =? 0 then true else negb (id u =? excludeId)))
          (users db).

(** One assignment [column = ?] of the SET clause on a row.  Column
    names are matched without regard to case, as MySQL does.  The
    value must have the JavaScript type of the column; any other
    value, and NULL for a NOT NULL column, fails the statement. *)
Definition setColumn (field : string) (v : JsValue) (u : User.t)
  : Result User.t :=
  let text (k : string -> User.t) : Result User.t :=
    match v with
    | JStr s => Ok (k s)
    | JNull => Throw ER_BAD_NULL_ERROR
    | _ => Throw ER_TRUNCATED_WRONG_VALUE
    end in
  let textOpt (k : option string -> User.t) : Result User.t :=
    match v with
    | JStr s => Ok (k (Some s))
    | JNull => Ok (k None)
    | _ => Throw ER_TRUNCATED_WRONG_VALUE
    end in
  let flag (k : bool -> User.t) : Result User.t :=
    match v with
    | JBool b => Ok (k b)
    | _ => Throw ER_TRUNCATED_WRONG_VALUE
    end in
  let num (k : Z -> User.t) : Result User.t :=
    match v with
    | JNum n => Ok (k n)
    | JNull => Throw ER_BAD_NULL_ERROR
    | _ => Throw ER_TRUNCATED_WRONG_VALUE
    end in
  let numOpt (k : option Z -> User.t) : Result User.t :=
    match v with
    | JNum n => Ok (k (Some n))
    | JNull => Ok (k None)
    | _ => Throw ER_TRUNCATED_WRONG_VALUE
    end in
  let column := toLowerCase field in
  if String.eqb column "id" then
    num (fun x => Build_t x (email u) (password_hash u) (first_name u) (last_name u)
                    (phone u) (avatar_url u) (role_id u) (is_active u) (is_verified u)
                    (email_verified_at u) (created_at u) (updated_at u) (last_login u))
  else if String.eqb column "email" then
    text (fun x => Build_t (id u) x (password_hash u) (first_name u) (last_name u)
                    (phone u) (avatar_url u) (role_id u) (is_active u) (is_verified u)
                    (email_verified_at u) (created_at u) (updated_at u) (last_login u))
  else if String.eqb column "password_hash" then
    text (fun x => Build_t (id u) (email u) x (first_name u) (last_name u)
                    (phone u) (avatar_url u) (role_id u) (is_active u) (is_verified u)
                    (email_verified_at u) (created_at u) (updated_at u) (last_login u))
  else if String.eqb column "first_name" then
    text (fun x => Build_t (id u) (email u) (password_hash u) x (last_name u)
                    (phone u) (avatar_url u) (role_id u) (is_active u) (is_verified u)
                    (email_verified_at u) (created_at u) (updated_at u) (last_login u))
  else if String.eqb column "last_name" then
    text (fun x => Build_t (id u) (email u) (password_hash u) (first_name u) x
                    (phone u) (avatar_url u) (role_id u) (is_active u) (is_verified u)
                    (email_verified_at u) (created_at u) (updated_at u) (last_login u))
  else if String.eqb column "phone" then
    textOpt (fun x => Build_t (id u) (email u) (password_hash u) (first_name u) (last_name u)
                    x (avatar_url u) (role_id u) (is_active u) (is_verified u)
                    (email_verified_at u) (created_at u) (updated_at u) (last_login u))
  else if String.eqb column "avatar_url" then
    textOpt (fun x => Build_t (id u) (email u) (password_hash u) (first_name u) (last_name u)
                    (phone u) x (role_id u) (is_active u) (is_verified u)
                    (email_verified_at u) (created_at u) (updated_at u) (last_login u))
  else if String.eqb column "role_id" then
    num (fun x => Build_t (id u) (email u) (password_hash u) (first_name u) (last_name u)
                    (phone u) (avatar_url u) x (is_active u) (is_verified u)
                    (email_verified_at u) (created_at u) (updated_at u) (last_login u))
  else if String.eqb column "is_active" then
    flag (fun x => Build_t (id u) (email u) (password_hash u) (first_name u) (last_name u)
                    (phone u) (avatar_url u) (role_id u) x (is_verified u)
                    (email_verified_at u) (created_at u) (updated_at u) (last_login u))
  else if String.eqb column "is_verified" then
    flag (fun x => Build_t (id u) (email u) (password_hash u) (first_name u) (last_name u)
                    (phone u) (avatar_url u) (role_id u) (is_active u) x
                    (email_verified_at u) (created_at u) (updated_at u) (last_login u))
  else if String.eqb column "email_verified_at" then
    numOpt (fun x => Build_t (id u) (email u) (password_hash u) (first_name u) (last_name u)
                    (phone u) (avatar_url u) (role_id u) (is_active u) (is_verified u)
                    x (created_at u) (updated_at u) (last_login u))
  else if String.eqb column "created_at" then
    num (fun x => Build_t (id u) (email u) (password_hash u) (first_name u) (last_name u)
                    (phone u) (avatar_url u) (role_id u) (is_active u) (is_verified u)
                    (email_verified_at u) x (updated_at u) (last_login u))
  else if String.eqb column "updated_at" then
    num (fun x => Build_t (id u) (email u) (password_hash u) (first_name u) (last_name u)
                    (phone u) (avatar_url u) (role_id u) (is_active u) (is_verified u)
                    (email_verified_at u) (created_at u) x (last_login u))
  else if String.eqb column "last_login" then
    numOpt (fun x => Build_t (id u) (email u) (password_hash u) (first_name u) (last_name u)
                    (phone u) (avatar_url u) (role_id u) (is_active u) (is_verified u)
                    (email_verified_at u) (created_at u) (updated_at u) x)
  else Throw ER_BAD_FIELD_ERROR.

(** The assignments of the SET clause, left to right. *)
Fixpoint setColumns (kvs : list (string * JsValue)) (u : User.t)
  : Result User.t :=
  match kvs with
  | [] => Ok u
  | (k, v) :: rest =>
      try! u' := setColumn k v u in
      setColumns rest u'
  end.

(** [, updated_at = CURRENT_TIMESTAMP] *)
Definition touch (now : Z) (u : User.t) : User.t :=
  Build_t (id u) (email u) (password_hash u) (first_name u) (last_name u)
          (phone u) (avatar_url u) (role_id u) (is_active u) (is_verified u)
          (email_verified_at u) (created_at u) now (last_login u).

Fixpoint updateRows (now : Z) (i : Z) (kvs : list (string * JsValue))
    (rows : list User.t) : Result (list User.t) :=
  match rows with
  | [] => Ok []
  | u :: rest =>
      try! u' := (if id u =? i
                  then try! w := setColumns kvs u in Ok (touch now w)
                  else Ok u) in
      try! rest' := updateRows now i kvs rest in
      Ok (u' :: rest')
  end.

Definition columns : list string :=
  [ "id"; "email"; "password_hash"; "first_name"; "last_name"; "phone";
    "avatar_url"; "role_id"; "is_active"; "is_verified"; "email_verified_at";
    "created_at"; "updated_at"; "last_login" ].

(** PRIMARY KEY (id) and UNIQUE (email). *)
Definition uniqueOk (rows : list User.t) : bool :=
  bool_decide (NoDup (id <$> rows)) && bool_decide (NoDup (email <$> rows)).

(** FOREIGN KEY (role_id) REFERENCES roles(id). *)
Definition roleReferenceOk (db : Db) (rows : list User.t) : bool :=
  forallb (fun u => existsb (fun r => r.1 =? role_id u) (roles db)) rows.

Section Statement.

(** [update] pastes every key of [updateData] into the SET clause as
    it is.  A key that is a column name, in whatever letter case, is
    an assignment to that column.  Any other key makes the statement
    what MySQL reads in the text: a syntax error, an unknown column,
    the same column spelled another way ([users.role_id], a quoted
    name), or more than one assignment.  [statement kvs i now db] is
    the table [users] such a statement leaves, for the keys and bind
    values [kvs] and the id [i], or the error of the server. *)
Variable statement : list (string * JsValue) -> Z -> Z -> Db -> Result (list User.t).

(** [update(id, updateData)]: the keys other than ["id"] become the
    SET clause, the values the bind parameters.  The assignments are
    taken in the order of [map_to_list]; they commute unless two keys
    spell the same column. *)
Definition update (db : Db) (now : Z) (i : Z) (updateData : gmap string JsValue)
  : Result (Db * option User.t) :=
  let kvs := filter (fun kv => kv.1 ≠ "id") (map_to_list updateData) in
  match kvs with
  | [] => Throw ER_PARSE_ERROR
  | _ =>
      if existsb (fun kv => match kv.2 with JUndefined => true | _ => false end) kvs
      then Throw BindUndefined
      else if negb (forallb (fun kv => bool_decide (toLowerCase kv.1 ∈ columns)) kvs)
      then
        try! rows := statement kvs i now db in
        let db' := {| roles := roles db;
                      status_types := status_types db;
                      users := rows;
                      appointments := appointments db |} in
        Ok (db', findById db' i)
      else
        try! rows := updateRows now i kvs (users db) in
        if negb (uniqueOk rows) then Throw ER_DUP_ENTRY
        else if negb (roleReferenceOk db rows) then Throw ER_NO_REFERENCED_ROW_2
        else
          let db' := {| roles := roles db;
                        status_types := status_types db;
                        users := rows;
                        appointments := appointments db |} in
          Ok (db', findById db' i)
  end.

End Statement.

End UserModel.

(** ** middleware/auth.ts *)

Module Auth.
Import Jwt.

Definition fallbackSecret : string :=
  "98954c83c7c05d477560ba5a5d7692ae377204987f6d0cf879f5ddc3495a0f22".

(** [(config && config.jwt && config.jwt.secret) || fallback] *)
Definition jwtSecret (cfg : Config) : string :=
  match jwt_secret cfg with
  | Some s => if String.eqb s "" then fallbackSecret else s
  | None => fallbackSecret
  end.

(** [authHeader && authHeader.split(" ")[1]], the header being
    undefined or given by its pieces between single spaces. *)
Definition bearer (authorization : option (list Token)) : option Token :=
  authorization ≫= (fun pieces => pieces !! 1%nat).

(** [!token] *)
Definition missing (t : option Token) : bool :=
  match t with
  | None => true
  | Some (Opaque s) => String.eqb s ""
  | Some (Jws _ _) => false
  end.

Definition authenticateToken (cfg : Config) (db : Db) (now : Z)
    (authorization : option (list Token)) : Gate :=
  match bearer authorization with
  | None => Respond 401
  | Some token =>
      if missing (Some token) then Respond 401
      else
        match verify token (Some (jwtSecret cfg)) now with
        | Ok decoded =>
            match UserModel.findById db (userId decoded) with
            | Some user =>
                if negb (User.is_active user) then Respond 401
                else Continue {| r_user := Some user;
                                 r_userId := Some (User.id user);
                                 r_roleId := Some (User.role_id user) |}
            | None => Respond 401
            end
        | Throw _ => Respond 403
        end
  end.

(** [const roleMap = { 1: "TL_MAYOR", 2: "PSYCHOLOGIST", 3: "STUDENT" }] *)
Definition roleMap (role : Z) : option string :=
  match role with
  | 1 => Some "TL_MAYOR"
  | 2 => Some "PSYCHOLOGIST"
  | 3 => Some "STUDENT"
  | _ => None
  end.

Definition requireRole (allowedRoles : list string) (req : Req) : Gate :=
  match r_user req with
  | None => Respond 401
  | Some user =>
      match roleMap (User.role_id user) with
      | Some userRoleName =>
          if bool_decide (userRoleName ∈ allowedRoles) then Continue req
          else Respond 403
      | None => Respond 403
      end
  end.

Definition requireTLMayor := requireRole ["TL_MAYOR"].
Definition requirePsychologistOrTL := requireRole ["PSYCHOLOGIST"; "TL_MAYOR"].
Definition requireStudentOrTL := requireRole ["STUDENT"; "TL_MAYOR"].

(** [req.userId === resourceUserId]: [undefined] and NaN equal nothing. *)
Definition sameNumber (a b : option Z) : bool :=
  match a, b with
  | Some x, Some y => x =? y
  | _, _ => false
  end.

(** [params_userId] and [params_id] are [req.params.userId] and
    [req.params.id]. *)
Definition requireOwnershipOrRole (allowedRoles : list string) (req : Req)
    (params_userId params_id : JsValue) : Gate :=
  match r_user req with
  | None => Respond 401
  | Some user =>
      let userRoleName := roleMap (User.role_id user) in
      if match userRoleName with
         | Some n => bool_decide (n ∈ allowedRoles)
         | None => false
         end
      then Continue req
      else if bool_decide (userRoleName = Some "TL_MAYOR") then Continue req
      else
        let resourceUserId := parseInt (or_else params_userId params_id) in
        if sameNumber (r_userId req) resourceUserId then Continue req
        else Respond 403
  end.

Definition generateTokens (cfg : Config) (now : Z) (userId : Z) (email : string)
    (roleId : Z) : Result (Token * Token) :=
  let payload := {| userId := userId; email := email; roleId := roleId;
                    iat := None; exp := None |} in
  try! accessToken := sign payload (jwtSecret cfg) expiresIn now in
  try! refreshToken := sign payload (jwtSecret cfg) refreshExpiresIn now in
  Ok (accessToken, refreshToken).

(** [config.jwt.secret.substring(..)] throws a TypeError inside the
    [try] when the secret is undefined; every exception gives [null]. *)
Definition verifyToken (cfg : Config) (now : Z) (token : Token) : option JwtPayload :=
  match jwt_secret cfg with
  | None => None
  | Some secret =>
      match verify token (Some secret) now with
      | Ok decoded => Some decoded
      | Throw _ => None
      end
  end.

End Auth.

(** ** routes/appointments.ts *)

Inductive AppointmentRoute : Type :=
| GetStatusTypes
| GetStatistics
| GetCheckAvailability
| GetAll
| GetMyAppointments
| PostCreate
| GetById
| PutUpdate
| PutAssignPsychologist
| PutCancel
| PutComplete
| GetByStudent
| GetByPsychologist.

(** The role middleware the router mounts in front of each handler. *)
Definition roleGate (r : AppointmentRoute) : option (list string) :=
  match r with
  | GetStatistics | GetAll | PutComplete => Some ["PSYCHOLOGIST"; "TL_MAYOR"]
  | PutAssignPsychologist | GetByStudent | GetByPsychologist => Some ["TL_MAYOR"]
  | GetStatusTypes | GetCheckAvailability | GetMyAppointments | PostCreate
  | GetById | PutUpdate | PutCancel => None
  end.

Definition enterRoute (r : AppointmentRoute) (req : Req) : Gate :=
  match roleGate r with
  | Some allowedRoles => Auth.requireRole allowedRoles req
  | None => Continue req
  end.

(** ** controllers/authController.ts and routes/auth.ts *)

Module AuthController.

(** The columns [updateProfile] removes from the body ("no permitir
    actualizar ciertos campos sensibles") and their values in a row. *)
Definition sensitiveColumns : list string :=
  [ "password_hash"; "role_id"; "id"; "created_at" ].

Definition sensitive (u : User.t) : string * Z * Z * Z :=
  (User.password_hash u, User.role_id u, User.id u, User.created_at u).

(** [updateData.email] as the string [emailExists] compares; a value
    that is not a string matches no address. *)
Definition emailTaken (db : Db) (v : JsValue) (userId : Z) : bool :=
  match v with
  | JStr e => UserModel.emailExists db e userId
  | _ => false
  end.

Section Handlers.

(** The server's reading of a SET clause with a key that is no column
    name, see [UserModel.update]. *)
Variable statement : list (string * JsValue) -> Z -> Z -> Db -> Result (list User.t).

Definition updateProfile (req : Req) (body : gmap string JsValue) (db : Db) (now : Z)
  : Db * Reply User.t :=
  match r_userId req with
  | Some userId =>
      if userId =? 0 then (db, Json 401 None)
      else
        let updateData :=
          delete "created_at" (delete "id" (delete "role_id"
            (delete "password_hash" body))) in
        let email := default JUndefined (updateData !! "email") in
        if truthy email && emailTaken db email userId then (db, Json 409 None)
        else
          match UserModel.update statement db now userId updateData with
          | Ok (db', Some updatedUser) => (db', Json 200 (Some updatedUser))
          | Ok (db', None) => (db', Json 404 None)
          | Throw e => (db, Next e)
          end
  | None => (db, Json 401 None)
  end.

End Handlers.

End AuthController.

Section ProfileRoute.

Variable statement : list (string * JsValue) -> Z -> Z -> Db -> Result (list User.t).

(** Joi's verdict on one value under the rule its key has in the
    schema: the converted value, or [None] when the value is refused.
    The rules themselves (lengths, patterns, URI syntax) are Joi's. *)
Variable joi : string -> JsValue -> option JsValue.

(** The keys of [updateUserSchema]. *)
Definition updateUserSchema : list string :=
  [ "first_name"; "last_name"; "phone"; "avatar_url"; "is_active"; "is_verified" ].

(** [validate(schema)]: [None] is the 400 answer, [Some value] the
    converted body placed in [req.body].  A key outside the schema is
    refused (Joi objects do not allow unknown keys). *)
Definition validate (schema : list string) (body : gmap string JsValue)
  : option (gmap string JsValue) :=
  if forallb (fun kv => bool_decide (kv.1 ∈ schema)
                        && match joi kv.1 kv.2 with
                           | Some _ => true
                           | None => false
                           end)
             (map_to_list body)
  then Some (map_imap joi body)
  else None.

(** [router.put("/profile", authenticateToken, validate(updateUserSchema),
    AuthController.updateProfile)] *)
Definition putProfile (cfg : Config) (authorization : option (list Jwt.Token))
    (body : gmap string JsValue) (db : Db) (now : Z) : Db * Reply User.t :=
  match Auth.authenticateToken cfg db now authorization with
  | Respond status => (db, Json status None)
  | Continue req =>
      match validate updateUserSchema body with
      | None => (db, Json 400 None)
      | Some value => AuthController.updateProfile statement req value db now
      end
  end.

End ProfileRoute.

(** ** Sample data *)

Module Sample.

Definition mkUser (i : Z) (mail : string) (role : Z) (active : bool) : User.t :=
  {| User.id := i; User.email := mail; User.password_hash := "$2a$12$hash";
     User.first_name := "Ana"; User.last_name := "Perez";
     User.phone := None; User.avatar_url := None;
     User.role_id := role; User.is_active := active; User.is_verified := true;
     User.email_verified_at := None; User.created_at := 1000;
     User.updated_at := 1000; User.last_login := None |}.

Definition coordinator : User.t := mkUser 1 "tl@riwi.io" 1 true.
Definition clinician : User.t := mkUser 2 "psy@riwi.io" 2 true.
Definition client : User.t := mkUser 3 "c1@riwi.io" 3 true.
Definition client2 : User.t := mkUser 4 "c2@riwi.io" 3 true.

Definition mkAppointment (i student : Z) (psy : option Z) (date time : string)
    (status : Z) : Appointment.t :=
  {| Appointment.id := i; Appointment.student_id := student;
     Appointment.psychologist_id := psy;
     Appointment.scheduled_date := date; Appointment.scheduled_time := time;
     Appointment.status_id := status;
     Appointment.reason_for_visit := None; Appointment.notes := None;
     Appointment.created_at := 2000; Appointment.updated_at := 2000;
     Appointment.cancelled_at := None; Appointment.completed_at := None |}.

Definition pendingAppt := mkAppointment 1 3 None "2025-03-01" "09:00:00" 1.
Definition assignedAppt := mkAppointment 2 3 (Some 2) "2025-03-02" "10:00:00" 2.
Definition completedAppt := mkAppointment 3 4 (Some 2) "2025-03-03" "11:00:00" 3.
Definition cancelledAppt := mkAppointment 4 4 (Some 2) "2025-03-04" "12:00:00" 4.

Definition db : Db :=
  {| roles := seedRoles;
     status_types := seedStatusTypes;
     users := [coordinator; clinician; client; client2];
     appointments := [pendingAppt; assignedAppt; completedAppt; cancelledAppt] |}.

(** A token for the client, issued at clock 0 under the secret of
    [configured]: it expires at clock 86400. *)
Definition clientToken : Jwt.Token :=
  Jwt.Jws {| Jwt.userId := 3; Jwt.email := "c1@riwi.io"; Jwt.roleId := 3;
             Jwt.iat := Some 0; Jwt.exp := Some 86400 |} "s3cret".

(** The header [Bearer <token>] cut at the space. *)
Definition bearerHeader (t : Jwt.Token) : option (list Jwt.Token) :=
  Some [Jwt.Opaque "Bearer"; t].

Definition configured : Config := {| jwt_secret := Some "s3cret" |}.
Definition unconfigured : Config := {| jwt_secret := None |}.

(** One reading of the keys that are no column names, on which the
    handlers can be run: a key [users.c] is the column [c], as MySQL
    resolves a qualified name, and every other such key is an unknown
    column. *)
Definition unqualified (k : string) : string :=
  if String.prefix "users." k
  then String.substring 6 (String.length k - 6) k
  else k.

Definition qualified (kvs : list (string * JsValue)) (i now : Z) (db : Db)
  : Result (list User.t) :=
  let kvs' := (fun kv => (unqualified kv.1, kv.2)) <$> kvs in
  if forallb (fun kv => bool_decide (toLowerCase kv.1 ∈ UserModel.columns)) kvs'
  then UserModel.updateRows now i kvs' (users db)
  else Throw ER_BAD_FIELD_ERROR.

End Sample.

(** ** middleware/auth.ts, the remaining middleware *)

Module Middleware.
Import Jwt Auth.

(** [optionalAuth]: it never answers; the request goes on with an
    identity attached or without one.  The secret is read without the
    fall-back. *)
Definition optionalAuth (cfg : Config) (db : Db) (now : Z)
    (authorization : option (list Token)) : Req :=
  match bearer authorization with
  | Some token =>
      if missing (Some token) then anonymous
      else
        match verify token (jwt_secret cfg) now with
        | Ok decoded =>
            match UserModel.findById db (userId decoded) with
            | Some user =>
                if User.is_active user then authenticated user else anonymous
            | None => anonymous
            end
        | Throw _ => anonymous
        end
  | None => anonymous
  end.

(** What [verifyRefreshToken] leaves for the handler: the three fields
    it copies from the decoded token into [req.body], or its answer. *)
Inductive RefreshGate : Type :=
| Refreshing (userId : Z) (email : string) (roleId : Z)
| Refused (status : Z).

(** [refreshToken] is [req.body.refreshToken]. *)
Definition verifyRefreshToken (cfg : Config) (now : Z) (refreshToken : option Token)
  : RefreshGate :=
  if missing refreshToken then Refused 401
  else
    match refreshToken with
    | Some token =>
        match verify token (Some (jwtSecret cfg)) now with
        | Ok decoded => Refreshing (userId decoded) (email decoded) (roleId decoded)
        | Throw _ => Refused 403
        end
    | None => Refused 401
    end.

End Middleware.

(** ** controllers/authController.ts, the token handlers *)

Module TokenController.
Import Jwt Auth Middleware.

(** [AuthController.refreshToken] on the body [verifyRefreshToken] has
    filled. *)
Definition refreshToken (cfg : Config) (db : Db) (now : Z) (userId : Z)
    (email : string) (roleId : Z) : Reply (Token * Token) :=
  match UserModel.findById db userId with
  | Some user =>
      if negb (User.is_active user) then Json 401 None
      else
        match generateTokens cfg now userId email roleId with
        | Ok tokens => Json 200 (Some tokens)
        | Throw e => Next e
        end
  | None => Json 401 None
  end.

(** [router.post("/refresh-token", verifyRefreshToken, AuthController.refreshToken)] *)
Definition postRefreshToken (cfg : Config) (db : Db) (now : Z)
    (refreshToken' : option Token) : Reply (Token * Token) :=
  match verifyRefreshToken cfg now refreshToken' with
  | Refused status => Json status None
  | Refreshing userId email roleId => refreshToken cfg db now userId email roleId
  end.

End TokenController.

(** ** models/User.ts, the remaining statements *)

Module UserStore.
Import User.

(** [SELECT * FROM users WHERE email = ?], first row or [null].
    [collate] is the comparison of the collation of the column, which
    the schema leaves to the server. *)
Definition findByEmail (collate : string -> string -> bool) (db : Db) (e : string)
  : option User.t :=
  find (fun u => collate (email u) e) (users db).

Definition setUsers (db : Db) (rows : list User.t) : Db :=
  {| roles := roles db;
     status_types := status_types db;
     users := rows;
     appointments := appointments db |}.

(** [delete]: [UPDATE users SET is_active = FALSE, updated_at =
    CURRENT_TIMESTAMP WHERE id = ?]; the result tells whether a row was
    matched. *)
Definition delete (db : Db) (now : Z) (i : Z) : Db * bool :=
  (setUsers db
     ((fun u => if id u =? i
                then Build_t (id u) (email u) (password_hash u) (first_name u)
                       (last_name u) (phone u) (avatar_url u) (role_id u) false
                       (is_verified u) (email_verified_at u) (created_at u) now
                       (last_login u)
                else u) <$> users db),
   existsb (fun u => id u =? i) (users db)).

(** [UPDATE users SET last_login = CURRENT_TIMESTAMP WHERE id = ?];
    [updated_at] follows by its ON UPDATE clause. *)
Definition updateLastLogin (db : Db) (now : Z) (i : Z) : Db :=
  setUsers db
    ((fun u => if id u =? i
               then Build_t (id u) (email u) (password_hash u) (first_name u)
                      (last_name u) (phone u) (avatar_url u) (role_id u) (is_active u)
                      (is_verified u) (email_verified_at u) (created_at u) now
                      (Some now)
               else u) <$> users db).

End UserStore.

(** ** The slot invariant *)

(** PRIMARY KEY (id) on [appointments], and at most one appointment
    that [checkAvailability] counts for every clinician, date and time. *)
Definition slotInvariant (db : Db) : Prop :=
  NoDup (Appointment.id <$> appointments db)
  /\ forall p d t, p <> 0 ->
       (length (AppointmentModel.occupying db p d t) <= 1)%nat.

(** ** routes/appointments.ts, the URL parameters *)

(** The names the router gives to the parameters of each path. *)
Definition routeParams (r : AppointmentRoute) : list string :=
  match r with
  | GetById | PutUpdate | PutAssignPsychologist | PutCancel | PutComplete => ["id"]
  | GetByStudent => ["studentId"]
  | GetByPsychologist => ["psychologistId"]
  | GetStatusTypes | GetStatistics | GetCheckAvailability | GetAll
  | GetMyAppointments | PostCreate => []
  end.

(** The routes mounted with [validateParams(idParamSchema)]. *)
Definition validatesIdParam (r : AppointmentRoute) : bool :=
  match r with
  | GetById | PutUpdate | PutAssignPsychologist | PutCancel | PutComplete
  | GetByStudent | GetByPsychologist => true
  | GetStatusTypes | GetStatistics | GetCheckAvailability | GetAll
  | GetMyAppointments | PostCreate => false
  end.

Section ParamValidation.

(** Joi's conversion of a value under [Joi.number().integer()]: the
    integer, or [None] when the value is refused. *)
Variable joiInteger : JsValue -> option Z.

(** [validateParams(idParamSchema)], the schema being
    [{ id: Joi.number().integer().positive().required() }]: [None] is
    the 400 answer, [Some n] stands for [req.params = { id: n }].  A
    parameter other than [id] is refused, as Joi objects do not allow
    unknown keys. *)
Definition validateIdParam (params : gmap string JsValue) : option Z :=
  if forallb (fun kv => String.eqb kv.1 "id") (map_to_list params)
  then match params !! "id" with
       | Some v =>
           match joiInteger v with
           | Some n => if 0 <? n then Some n else None
           | None => None
           end
       | None => None
       end
  else None.

(** What stands between [authenticateToken] and the handler of a
    route: parameter validation first, then the role gate. *)
Definition beforeHandler (r : AppointmentRoute) (req : Req)
    (params : gmap string JsValue) : Gate :=
  if validatesIdParam r
  then match validateIdParam params with
       | Some _ => enterRoute r req
       | None => Respond 400
       end
  else enterRoute r req.

End ParamValidation.

(** ** Sample requests *)

Module Requests.


End Requests.

(** ** controllers/userController.ts and routes/users.ts, the update *)

Module UserController.

(** The columns of [users] that are neither keys of [updateUserSchema]
    nor [updated_at]. *)
Definition kept (u : User.t)
  : Z * string * string * Z * option Z * Z * option Z :=
  (User.id u, User.email u, User.password_hash u, User.role_id u,
   User.email_verified_at u, User.created_at u, User.last_login u).

Section Handlers.

(** The server's reading of a SET clause with a key that is no column
    name, see [UserModel.update]. *)
Variable statement : list (string * JsValue) -> Z -> Z -> Db -> Result (list User.t).

(** [updateUser]; [userId] is [parseInt(req.params.id)]. *)
Definition updateUser (userId : Z) (body : gmap string JsValue) (db : Db) (now : Z)
  : Db * Reply User.t :=
  let updateData :=
    delete "created_at" (delete "id" (delete "password_hash" body)) in
  let email := default JUndefined (updateData !! "email") in
  if truthy email && AuthController.emailTaken db email userId then (db, Json 409 None)
  else
    match UserModel.update statement db now userId updateData with
    | Ok (db', Some updatedUser) => (db', Json 200 (Some updatedUser))
    | Ok (db', None) => (db', Json 404 None)
    | Throw e => (db, Next e)
    end.

End Handlers.

(** [deleteUser] *)
Definition deleteUser (userId : Z) (db : Db) (now : Z) : Db * Reply unit :=
  let '(db', deleted) := UserStore.delete db now userId in
  if deleted then (db', Json 200 None) else (db', Json 404 None).

End UserController.

Section UserRoutes.

Variable statement : list (string * JsValue) -> Z -> Z -> Db -> Result (list User.t).
Variable joi : string -> JsValue -> option JsValue.
Variable joiInteger : JsValue -> option Z.

(** [router.put("/:id", validateParams(idParamSchema),
    validate(updateUserSchema), profileUpdateRateLimit,
    requireOwnershipOrRole(["TL_MAYOR"]), UserController.updateUser)]
    behind [router.use(authenticateToken)]; the rate limiter is left
    out. *)
Definition putUser (cfg : Config) (authorization : option (list Jwt.Token))
    (params body : gmap string JsValue) (db : Db) (now : Z) : Db * Reply User.t :=
  match Auth.authenticateToken cfg db now authorization with
  | Respond status => (db, Json status None)
  | Continue req =>
      match validateIdParam joiInteger params with
      | None => (db, Json 400 None)
      | Some n =>
          match validate joi updateUserSchema body with
          | None => (db, Json 400 None)
          | Some value =>
              match Auth.requireOwnershipOrRole ["TL_MAYOR"] req JUndefined (JNum n) with
              | Respond status => (db, Json status None)
              | Continue _ => UserController.updateUser statement n value db now
              end
          end
      end
  end.

(** [router.delete("/:id", validateParams(idParamSchema), requireTLMayor,
    UserController.deleteUser)] *)
Definition deleteUserRoute (cfg : Config) (authorization : option (list Jwt.Token))
    (params : gmap string JsValue) (db : Db) (now : Z) : Db * Reply unit :=
  match Auth.authenticateToken cfg db now authorization with
  | Respond status => (db, Json status None)
  | Continue req =>
      match validateIdParam joiInteger params with
      | None => (db, Json 400 None)
      | Some n =>
          match Auth.requireTLMayor req with
          | Respond status => (db, Json status None)
          | Continue _ => UserController.deleteUser n db now
          end
      end
  end.

End UserRoutes.

(** ** models/User.ts, insertion and the activity table *)

Module UserInsert.
Import User.

(** The fields [UserModel.create] destructures from its argument. *)
Record NewUser : Type := {
  n_email : string;
  n_password_hash : string;
  n_first_name : string;
  n_last_name : string;
  n_phone : option string;
  n_avatar_url : option string;
  n_role_id : Z;
  n_is_active : bool;
  n_is_verified : bool;
  n_email_verified_at : option Z;
  n_last_login : option Z
}.

(** AUTO_INCREMENT on [users]. *)
Definition insertId (db : Db) : Z :=
  1 + foldr Z.max 0 (id <$> users db).

(** [x || null] for an optional string. *)
Definition orNull (o : option string) : option string :=
  match o with
  | Some s => if String.eqb s "" then None else Some s
  | None => None
  end.

(** A byte [10xxxxxx] continues a character of a UTF-8 text. *)
Definition continuation (c : ascii) : bool :=
  let n := nat_of_ascii c in (128 <=? n)%nat && (n <? 192)%nat.

(** The number of characters of a text, which is held in UTF-8. *)
Fixpoint characters (s : string) : nat :=
  match s with
  | String c r => ((if continuation c then 0 else 1) + characters r)%nat
  | EmptyString => 0%nat
  end.

(** The widths of the VARCHAR columns, which count characters; the
    server is taken in its default strict mode, where a longer value
    fails the statement. *)
Definition fits (d : NewUser) : bool :=
  let within (n : nat) (s : string) := (characters s <=? n)%nat in
  within 120%nat (n_email d) && within 255%nat (n_password_hash d)
  && within 100%nat (n_first_name d) && within 100%nat (n_last_name d)
  && within 20%nat (default "" (n_phone d))
  && within 255%nat (default "" (n_avatar_url d)).

(** [create]: the INSERT fails on a value wider than its column, on a
    duplicate [email] (UNIQUE, under the collation of the column) and
    on a [role_id] without row in [roles] (FOREIGN KEY). *)
Definition create (collate : string -> string -> bool) (db : Db) (now : Z)
    (d : NewUser) : Result (Db * User.t) :=
  if negb (fits d) then Throw (JsError "Data too long for column")
  else if existsb (fun u => collate (email u) (n_email d)) (users db)
  then Throw ER_DUP_ENTRY
  else if negb (existsb (fun r => r.1 =? n_role_id d) (roles db))
  then Throw ER_NO_REFERENCED_ROW_2
  else
    let row := Build_t (insertId db) (n_email d) (n_password_hash d) (n_first_name d)
                 (n_last_name d) (orNull (n_phone d)) (orNull (n_avatar_url d))
                 (n_role_id d) (n_is_active d) (n_is_verified d)
                 (n_email_verified_at d) now now (n_last_login d) in
    let db' := UserStore.setUsers db (users db ++ [row])%list in
    match UserModel.findById db' (insertId db) with
    | Some user => Ok (db', user)
    | None => Throw (JsError "Error al crear usuario")
    end.

End UserInsert.

Module UserActivityModel.

(** A row of [user_activity_status], without its surrogate [id]; the
    table is keyed by the UNIQUE [user_id]. *)
Record UserActivityStatus : Type := {
  is_online : bool;
  last_activity_at : option Z;
  last_seen_at : option Z;
  status : string;
  current_page : option string;
  updated_at : Z
}.

(** [Partial<UserActivityStatus>] as the callers fill it. *)
Record ActivityData : Type := {
  d_is_online : option bool;
  d_last_activity_at : option Z;
  d_last_seen_at : option Z;
  d_status : option string;
  d_current_page : option string
}.

(** ENUM('online', 'away', 'offline', 'do_not_disturb') *)
Definition statusEnum : list string :=
  [ "online"; "away"; "offline"; "do_not_disturb" ].

Definition findByUserId (activity : gmap Z UserActivityStatus) (userId : Z)
  : option UserActivityStatus :=
  activity !! userId.

(** [INSERT ... ON DUPLICATE KEY UPDATE]: the row of [userId] is
    written whole.  It fails without a user row (FOREIGN KEY) and on a
    status outside the ENUM. *)
Definition updateActivity (db : Db) (activity : gmap Z UserActivityStatus) (now : Z)
    (userId : Z) (d : ActivityData)
  : Result (gmap Z UserActivityStatus * UserActivityStatus) :=
  let status' :=
    match d_status d with
    | Some s => if String.eqb s "" then "offline" else s
    | None => "offline"
    end in
  if negb (userExists db userId) then Throw ER_NO_REFERENCED_ROW_2
  else if negb (bool_decide (status' ∈ statusEnum)) then Throw ER_TRUNCATED_WRONG_VALUE
  else
    let row := {| is_online := default false (d_is_online d);
                  last_activity_at := Some (default now (d_last_activity_at d));
                  last_seen_at := Some (default now (d_last_seen_at d));
                  status := status';
                  current_page := UserInsert.orNull (d_current_page d);
                  updated_at := now |} in
    let activity' := <[userId := row]> activity in
    match findByUserId activity' userId with
    | Some a => Ok (activity', a)
    | None => Throw (JsError "Error al actualizar actividad del usuario")
    end.

(** [setOffline] *)
Definition setOffline (activity : gmap Z UserActivityStatus) (now : Z) (userId : Z)
  : gmap Z UserActivityStatus :=
  alter (fun a => {| is_online := false;
                     last_activity_at := last_activity_at a;
                     last_seen_at := Some now;
                     status := "offline";
                     current_page := current_page a;
                     updated_at := now |}) userId activity.

End UserActivityModel.

(** ** controllers/authController.ts, the account handlers *)

Section Accounts.
Import UserInsert UserActivityModel.

(** The server's reading of a SET clause with a key that is no column
    name, see [UserModel.update]. *)
Variable statement : list (string * JsValue) -> Z -> Z -> Db -> Result (list User.t).

(** The comparison of the collation of [users.email]. *)
Variable collate : string -> string -> bool.

(** [bcrypt.hash(password, 12)] as a function of the salt it draws and
    the password, and [bcrypt.compare(plain, hash)]. *)
Variable bcryptHash : string -> string -> string.
Variable bcryptCompare : string -> string -> bool.

(** The body of [POST /register] that [registerSchema] accepted. *)
Record RegisterRequest : Type := {
  q_email : string;
  q_password : string;
  q_first_name : string;
  q_last_name : string;
  q_phone : option string;
  q_role_id : Z
}.

Definition online : ActivityData :=
  {| d_is_online := Some true; d_last_activity_at := None; d_last_seen_at := None;
     d_status := Some "online"; d_current_page := None |}.

Definition offline : ActivityData :=
  {| d_is_online := Some false; d_last_activity_at := None; d_last_seen_at := None;
     d_status := Some "offline"; d_current_page := None |}.

(** [AuthController.login]: the answer carries the user row as read
    before [updateLastLogin], and the two tokens. *)
Definition login (cfg : Config) (email password : string) (db : Db)
    (activity : gmap Z UserActivityStatus) (now : Z)
  : Db * gmap Z UserActivityStatus * Reply (User.t * (Jwt.Token * Jwt.Token)) :=
  match UserStore.findByEmail collate db email with
  | None => (db, activity, Json 401 None)
  | Some user =>
      if negb (User.is_active user) then (db, activity, Json 401 None)
      else if negb (bcryptCompare password (User.password_hash user))
      then (db, activity, Json 401 None)
      else
        let db1 := UserStore.updateLastLogin db now (User.id user) in
        match updateActivity db1 activity now (User.id user) online with
        | Throw e => (db1, activity, Next e)
        | Ok (activity', _) =>
            match Auth.generateTokens cfg now (User.id user) (User.email user)
                    (User.role_id user) with
            | Ok tokens => (db1, activity', Json 200 (Some (user, tokens)))
            | Throw e => (db1, activity', Next e)
            end
        end
  end.

(** [{ ...userData, password_hash: passwordHash, is_active: true,
    is_verified: false }]; the body has no other key of the row. *)
Definition userData (body : RegisterRequest) (passwordHash : string) : NewUser :=
  {| n_email := q_email body;
     n_password_hash := passwordHash;
     n_first_name := q_first_name body;
     n_last_name := q_last_name body;
     n_phone := q_phone body;
     n_avatar_url := None;
     n_role_id := q_role_id body;
     n_is_active := true;
     n_is_verified := false;
     n_email_verified_at := None;
     n_last_login := None |}.

(** [AuthController.register]; [salt] is the salt bcrypt draws. *)
Definition register (cfg : Config) (salt : string) (body : RegisterRequest) (db : Db)
    (activity : gmap Z UserActivityStatus) (now : Z)
  : Db * gmap Z UserActivityStatus * Reply (User.t * (Jwt.Token * Jwt.Token)) :=
  match UserStore.findByEmail collate db (q_email body) with
  | Some _ => (db, activity, Json 409 None)
  | None =>
      let passwordHash := bcryptHash salt (q_password body) in
      match create collate db now (userData body passwordHash) with
      | Throw e => (db, activity, Next e)
      | Ok (db1, newUser) =>
          match Auth.generateTokens cfg now (User.id newUser) (User.email newUser)
                  (User.role_id newUser) with
          | Throw e => (db1, activity, Next e)
          | Ok tokens =>
              match updateActivity db1 activity now (User.id newUser) offline with
              | Throw e => (db1, activity, Next e)
              | Ok (activity', _) =>
                  (db1, activity', Json 201 (Some (newUser, tokens)))
              end
          end
      end
  end.

(** [AuthController.changePassword], for a body whose two passwords
    are strings (the route validates nothing, and bcrypt throws on any
    other value). *)
Definition changePassword (salt : string) (req : Req)
    (currentPassword newPassword : string) (db : Db) (now : Z) : Db * Reply unit :=
  match r_userId req with
  | None => (db, Json 401 None)
  | Some userId =>
      if userId =? 0 then (db, Json 401 None)
      else
        match UserModel.findById db userId with
        | None => (db, Json 404 None)
        | Some user =>
            if negb (bcryptCompare currentPassword (User.password_hash user))
            then (db, Json 401 None)
            else
              let newPasswordHash := bcryptHash salt newPassword in
              match UserModel.update statement db now userId
                      {[ "password_hash" := JStr newPasswordHash ]} with
              | Ok (db', _) => (db', Json 200 None)
              | Throw e => (db, Next e)
              end
        end
  end.

(** [AuthController.logout] *)
Definition logout (req : Req) (activity : gmap Z UserActivityStatus) (now : Z)
  : gmap Z UserActivityStatus * Reply unit :=
  match r_userId req with
  | Some userId =>
      if userId =? 0 then (activity, Json 200 None)
      else (setOffline activity now userId, Json 200 None)
  | None => (activity, Json 200 None)
  end.

End Accounts.

(** A stand-in for bcrypt on which the handlers can be run: the hash
    of a password is the password, whatever the salt. *)
Module Plain.

Definition hash (salt password : string) : string := password.

Definition compare (password hashed : string) : bool := String.eqb password hashed.

Definition ana : RegisterRequest :=
  {| q_email := "ana@riwi.io"; q_password := "Secr3t!pw";
     q_first_name := "Ana"; q_last_name := "Perez"; q_phone := None;
     q_role_id := 1 |}.

Definition nobody : gmap Z UserActivityModel.UserActivityStatus := ∅.

End Plain.

(** ** The stored row after a change of password *)

(** The row after [UPDATE users SET password_hash = ?, updated_at =
    CURRENT_TIMESTAMP]. *)
Definition rehashed (now : Z) (i : Z) (h : string) (u : User.t) : User.t :=
  if User.id u =? i
  then User.Build_t (User.id u) (User.email u) h (User.first_name u) (User.last_name u)
         (User.phone u) (User.avatar_url u) (User.role_id u) (User.is_active u)
         (User.is_verified u) (User.email_verified_at u) (User.created_at u) now
         (User.last_login u)
  else u.

(** * Properties *)

(** ** Status names under the seeded table *)

Lemma append_assoc (a b c : string) : ((a ++ b) ++ c = a ++ (b ++ c))%string.
Proof.
  induction a as [|ch a IH]; [done|].
  change (String ch ((a ++ b) ++ c) = String ch (a ++ (b ++ c)))%string.
  by rewrite IH.
Qed.

Lemma hasStatus_seeded (db : Db) (a : Appointment.t) (s : Status) :
  status_types db = seedStatusTypes ->
  hasStatus db a s <-> Appointment.status_id a = statusId s.
Proof.
  intros Hseed. unfold hasStatus, statusNameOf. rewrite Hseed.
  unfold seedStatusTypes. cbn [find st_id st_name].
  repeat match goal with
         | |- context [?x =? ?y] => destruct (Z.eqb_spec x y)
         end; destruct s; cbn; split; intros H; try congruence; try lia;
    try discriminate.
Qed.

Lemma statusIds_seeded (db : Db) (s : Status) :
  status_types db = seedStatusTypes ->
  appointmentStatusIds db (statusName s) = [statusId s].
Proof.
  intros Hseed. unfold appointmentStatusIds. rewrite Hseed. by destruct s.
Qed.

Lemma statusId_seeded (db : Db) (s : Status) :
  status_types db = seedStatusTypes ->
  appointmentStatusId db (statusName s) = Some (statusId s).
Proof.
  intros Hseed. unfold appointmentStatusId. by rewrite (statusIds_seeded _ _ Hseed).
Qed.

(** ** The conflict check *)

Section Availability.
Import Appointment AppointmentModel.

Lemma checkAvailability_occupying (db : Db) (C : Z) (D T : string) :
  checkAvailability db C D T = true <-> occupying db C D T = [].
Proof.
  unfold checkAvailability. rewrite bool_decide_eq_true.
  split; [apply nil_length_inv | by intros ->].
Qed.

Lemma occupying_elem (db : Db) (C : Z) (D T : string) (a : Appointment.t) :
  status_types db = seedStatusTypes ->
  a ∈ occupying db C D T <->
  a ∈ appointments db /\ psychologist_id a = Some C /\ scheduled_date a = D
  /\ scheduled_time a = T /\ ~ hasStatus db a Cancelled.
Proof.
  intros Hseed. unfold occupying. rewrite list_elem_of_filter.
  pose proof (statusIds_seeded db Cancelled Hseed) as Hids.
  cbn [statusName statusId] in Hids. rewrite Hids.
  rewrite (hasStatus_seeded db a Cancelled Hseed). cbn [statusId].
  rewrite list_elem_of_singleton. tauto.
Qed.

Lemma statusName_inj (s1 s2 : Status) : statusName s1 = statusName s2 -> s1 = s2.
Proof. by destruct s1, s2. Qed.

(** C2. [checkAvailability(C, D, T)] is true exactly when no row of
    [appointments] has clinician C, date D and time T with a status
    other than Cancelled.  Hence a Pending, Assigned or Completed row
    at the slot blocks it, and a Cancelled row changes nothing.  Only
    equality of the three columns is tested. *)
Theorem checkAvailability_exact_slot (db : Db) (C : Z) (D T : string) :
  status_types db = seedStatusTypes ->
  (checkAvailability db C D T = true <->
     ~ exists a, a ∈ appointments db
                 /\ psychologist_id a = Some C /\ scheduled_date a = D
                 /\ scheduled_time a = T /\ ~ hasStatus db a Cancelled)
  /\ (forall a s, a ∈ appointments db ->
        psychologist_id a = Some C -> scheduled_date a = D -> scheduled_time a = T ->
        hasStatus db a s -> s <> Cancelled ->
        checkAvailability db C D T = false)
  /\ (forall a, hasStatus db a Cancelled ->
        checkAvailability {| roles := roles db;
                             status_types := status_types db;
                             users := users db;
                             appointments := a :: appointments db |} C D T
        = checkAvailability db C D T).
Proof.
  intros Hseed.
  assert (Hiff : checkAvailability db C D T = true <->
     ~ exists a, a ∈ appointments db
                 /\ psychologist_id a = Some C /\ scheduled_date a = D
                 /\ scheduled_time a = T /\ ~ hasStatus db a Cancelled).
  { rewrite checkAvailability_occupying. split.
    - intros Hnil [a Ha]. apply (occupying_elem db C D T a Hseed) in Ha.
      rewrite Hnil in Ha. by apply not_elem_of_nil in Ha.
    - intros Hnone. destruct (occupying db C D T) as [|a l] eqn:E; [done|].
      exfalso. apply Hnone. exists a. apply (occupying_elem db C D T a Hseed).
      rewrite E. apply list_elem_of_here. }
  split; [exact Hiff|]. split.
  - intros a s Hin Hc Hd Ht Hs Hne.
    apply not_true_is_false. intros Hfree. apply Hiff in Hfree. apply Hfree.
    exists a. repeat split; try done.
    unfold hasStatus in *. rewrite Hs. intros [=Heq].
    by apply (statusName_inj s Cancelled) in Heq.
  - intros a Ha. unfold checkAvailability, occupying. cbn [appointments status_types].
    rewrite filter_cons_False; [done|].
    intros (_ & _ & _ & Hnot). apply Hnot.
    pose proof (statusIds_seeded db Cancelled Hseed) as Hids.
    cbn [statusName statusId] in Hids.
    unfold appointmentStatusIds in Hids |- *. cbn [status_types]. rewrite Hids.
    apply (hasStatus_seeded db a Cancelled Hseed) in Ha. rewrite Ha.
    apply list_elem_of_here.
Qed.

Lemma checkAvailability_exact_slot_witness :
  checkAvailability Sample.db 2 "2025-03-04" "12:00:00" = true
  /\ checkAvailability Sample.db 2 "2025-03-03" "11:00:00" = false.
Proof.
  pose proof (checkAvailability_exact_slot Sample.db 2 "2025-03-03" "11:00:00"
                eq_refl) as (_ & Hblock & _).
  split; [reflexivity|].
  apply (Hblock Sample.completedAppt Completed); try reflexivity; try discriminate.
  unfold Sample.db; cbn [appointments].
  do 2 apply list_elem_of_further. apply list_elem_of_here.
Defined.

End Availability.

(** ** Transitions of the appointment model *)

Section Transitions.
Import Appointment AppointmentModel AppointmentController.

Lemma find_fmap_update (i : Z) (f : Appointment.t -> Appointment.t)
    (l : list Appointment.t) (a : Appointment.t) :
  (forall x, id (f x) = id x) ->
  find (fun x => id x =? i) l = Some a ->
  find (fun x => id x =? i) ((fun x => if id x =? i then f x else x) <$> l)
  = Some (f a).
Proof.
  intros Hid. induction l as [|b l IH]; [done|].
  cbn [find fmap list_fmap].
  destruct (id b =? i) eqn:E.
  - rewrite Hid, E. by intros [= ->].
  - rewrite E. exact IH.
Qed.

Lemma findById_updateWhereId (db : Db) (i : Z) (f : Appointment.t -> Appointment.t)
    (a : Appointment.t) :
  (forall x, id (f x) = id x) ->
  findById db i = Some a ->
  findById (updateWhereId db i f) i = Some (f a).
Proof. intros Hid Hfind. unfold findById, updateWhereId. cbn [appointments].
       by apply find_fmap_update. Qed.

Lemma cancel_existing (db : Db) (now i : Z) (a : Appointment.t) (reason : BindParam) :
  status_types db = seedStatusTypes ->
  findById db i = Some a ->
  reason <> BUndefined ->
  exists db' a',
    cancel db now i reason = Ok (db', Some a')
    /\ status_types db' = status_types db
    /\ findById db' i = Some a'
    /\ status_id a' = 4
    /\ notes a' = Some (appendNote (notes a) (newline ++ "Razón de cancelación: ") reason)
    /\ cancelled_at a' = Some now.
Proof.
  intros Hseed Hfind Hreason. unfold cancel. rewrite Hfind.
  pose proof (statusId_seeded db Cancelled Hseed) as Hsid.
  cbn [statusName statusId] in Hsid. rewrite Hsid.
  destruct reason; [done | |];
    (erewrite findById_updateWhereId; [|done|exact Hfind]);
    eexists _, _; (split; [reflexivity|]); (split; [done|]);
    (split; [erewrite findById_updateWhereId; [reflexivity|done|exact Hfind]|]); done.
Qed.

Lemma complete_existing (db : Db) (now i : Z) (a : Appointment.t) (notes' : BindParam) :
  status_types db = seedStatusTypes ->
  findById db i = Some a ->
  notes' <> BUndefined ->
  exists db' a',
    complete db now i notes' = Ok (db', Some a')
    /\ status_types db' = status_types db
    /\ findById db' i = Some a'
    /\ status_id a' = 3
    /\ notes a' = Some (appendNote (notes a) (newline ++ "Notas de finalización: ") notes')
    /\ completed_at a' = Some now.
Proof.
  intros Hseed Hfind Hnotes. unfold complete. rewrite Hfind.
  pose proof (statusId_seeded db Completed Hseed) as Hsid.
  cbn [statusName statusId] in Hsid. rewrite Hsid.
  destruct notes'; [done | |];
    (erewrite findById_updateWhereId; [|done|exact Hfind]);
    eexists _, _; (split; [reflexivity|]); (split; [done|]);
    (split; [erewrite findById_updateWhereId; [reflexivity|done|exact Hfind]|]); done.
Qed.

Lemma assign_existing (db : Db) (now i p : Z) (a : Appointment.t) :
  status_types db = seedStatusTypes ->
  findById db i = Some a ->
  userExists db p = true ->
  exists db' a',
    AppointmentModel.assignPsychologist db now i (INum p) = Ok (db', Some a')
    /\ status_types db' = status_types db
    /\ findById db' i = Some a'
    /\ status_id a' = 2
    /\ psychologist_id a' = Some p.
Proof.
  intros Hseed Hfind Huser. unfold AppointmentModel.assignPsychologist.
  cbn [stored]. rewrite Hfind, Huser.
  pose proof (statusId_seeded db Assigned Hseed) as Hsid.
  cbn [statusName statusId] in Hsid. rewrite Hsid. cbn [negb].
  erewrite findById_updateWhereId; [|done|exact Hfind].
  eexists _, _. split; [reflexivity|]. split; [done|].
  split; [erewrite findById_updateWhereId; [reflexivity|done|exact Hfind]|]. done.
Qed.

End Transitions.

(** ** The lifecycle as the handlers implement it *)

Section Lifecycle.
Import Appointment AppointmentModel AppointmentController.

(** C1, as stated, fails: a Completed appointment is cancelled by
    [PUT /:id/cancel]; the call answers 200 and the row is Cancelled
    afterwards. *)
Lemma terminal_cancel_counterexample :
  findById Sample.db 3 = Some Sample.completedAppt
  /\ hasStatus Sample.db Sample.completedAppt Completed
  /\ exists db' a',
       cancelAppointment 3 (BText "no show") Sample.db 5000 = (db', Json 200 (Some a'))
       /\ findById db' 3 = Some a'
       /\ hasStatus db' a' Cancelled
       /\ ~ hasStatus db' a' Completed.
Proof.
  split; [reflexivity|]. split; [reflexivity|].
  eexists _, _. split; [reflexivity|]. split; [reflexivity|].
  split; [reflexivity|]. intros H. discriminate H.
Qed.

(** C1 (amended). No state is terminal for the handlers: on an
    existing appointment whose status is Completed or Cancelled,
    cancel (with a reason that is a string or null) answers 200 and
    leaves it Cancelled, complete (with notes that are a string or
    null) answers 200 and leaves it Completed, and assign (for an
    existing clinician whose slot is free) answers 200 and leaves it
    Assigned. *)
Theorem terminal_status_overwritten (db : Db) (now i : Z) (a : Appointment.t) :
  status_types db = seedStatusTypes ->
  findById db i = Some a ->
  hasStatus db a Completed \/ hasStatus db a Cancelled ->
  (forall reason, reason <> BUndefined ->
     exists db' a',
       cancelAppointment i reason db now = (db', Json 200 (Some a'))
       /\ findById db' i = Some a' /\ hasStatus db' a' Cancelled)
  /\ (forall notes', notes' <> BUndefined ->
     exists db' a',
       completeAppointment i notes' db now = (db', Json 200 (Some a'))
       /\ findById db' i = Some a' /\ hasStatus db' a' Completed)
  /\ (forall p, userExists db p = true ->
        checkAvailability db p (scheduled_date a) (scheduled_time a) = true ->
     exists db' a',
       AppointmentController.assignPsychologist i (INum p) db now
         = (db', Json 200 (Some a'))
       /\ findById db' i = Some a' /\ hasStatus db' a' Assigned).
Proof.
  intros Hseed Hfind _. repeat split.
  - intros reason Hr.
    destruct (cancel_existing db now i a reason Hseed Hfind Hr)
      as (db' & a' & Hc & Hst & Hf & Hs & _).
    exists db', a'. unfold cancelAppointment. rewrite Hc.
    repeat split; [done|]. apply hasStatus_seeded; [congruence|done].
  - intros notes' Hn.
    destruct (complete_existing db now i a notes' Hseed Hfind Hn)
      as (db' & a' & Hc & Hst & Hf & Hs & _).
    exists db', a'. unfold completeAppointment. rewrite Hc.
    repeat split; [done|]. apply hasStatus_seeded; [congruence|done].
  - intros p Hu Hfree.
    destruct (assign_existing db now i p a Hseed Hfind Hu)
      as (db' & a' & Hc & Hst & Hf & Hs & _).
    exists db', a'. unfold AppointmentController.assignPsychologist.
    cbn [checkAvailabilityFor]. rewrite Hfind, Hfree, Hc.
    repeat split; [done|]. apply hasStatus_seeded; [congruence|done].
Qed.

Lemma terminal_status_overwritten_witness :
  exists db' a',
    completeAppointment 4 (BText "late") Sample.db 5000 = (db', Json 200 (Some a'))
    /\ findById db' 4 = Some a' /\ hasStatus db' a' Completed.
Proof.
  destruct (terminal_status_overwritten Sample.db 5000 4 Sample.cancelledAppt
              eq_refl eq_refl (or_intror eq_refl)) as (_ & Hcomplete & _).
  apply Hcomplete. discriminate.
Defined.

(** C4, as stated, fails: a Pending appointment without clinician
    is completed by [PUT /:id/complete]. *)
Lemma complete_pending_counterexample :
  findById Sample.db 1 = Some Sample.pendingAppt
  /\ hasStatus Sample.db Sample.pendingAppt Pending
  /\ psychologist_id Sample.pendingAppt = None
  /\ exists db' a',
       completeAppointment 1 (BText "done") Sample.db 5000 = (db', Json 200 (Some a'))
       /\ findById db' 1 = Some a'
       /\ hasStatus db' a' Completed.
Proof.
  split; [reflexivity|]. split; [reflexivity|]. split; [reflexivity|].
  eexists _, _. split; [reflexivity|]. split; reflexivity.
Qed.

(** C4 (amended). [complete] does not look at the current status.
    For every existing appointment, Pending ones included, complete
    called with notes answers 200, leaves the appointment Completed,
    appends the notes under the completion label and records the
    completion time; for an id without appointment it answers 404
    and changes nothing. *)
Theorem complete_from_any_status (db : Db) (now i : Z) (n : string) :
  status_types db = seedStatusTypes ->
  (forall a, findById db i = Some a ->
     exists db' a',
       completeAppointment i (BText n) db now = (db', Json 200 (Some a'))
       /\ findById db' i = Some a'
       /\ hasStatus db' a' Completed
       /\ notes a' = Some (default "" (notes a)
                           ++ newline ++ "Notas de finalización: " ++ n)
       /\ completed_at a' = Some now)
  /\ (findById db i = None ->
      completeAppointment i (BText n) db now = (db, Json 404 None)).
Proof.
  intros Hseed. split.
  - intros a Hfind.
    destruct (complete_existing db now i a (BText n) Hseed Hfind)
      as (db' & a' & Hc & Hst & Hf & Hs & Hn & Ht); [done|].
    exists db', a'. unfold completeAppointment. rewrite Hc.
    split; [done|]. split; [done|].
    split; [apply hasStatus_seeded; [congruence|done]|].
    split; [|done].
    rewrite Hn. unfold appendNote. by rewrite append_assoc.
  - intros Hnone. unfold completeAppointment, complete. by rewrite Hnone.
Qed.

Lemma complete_from_any_status_witness :
  exists db' a',
    completeAppointment 1 (BText "done") Sample.db 5000 = (db', Json 200 (Some a'))
    /\ findById db' 1 = Some a'
    /\ hasStatus db' a' Completed
    /\ notes a' = Some (default "" (notes Sample.pendingAppt)
                        ++ newline ++ "Notas de finalización: " ++ "done")
    /\ completed_at a' = Some 5000.
Proof.
  destruct (complete_from_any_status Sample.db 5000 1 "done" eq_refl) as [Hsome _].
  apply Hsome. reflexivity.
Defined.

End Lifecycle.

(** ** Creation *)

Section Creation.
Import Appointment AppointmentModel AppointmentController.

Lemma id_below_insertId (l : list Appointment.t) (x : Appointment.t) :
  x ∈ l -> id x <= foldr Z.max 0 (id <$> l).
Proof.
  induction l as [|b l IH]; intros Hin.
  - by apply not_elem_of_nil in Hin.
  - apply elem_of_cons in Hin as [->|Hin]; cbn [fmap list_fmap foldr].
    + lia.
    + specialize (IH Hin). lia.
Qed.

Lemma find_appended (l : list Appointment.t) (row : Appointment.t) (i : Z) :
  id row = i ->
  (forall x, x ∈ l -> id x <> i) ->
  find (fun x => id x =? i) (l ++ [row]) = Some row.
Proof.
  intros <-. induction l as [|b l IH]; intros Hfresh; cbn [app find].
  - by rewrite Z.eqb_refl.
  - destruct (Z.eqb_spec (id b) (id row)) as [E|_].
    + exfalso. apply (Hfresh b); [apply list_elem_of_here|done].
    + apply IH. intros x Hx. apply Hfresh. by apply list_elem_of_further.
Qed.

Lemma create_inserts (db : Db) (now : Z) (d : NewAppointment) :
  status_types db = seedStatusTypes ->
  match create db now d with
  | Ok (db', a) =>
      referencesOk db d = true
      /\ status_types db' = status_types db
      /\ appointments db' = (appointments db ++ [a])%list
      /\ findById db' (id a) = Some a
      /\ status_id a = (if given (n_psychologist_id d) then 2 else 1)
      /\ psychologist_id a = n_psychologist_id d
      /\ student_id a = n_student_id d
  | Throw e => referencesOk db d = false
  end.
Proof.
  intros Hseed. unfold create.
  assert (Hsid : appointmentStatusId db
                   (if given (n_psychologist_id d) then "ASSIGNED" else "PENDING")
                 = Some (if given (n_psychologist_id d) then 2 else 1)).
  { destruct (given _).
    - exact (statusId_seeded db Assigned Hseed).
    - exact (statusId_seeded db Pending Hseed). }
  rewrite Hsid.
  replace ((if given (n_psychologist_id d) then 2 else 1) =? 0) with false
    by (by destruct (given _)).
  destruct (referencesOk db d) eqn:Hfk; cbn [negb]; [|done].
  assert (Hfresh : forall x, x ∈ appointments db -> id x <> insertId db).
  { intros x Hx. unfold insertId. pose proof (id_below_insertId _ _ Hx). lia. }
  unfold findById at 1. cbn [appointments].
  erewrite find_appended; [|reflexivity|exact Hfresh].
  repeat split; try done.
  unfold findById. cbn [appointments id]. by apply find_appended.
Qed.

Lemma ownAppointment_psychologist (req : Req) (uid : Z) (body : NewAppointment) :
  n_psychologist_id (ownAppointment req uid body) = n_psychologist_id body.
Proof. unfold ownAppointment. by repeat case_match. Qed.

(** C3. A create request without clinician yields a Pending
    appointment.  With a clinician, a passing conflict check yields an
    Assigned appointment of that clinician, and a failing one is
    answered 409 with the store unchanged.  In both creating cases
    the row is inserted as soon as the users it references exist. *)
Theorem createAppointment_status (req : Req) (body : NewAppointment) (db : Db)
    (now uid : Z) :
  status_types db = seedStatusTypes ->
  r_userId req = Some uid -> uid <> 0 ->
  (given (n_psychologist_id body) = false ->
     (forall db' a, createAppointment req body db now = (db', Json 201 (Some a)) ->
        hasStatus db' a Pending /\ findById db' (id a) = Some a)
     /\ (referencesOk db (ownAppointment req uid body) = true ->
         exists db' a, createAppointment req body db now = (db', Json 201 (Some a))))
  /\ (forall p, n_psychologist_id body = Some p -> p <> 0 ->
       (checkAvailability db p (n_scheduled_date body) (n_scheduled_time body) = true ->
          (forall db' a, createAppointment req body db now = (db', Json 201 (Some a)) ->
             hasStatus db' a Assigned /\ psychologist_id a = Some p
             /\ findById db' (id a) = Some a)
          /\ (referencesOk db (ownAppointment req uid body) = true ->
              exists db' a, createAppointment req body db now = (db', Json 201 (Some a))))
       /\ (checkAvailability db p (n_scheduled_date body) (n_scheduled_time body) = false ->
           createAppointment req body db now = (db, Json 409 None)
           /\ appointments (createAppointment req body db now).1 = appointments db)).
Proof.
  intros Hseed Huid Hnz.
  pose proof (create_inserts db now (ownAppointment req uid body) Hseed) as Hcreate.
  rewrite ownAppointment_psychologist in Hcreate.
  unfold createAppointment. rewrite Huid.
  destruct (Z.eqb_spec uid 0) as [|_]; [done|].
  split.
  - intros Hnone.
    assert (Hconf : match n_psychologist_id body with
                    | Some p => if p =? 0 then false
                                else negb (checkAvailability db p (n_scheduled_date body)
                                             (n_scheduled_time body))
                    | None => false
                    end = false).
    { destruct (n_psychologist_id body) as [p|]; [|done].
      cbn [given] in Hnone. by destruct (p =? 0). }
    rewrite Hconf, Hnone in *.
    destruct (create db now (ownAppointment req uid body)) as [[db1 a1]|e].
    + destruct Hcreate as (Hfk & Hst & _ & Hfind & Hsid & _).
      split; [|by eexists _, _].
      intros db' a [= <- <-]. split; [|done].
      apply hasStatus_seeded; [congruence|done].
    + split; [done|]. intros Hfk. congruence.
  - intros p Hp Hpnz. rewrite Hp in *. cbn [given] in Hcreate.
    destruct (Z.eqb_spec p 0) as [|_]; [done|]. cbn [negb] in Hcreate.
    split.
    + intros Hfree. rewrite Hfree. cbn [negb].
      destruct (create db now (ownAppointment req uid body)) as [[db1 a1]|e].
      * destruct Hcreate as (Hfk & Hst & _ & Hfind & Hsid & Hpsy & _).
        split; [|by eexists _, _].
        intros db' a [= <- <-]. split; [|done].
        apply hasStatus_seeded; [congruence|done].
      * split; [done|]. intros Hfk. congruence.
    + intros Hbusy. rewrite Hbusy. by cbn.
Qed.

Lemma createAppointment_status_witness :
  exists db' a,
    createAppointment (authenticated Sample.client)
      {| n_student_id := 3; n_psychologist_id := None;
         n_scheduled_date := "2025-04-01"; n_scheduled_time := "09:00:00";
         n_reason_for_visit := None; n_notes := None |} Sample.db 5000
    = (db', Json 201 (Some a)).
Proof.
  destruct (createAppointment_status (authenticated Sample.client)
      {| n_student_id := 3; n_psychologist_id := None;
         n_scheduled_date := "2025-04-01"; n_scheduled_time := "09:00:00";
         n_reason_for_visit := None; n_notes := None |} Sample.db 5000 3
      eq_refl eq_refl) as [Hnone _]; [discriminate|].
  destruct (Hnone eq_refl) as [_ Hmade]. apply Hmade. reflexivity.
Defined.

End Creation.

(** ** The generic update *)

Section GenericUpdate.
Import Appointment AppointmentModel AppointmentController.

Lemma statusTypeExists_seeded (db : Db) (s : Status) :
  status_types db = seedStatusTypes -> statusTypeExists db (statusId s) = true.
Proof. intros Hseed. unfold statusTypeExists. rewrite Hseed. by destruct s. Qed.

Lemma update_status_id (db : Db) (now i : Z) (a : Appointment.t) (s : Status) :
  status_types db = seedStatusTypes ->
  findById db i = Some a ->
  exists db' a',
    update db now i (statusIdOnly (statusId s)) = Ok (db', Some a')
    /\ findById db' i = Some a'
    /\ hasStatus db' a' s.
Proof.
  intros Hseed Hfind. unfold update, statusIdOnly.
  cbn [fields present p_psychologist_id p_scheduled_date p_scheduled_time
       p_status_id p_status p_reason_for_visit p_notes app].
  rewrite Hfind, (statusTypeExists_seeded db s Hseed). cbn [negb andb].
  erewrite findById_updateWhereId; [|done|exact Hfind].
  eexists _, _. split; [reflexivity|].
  split; [erewrite findById_updateWhereId; [reflexivity|done|exact Hfind]|].
  by apply hasStatus_seeded.
Qed.

(** C5, as stated, fails: [PUT /:id] with the body
    [{ "status": "PENDING" }] moves a Completed appointment back to
    Pending. *)
Lemma update_completed_counterexample :
  findById Sample.db 3 = Some Sample.completedAppt
  /\ hasStatus Sample.db Sample.completedAppt Completed
  /\ exists db' a',
       updateAppointment 3 (statusOnly "PENDING") Sample.db 5000
         = (db', Json 200 (Some a'))
       /\ findById db' 3 = Some a'
       /\ hasStatus db' a' Pending.
Proof.
  split; [reflexivity|]. split; [reflexivity|].
  eexists _, _. split; [reflexivity|]. split; reflexivity.
Qed.

(** C5 (amended). The generic update applies no transition rule.
    For every existing appointment, whatever its status, and every
    target status, a body carrying only the symbolic name of the
    target, or only its status id, is answered 200 and leaves the
    appointment in the target status.  The one check the handler
    makes is the conflict check, when clinician, date and time are
    all supplied: a taken slot is answered 409 and nothing is
    written. *)
Theorem update_overwrites_status (db : Db) (now i : Z) (a : Appointment.t)
    (target : Status) :
  status_types db = seedStatusTypes ->
  findById db i = Some a ->
  (exists db' a',
     updateAppointment i (statusOnly (statusName target)) db now
       = (db', Json 200 (Some a'))
     /\ findById db' i = Some a' /\ hasStatus db' a' target)
  /\ (exists db' a',
     updateAppointment i (statusIdOnly (statusId target)) db now
       = (db', Json 200 (Some a'))
     /\ findById db' i = Some a' /\ hasStatus db' a' target)
  /\ (forall body p d t,
        p_psychologist_id (shim body) = Some p -> p <> 0 ->
        p_scheduled_date (shim body) = Some d -> d <> "" ->
        p_scheduled_time (shim body) = Some t -> t <> "" ->
        checkAvailability db p d t = false ->
        updateAppointment i body db now = (db, Json 409 None)).
Proof.
  intros Hseed Hfind.
  destruct (update_status_id db now i a target Hseed Hfind)
    as (db' & a' & Hup & Hf & Hs).
  assert (Hshim : shim (statusOnly (statusName target))
                  = statusIdOnly (statusId target)) by (by destruct target).
  repeat split.
  - exists db', a'. unfold updateAppointment. by rewrite Hshim, Hup.
  - exists db', a'. unfold updateAppointment.
    change (shim (statusIdOnly (statusId target)))
      with (statusIdOnly (statusId target)).
    by rewrite Hup.
  - intros body p d t Hp Hpnz Hd Hdnz Ht Htnz Hbusy.
    unfold updateAppointment. rewrite Hp, Hd, Ht, Hbusy.
    destruct (Z.eqb_spec p 0) as [|_]; [done|].
    destruct (String.eqb_spec d "") as [|_]; [done|].
    destruct (String.eqb_spec t "") as [|_]; [done|].
    done.
Qed.

Lemma update_overwrites_status_witness :
  exists db' a',
    updateAppointment 4 (statusOnly "ASSIGNED") Sample.db 5000
      = (db', Json 200 (Some a'))
    /\ findById db' 4 = Some a' /\ hasStatus db' a' Assigned.
Proof.
  destruct (update_overwrites_status Sample.db 5000 4 Sample.cancelledAppt Assigned
              eq_refl eq_refl) as [Hname _].
  exact Hname.
Defined.

End GenericUpdate.

(** ** Authentication and authorization *)

Section Access.
Import Jwt Auth.

(** C6, as stated, fails: an expired token and a malformed token are
    both answered 403, the status [requireRole] answers to an
    authenticated client it denies. *)
Lemma invalid_token_counterexample :
  verify Sample.clientToken (Some (jwtSecret Sample.configured)) 100000
    = Throw TokenExpiredError
  /\ authenticateToken Sample.configured Sample.db 100000
       (Sample.bearerHeader Sample.clientToken) = Respond 403
  /\ authenticateToken Sample.configured Sample.db 100000
       (Sample.bearerHeader (Opaque "not.a.token")) = Respond 403
  /\ requireRole ["TL_MAYOR"] (authenticated Sample.client) = Respond 403.
Proof. repeat split; reflexivity. Qed.

(** C6 (amended). A request without bearer value is answered 401,
    and so is one whose token verifies but names no user or an
    inactive one.  A request whose token is present but does not
    verify (malformed, wrongly signed or expired) is answered 403,
    the status the role gate answers to an authenticated request it
    denies; the two are not told apart by status. *)
Theorem authenticateToken_statuses (cfg : Config) (db : Db) (now : Z)
    (authorization : option (list Token)) :
  (missing (bearer authorization) = true ->
     authenticateToken cfg db now authorization = Respond 401)
  /\ (forall t, bearer authorization = Some t -> missing (Some t) = false ->
        (forall e, verify t (Some (jwtSecret cfg)) now = Throw e ->
           authenticateToken cfg db now authorization = Respond 403)
        /\ (forall p, verify t (Some (jwtSecret cfg)) now = Ok p ->
             match UserModel.findById db (userId p) with
             | Some u =>
                 if User.is_active u
                 then authenticateToken cfg db now authorization
                      = Continue (authenticated u)
                 else authenticateToken cfg db now authorization = Respond 401
             | None => authenticateToken cfg db now authorization = Respond 401
             end))
  /\ (forall p e, exp p = Some e -> e <= now ->
        authenticateToken cfg db now (Some [Opaque "Bearer"; Jws p (jwtSecret cfg)])
        = Respond 403)
  /\ (forall allowedRoles req u name,
        r_user req = Some u -> roleMap (User.role_id u) = Some name ->
        name ∉ allowedRoles ->
        requireRole allowedRoles req = Respond 403).
Proof.
  split; [|split; [|split]].
  - unfold authenticateToken. destruct (bearer authorization) as [t|]; [|done].
    by intros ->.
  - intros t Hbearer Hpresent. split.
    + intros e He. unfold authenticateToken. by rewrite Hbearer, Hpresent, He.
    + intros p Hp. unfold authenticateToken. rewrite Hbearer, Hpresent, Hp.
      destruct (UserModel.findById db (userId p)) as [u|]; [|done].
      by destruct (User.is_active u).
  - intros p e He Hle. unfold authenticateToken, bearer, verify.
    cbn [mbind option_bind lookup list_lookup missing].
    assert (Hs : String.eqb (jwtSecret cfg) "" = false).
    { unfold jwtSecret. destruct (jwt_secret cfg) as [s|]; [|done].
      destruct (String.eqb s "") eqn:E; [done|exact E]. }
    rewrite Hs, String.eqb_refl, He. cbn [negb].
    destruct (Z.geb_spec now e); [done|lia].
  - intros allowedRoles req u name Hu Hname Hnot. unfold requireRole.
    rewrite Hu, Hname. by rewrite bool_decide_eq_false_2.
Qed.

Lemma authenticateToken_statuses_witness :
  authenticateToken Sample.configured Sample.db 100000 None = Respond 401
  /\ authenticateToken Sample.configured Sample.db 100000
       (Sample.bearerHeader Sample.clientToken) = Respond 403.
Proof.
  destruct (authenticateToken_statuses Sample.configured Sample.db 100000 None)
    as (Hmissing & _).
  destruct (authenticateToken_statuses Sample.configured Sample.db 100000
              (Sample.bearerHeader Sample.clientToken)) as (_ & Hinvalid & _).
  split; [apply Hmissing; reflexivity|].
  destruct (Hinvalid Sample.clientToken eq_refl eq_refl) as [Hthrow _].
  apply (Hthrow TokenExpiredError). reflexivity.
Defined.



End Access.

(** ** The coordinator and the appointment routes *)

Section Coordinator.
Import Appointment AppointmentModel AppointmentController.

(** C8, as stated, fails: [GET /my-appointments] has no role gate
    and its handler answers 403 to a coordinator. *)
Lemma coordinator_my_appointments_counterexample :
  User.role_id Sample.coordinator = 1
  /\ enterRoute GetMyAppointments (authenticated Sample.coordinator)
     = Continue (authenticated Sample.coordinator)
  /\ getMyAppointments (authenticated Sample.coordinator) 1 10 Sample.db
     = Json 403 None.
Proof. repeat split; reflexivity. Qed.

(** C8 (amended). An authenticated coordinator is never answered
    403 on the appointment routes, with one exception.  They pass the
    role gate of every route; the parameter validation and role gate
    in front of a handler let them through or answer 400 (the two
    routes by student and by clinician always answer 400 there, to
    every caller); and no handler answers 403, neither the reading
    ones (status types, statistics, availability, the list of all
    appointments, one appointment by id) nor create, update, assign,
    cancel and complete.  The exception is the list of the caller's
    own appointments: its handler serves clinicians and clients only
    and answers 403 to a coordinator. *)
Theorem coordinator_access (joiInteger : JsValue -> option Z)
    (collate precedes : string -> string -> bool)
    (availabilityOfNaN : Db -> string -> string -> Result bool) (u : User.t) :
  User.role_id u = 1 -> User.id u <> 0 ->
  (forall route, enterRoute route (authenticated u) = Continue (authenticated u))
  /\ (forall route params,
        beforeHandler joiInteger route (authenticated u) params
          = Continue (authenticated u)
        \/ beforeHandler joiInteger route (authenticated u) params = Respond 400)
  /\ (forall route params,
        route = GetByStudent \/ route = GetByPsychologist ->
        params !! "id" = None ->
        beforeHandler joiInteger route (authenticated u) params = Respond 400)
  /\ (forall category db d,
        Reads.getStatusTypes collate precedes category db <> Json 403 d)
  /\ (forall psy from to db d,
        Reads.getAppointmentStatistics psy from to db <> Json 403 d)
  /\ (forall psy date time db d,
        Reads.checkAvailability availabilityOfNaN psy date time db <> Json 403 d)
  /\ (forall q db d, Reads.getAllAppointments q db <> Json 403 d)
  /\ (forall i db d, Reads.getAppointmentById i db <> Json 403 d)
  /\ (forall body db now d,
        (createAppointment (authenticated u) body db now).2 <> Json 403 d)
  /\ (forall i body db now d, (updateAppointment i body db now).2 <> Json 403 d)
  /\ (forall i p db now d,
        (AppointmentController.assignPsychologist i p db now).2 <> Json 403 d)
  /\ (forall i reason db now d, (cancelAppointment i reason db now).2 <> Json 403 d)
  /\ (forall i notes db now d, (completeAppointment i notes db now).2 <> Json 403 d)
  /\ (forall pageNo limit db,
        getMyAppointments (authenticated u) pageNo limit db = Json 403 None).
Proof.
  intros Hrole Hid.
  assert (Henter : forall route,
            enterRoute route (authenticated u) = Continue (authenticated u)).
  { intros route. unfold enterRoute, Auth.requireRole, authenticated.
    cbn [r_user]. rewrite Hrole. cbn [Auth.roleMap].
    destruct route; cbn [roleGate]; try done; by case_bool_decide. }
  split; [exact Henter|]. split.
  { intros route params. unfold beforeHandler. rewrite Henter.
    destruct (validatesIdParam route); [|by left].
    destruct (validateIdParam joiInteger params); [by left|by right]. }
  split.
  { intros route params Hroute Hnone. unfold beforeHandler, validateIdParam.
    rewrite Hnone.
    destruct Hroute as [-> | ->]; cbn [validatesIdParam]; by destruct (forallb _ _). }
  split.
  { intros category db d. unfold Reads.getStatusTypes. by destruct (stated category). }
  split; [done|]. split.
  { intros psy date time db d. unfold Reads.checkAvailability.
    repeat case_match; congruence. }
  split.
  { intros q db d. unfold Reads.getAllAppointments. repeat case_match; congruence. }
  split.
  { intros i db d. unfold Reads.getAppointmentById. by destruct (findById db i). }
  split.
  { intros body db now d. unfold createAppointment.
    repeat case_match; cbn [snd]; congruence. }
  split.
  { intros i body db now d. unfold updateAppointment.
    repeat case_match; cbn [snd]; congruence. }
  split.
  { intros i p db now d. unfold AppointmentController.assignPsychologist.
    repeat case_match; cbn [snd]; congruence. }
  split.
  { intros i reason db now d. unfold cancelAppointment.
    repeat case_match; cbn [snd]; congruence. }
  split.
  { intros i notes db now d. unfold completeAppointment.
    repeat case_match; cbn [snd]; congruence. }
  intros pageNo limit db. unfold getMyAppointments, authenticated.
  cbn [r_userId r_roleId]. rewrite Hrole.
  by destruct (Z.eqb_spec (User.id u) 0).
Qed.

Lemma coordinator_access_witness :
  enterRoute PutComplete (authenticated Sample.coordinator)
    = Continue (authenticated Sample.coordinator)
  /\ Reads.getAppointmentById 1 Sample.db <> Json 403 None
  /\ getMyAppointments (authenticated Sample.coordinator) 1 10 Sample.db
     = Json 403 None.
Proof.
  destruct (coordinator_access (fun v => Js.parseInt v) String.eqb String.leb
              (fun _ _ _ => Throw ER_TRUNCATED_WRONG_VALUE) Sample.coordinator eq_refl)
    as (Henter & _ & _ & _ & _ & _ & _ & Hbyid & _ & _ & _ & _ & _ & Hmine);
    [discriminate|].
  split; [apply Henter|]. split; [apply Hbyid|apply Hmine].
Defined.

End Coordinator.

(** ** Token round trip *)

Section Tokens.
Import Jwt Auth.

Lemma jwtSecret_nonempty (cfg : Config) : String.eqb (jwtSecret cfg) "" = false.
Proof.
  unfold jwtSecret. destruct (jwt_secret cfg) as [s|]; [|done].
  destruct (String.eqb s "") eqn:E; [done|exact E].
Qed.

Lemma generateTokens_access (cfg : Config) (now uid : Z) (mail : string) (role : Z) :
  generateTokens cfg now uid mail role
  = Ok (Jws {| userId := uid; email := mail; roleId := role;
               iat := Some now; exp := Some (now + expiresIn) |} (jwtSecret cfg),
        Jws {| userId := uid; email := mail; roleId := role;
               iat := Some now; exp := Some (now + refreshExpiresIn) |} (jwtSecret cfg)).
Proof.
  unfold generateTokens, sign. by rewrite jwtSecret_nonempty.
Qed.

(** With a configured secret the round trip of C9 holds: before the
    expiry the access token verifies to the issued actor id and role,
    from the expiry on it gives [null]. *)
Lemma verifyToken_generateTokens (cfg : Config) (secret : string)
    (issued now uid : Z) (mail : string) (role : Z) :
  jwt_secret cfg = Some secret -> secret <> "" ->
  exists access refresh,
    generateTokens cfg issued uid mail role = Ok (access, refresh)
    /\ (now < issued + expiresIn ->
        exists p, verifyToken cfg now access = Some p
                  /\ userId p = uid /\ roleId p = role)
    /\ (issued + expiresIn <= now -> verifyToken cfg now access = None).
Proof.
  intros Hcfg Hne. rewrite generateTokens_access. eexists _, _.
  split; [reflexivity|].
  assert (Hs : jwtSecret cfg = secret).
  { unfold jwtSecret. rewrite Hcfg. by destruct (String.eqb_spec secret ""). }
  unfold verifyToken, verify. rewrite Hcfg, Hs, String.eqb_refl.
  destruct (String.eqb_spec secret "") as [|_]; [done|]. cbn [negb exp].
  split; intros Ht.
  - destruct (Z.geb_spec now (issued + expiresIn)); [lia|]. by eexists.
  - destruct (Z.geb_spec now (issued + expiresIn)); [done|lia].
Qed.

(** C9 fails on the code when [JWT_SECRET] is not set:
    [generateTokens] signs under the fall-back secret, as
    [authenticateToken] and [verifyRefreshToken] verify, whereas
    [verifyToken] reads [config.jwt.secret] without the fall-back and
    gives [null] for the token just issued, whatever the clock. *)
Theorem verifyToken_without_secret (issued now uid : Z) (mail : string) (role : Z) :
  exists access refresh,
    generateTokens Sample.unconfigured issued uid mail role = Ok (access, refresh)
    /\ verifyToken Sample.unconfigured now access = None
    /\ verifyToken {| jwt_secret := Some "" |} now access = None
    /\ (now < issued + expiresIn ->
        exists p, verify access (Some (jwtSecret Sample.unconfigured)) now = Ok p
                  /\ userId p = uid /\ roleId p = role).
Proof.
  rewrite generateTokens_access. eexists _, _. split; [reflexivity|].
  split; [reflexivity|]. split; [reflexivity|].
  intros Ht. unfold verify. rewrite jwtSecret_nonempty, String.eqb_refl.
  cbn [negb exp]. destruct (Z.geb_spec now (issued + expiresIn)); [lia|].
  by eexists.
Qed.

End Tokens.

(** ** The profile update *)

Section Profile.
Import User UserModel AuthController.
Variable statement : list (string * JsValue) -> Z -> Z -> Db -> Result (list User.t).

Lemma setColumn_other (k : string) (v : JsValue) (u u' : User.t) :
  toLowerCase k ∉ sensitiveColumns ->
  setColumn k v u = Ok u' ->
  sensitive u' = sensitive u.
Proof.
  intros Hk. unfold setColumn. generalize dependent (toLowerCase k). intros c Hc.
  repeat match goal with
         | |- context [String.eqb c ?x] => destruct (String.eqb c x) eqn:?
         end.
  all: try (exfalso; apply Hc;
            match goal with
            | H : String.eqb _ _ = true |- _ => apply String.eqb_eq in H; rewrite H
            end;
            unfold sensitiveColumns; repeat constructor; fail).
  all: destruct v; intros [= <-]; reflexivity.
Qed.

Lemma setColumns_other (kvs : list (string * JsValue)) (u u' : User.t) :
  Forall (fun kv => toLowerCase kv.1 ∉ sensitiveColumns) kvs ->
  setColumns kvs u = Ok u' ->
  sensitive u' = sensitive u.
Proof.
  intros Hall. revert u. induction Hall as [|[k v] kvs Hk _ IH]; intros u.
  - by intros [= <-].
  - cbn [setColumns]. destruct (setColumn k v u) as [w|e] eqn:E; [|done].
    cbn [bind]. intros Hrest. rewrite (IH _ Hrest).
    by apply (setColumn_other k v).
Qed.

Lemma updateRows_other (now i : Z) (kvs : list (string * JsValue))
    (rows rows' : list User.t) :
  Forall (fun kv => toLowerCase kv.1 ∉ sensitiveColumns) kvs ->
  updateRows now i kvs rows = Ok rows' ->
  sensitive <$> rows' = sensitive <$> rows.
Proof.
  intros Hall. revert rows'. induction rows as [|u rows IH]; intros rows'.
  - by intros [= <-].
  - cbn [updateRows].
    destruct (id u =? i).
    + destruct (setColumns kvs u) as [w|e] eqn:E; [|done]. cbn [bind].
      destruct (updateRows now i kvs rows) as [rest|e]; [|done]. cbn [bind].
      intros [= <-]. cbn [fmap list_fmap]. f_equal; [|by apply IH].
      rewrite <- (setColumns_other kvs u w Hall E). reflexivity.
    + cbn [bind].
      destruct (updateRows now i kvs rows) as [rest|e]; [|done]. cbn [bind].
      intros [= <-]. cbn [fmap list_fmap]. f_equal. by apply IH.
Qed.

Lemma update_other (db db' : Db) (now i : Z) (updateData : gmap string JsValue)
    (r : option User.t) :
  (forall k v, updateData !! k = Some v ->
     toLowerCase k ∈ columns /\ toLowerCase k ∉ sensitiveColumns) ->
  update statement db now i updateData = Ok (db', r) ->
  sensitive <$> users db' = sensitive <$> users db.
Proof.
  intros Hkeys. unfold update.
  set (kvs := filter (fun kv => kv.1 ≠ "id") (map_to_list updateData)).
  assert (Hboth : Forall (fun kv => toLowerCase kv.1 ∈ columns
                                    /\ toLowerCase kv.1 ∉ sensitiveColumns) kvs).
  { apply Forall_forall. intros [k v] Hin.
    apply list_elem_of_filter in Hin as [_ Hin].
    apply elem_of_map_to_list in Hin. by apply (Hkeys k v). }
  assert (Hall : Forall (fun kv => toLowerCase kv.1 ∉ sensitiveColumns) kvs).
  { eapply Forall_impl; [exact Hboth|]. by intros kv [_ H]. }
  assert (Hcols : forallb (fun kv => bool_decide (toLowerCase kv.1 ∈ columns)) kvs = true).
  { apply forallb_forall. intros kv Hin. apply bool_decide_eq_true.
    apply list_elem_of_In in Hin. rewrite Forall_forall in Hboth.
    by apply Hboth. }
  destruct kvs as [|kv kvs'] eqn:Ekvs; [done|].
  rewrite <- Ekvs in *. clear Ekvs.
  destruct (existsb _ kvs); [done|].
  rewrite Hcols. cbn [negb].
  destruct (updateRows now i kvs (users db)) as [rows|e] eqn:E; [|done].
  cbn [bind]. destruct (negb (uniqueOk rows)); [done|].
  destruct (negb (roleReferenceOk db rows)); [done|].
  intros [= <- _]. cbn [users]. by apply (updateRows_other now i kvs).
Qed.

(** The handler keeps the four columns for a body whose keys are
    column names that do not spell one of the four in another letter
    case. *)
Lemma updateProfile_other (req : Req) (body : gmap string JsValue) (db : Db) (now : Z) :
  (forall k v, body !! k = Some v ->
     k ∉ sensitiveColumns ->
     toLowerCase k ∈ columns /\ toLowerCase k ∉ sensitiveColumns) ->
  sensitive <$> users (updateProfile statement req body db now).1
  = sensitive <$> users db.
Proof.
  intros Hkeys. unfold updateProfile.
  destruct (r_userId req) as [userId|]; [|done].
  destruct (userId =? 0); [done|].
  match goal with
  | |- context [if ?c then _ else _] => destruct c; [done|]
  end.
  destruct (update statement db now userId _) as [[db' [w|]]|e] eqn:E;
    cbn [fst]; try done.
  all: apply (update_other _ _ _ _ _ _) in E; [exact E|].
  all: intros k v Hlook;
    apply lookup_delete_Some in Hlook as [H1 Hlook];
    apply lookup_delete_Some in Hlook as [H2 Hlook];
    apply lookup_delete_Some in Hlook as [H3 Hlook];
    apply lookup_delete_Some in Hlook as [H4 Hlook];
    apply (Hkeys k v Hlook); unfold sensitiveColumns;
    rewrite !not_elem_of_cons; repeat split; try done; apply not_elem_of_nil.
Qed.

End Profile.

Section ProfilePipeline.
Import User UserModel AuthController.
Variable statement : list (string * JsValue) -> Z -> Z -> Db -> Result (list User.t).
Variable joi : string -> JsValue -> option JsValue.

Lemma validate_keys (schema : list string) (body value : gmap string JsValue)
    (k : string) (v : JsValue) :
  validate joi schema body = Some value ->
  value !! k = Some v ->
  k ∈ schema.
Proof.
  unfold validate. destruct (forallb _ _) eqn:Hall; [|done].
  intros [= <-]. rewrite map_lookup_imap.
  destruct (body !! k) as [v0|] eqn:Hb; [|done]. intros _.
  rewrite forallb_forall in Hall.
  specialize (Hall (k, v0)). cbn [fst snd] in Hall.
  assert (Hin : In (k, v0) (map_to_list body)).
  { apply list_elem_of_In. by apply elem_of_map_to_list. }
  apply Hall in Hin. apply andb_true_iff in Hin as [Hin _].
  by apply bool_decide_eq_true in Hin.
Qed.

(** C10. Whatever the header and the body of [PUT /profile], the
    [password_hash], [role_id], [id] and [created_at] of every user
    row are the same after the request as before it.  This is a
    property of the route: the schema lets only its six keys reach
    the handler, whose four [delete]s remove a key only when it is
    spelled exactly as the column. *)
Theorem updateProfile_keeps_sensitive (cfg : Config)
    (authorization : option (list Jwt.Token)) (body : gmap string JsValue)
    (db : Db) (now : Z) :
  sensitive <$> users (putProfile statement joi cfg authorization body db now).1
    = sensitive <$> users db.
Proof.
  unfold putProfile.
  destruct (Auth.authenticateToken cfg db now authorization) as [req|st]; [|done].
  destruct (validate joi updateUserSchema body) as [value|] eqn:Hval; [|done].
  apply updateProfile_other. intros k v Hlook _.
  pose proof (validate_keys _ _ _ _ _ Hval Hlook) as Hin.
  unfold updateUserSchema in Hin.
  repeat (apply elem_of_cons in Hin as [->|Hin]);
    try (by apply elem_of_nil in Hin);
    (split; [vm_compute; repeat constructor|]);
    vm_compute; intros Hbad;
    repeat (apply elem_of_cons in Hbad as [Hbad|Hbad]; [discriminate Hbad|]);
    by apply elem_of_nil in Hbad.
Qed.

End ProfilePipeline.

(** ** The scenarios of the specification, run on the model *)

Section Scenarios.
Import Appointment AppointmentModel AppointmentController.

Example parseInt_samples :
  parseInt (JStr "42abc") = Some 42 /\ parseInt (JStr "abc") = None
  /\ parseInt (JStr "0x1A") = Some 26 /\ parseInt (JStr " -7") = Some (-7)
  /\ parseInt JUndefined = None /\ parseInt (JNum 5) = Some 5.
Proof. repeat split; reflexivity. Qed.

(** Scenarios A to D behave as the specification tells them; scenario
    E does not: the second [complete] is answered 200 as well. *)
Example scenarios :
  let slot psy :=
    {| n_student_id := 3; n_psychologist_id := psy;
       n_scheduled_date := "2025-03-01"; n_scheduled_time := "09:00:00";
       n_reason_for_visit := None; n_notes := None |} in
  let db0 := {| roles := seedRoles; status_types := seedStatusTypes;
                users := users Sample.db; appointments := [] |} in
  let a := createAppointment (authenticated Sample.client) (slot None) db0 1 in
  let b := AppointmentController.assignPsychologist 1 (INum 2) a.1 2 in
  let c := createAppointment (authenticated Sample.client2) (slot (Some 2)) b.1 3 in
  let e1 := completeAppointment 1 (BText "first") c.1 4 in
  let e2 := completeAppointment 1 (BText "second") e1.1 5 in
  let d := cancelAppointment 1 BNull e2.1 6 in
  (statusNameOf a.1 <$> findById a.1 1) = Some (Some "PENDING")
  /\ (statusNameOf b.1 <$> findById b.1 1) = Some (Some "ASSIGNED")
  /\ checkAvailability b.1 2 "2025-03-01" "09:00:00" = false
  /\ c = (b.1, Json 409 None)
  /\ replyStatus e1.2 = Some 200
  /\ replyStatus e2.2 = Some 200
  /\ (statusNameOf d.1 <$> findById d.1 1) = Some (Some "CANCELLED")
  /\ checkAvailability d.1 2 "2025-03-01" "09:00:00" = true.
Proof. vm_compute. repeat split; reflexivity. Qed.

(** [PUT /profile]: a first name is written; a body naming [role_id]
    is refused by the schema, also when the key is qualified.  The
    handler alone drops the key [role_id], but not the key
    [users.role_id]: where the server reads it as the column, the
    client leaves the handler as a coordinator. *)
Example profile_requests :
  let joi := fun (_ : string) (v : JsValue) => Some v in
  let header := Sample.bearerHeader Sample.clientToken in
  let ok := putProfile Sample.qualified joi Sample.configured header
              {[ "first_name" := JStr "Eva" ]} Sample.db 100 in
  let refused := putProfile Sample.qualified joi Sample.configured header
              {[ "first_name" := JStr "Eva"; "role_id" := JNum 1 ]} Sample.db 100 in
  let refused' := putProfile Sample.qualified joi Sample.configured header
              {[ "users.role_id" := JNum 1 ]} Sample.db 100 in
  let alone := AuthController.updateProfile Sample.qualified
              (authenticated Sample.client)
              {[ "first_name" := JStr "Eva"; "role_id" := JNum 1 ]} Sample.db 100 in
  let alone' := AuthController.updateProfile Sample.qualified
              (authenticated Sample.client)
              {[ "users.role_id" := JNum 1 ]} Sample.db 100 in
  replyStatus ok.2 = Some 200
  /\ (User.first_name <$> UserModel.findById ok.1 3) = Some "Eva"
  /\ refused = (Sample.db, Json 400 None)
  /\ refused' = (Sample.db, Json 400 None)
  /\ replyStatus alone.2 = Some 200
  /\ (User.role_id <$> UserModel.findById alone.1 3) = Some 3
  /\ (User.first_name <$> UserModel.findById alone.1 3) = Some "Eva"
  /\ replyStatus alone'.2 = Some 200
  /\ (User.role_id <$> UserModel.findById alone'.1 3) = Some 1.
Proof. vm_compute. repeat split; reflexivity. Qed.

End Scenarios.

(** ** Optional authentication, refresh and deactivation *)

Section TokenFlows.
Import Jwt Auth Middleware TokenController.

Lemma jwtSecret_configured (cfg : Config) (secret : string) :
  jwt_secret cfg = Some secret -> secret <> "" -> jwtSecret cfg = secret.
Proof.
  intros Hcfg Hne. unfold jwtSecret. rewrite Hcfg.
  by destruct (String.eqb_spec secret "").
Qed.

(** X1. With a configured secret [optionalAuth] attaches exactly the
    identity [authenticateToken] would let through, and none where
    [authenticateToken] would answer 401 or 403. *)
Theorem optionalAuth_agrees (cfg : Config) (secret : string) (db : Db) (now : Z)
    (authorization : option (list Token)) :
  jwt_secret cfg = Some secret -> secret <> "" ->
  optionalAuth cfg db now authorization
  = match authenticateToken cfg db now authorization with
    | Continue req => req
    | Respond _ => anonymous
    end.
Proof.
  intros Hcfg Hne. unfold optionalAuth, authenticateToken.
  rewrite (jwtSecret_configured cfg secret Hcfg Hne), Hcfg.
  destruct (bearer authorization) as [token|]; [|done].
  destruct (missing (Some token)); [done|].
  destruct (verify token (Some secret) now) as [decoded|e]; [|done].
  destruct (UserModel.findById db (userId decoded)) as [user|]; [|done].
  by destruct (User.is_active user).
Qed.

Lemma optionalAuth_agrees_witness :
  optionalAuth Sample.configured Sample.db 100 (Sample.bearerHeader Sample.clientToken)
  = authenticated Sample.client.
Proof.
  rewrite (optionalAuth_agrees Sample.configured "s3cret" Sample.db 100
             (Sample.bearerHeader Sample.clientToken) eq_refl); [reflexivity|].
  discriminate.
Defined.

(** X2. Without [JWT_SECRET], or with an empty one, [optionalAuth]
    attaches no identity to any request, also not for the tokens
    [generateTokens] issues and [authenticateToken] accepts. *)
Theorem optionalAuth_without_secret (cfg : Config) (db : Db) (now : Z)
    (authorization : option (list Token)) :
  jwt_secret cfg = None \/ jwt_secret cfg = Some "" ->
  optionalAuth cfg db now authorization = anonymous.
Proof.
  intros Hcfg. unfold optionalAuth.
  destruct (bearer authorization) as [token|]; [|done].
  destruct (missing (Some token)); [done|].
  destruct token as [s|p key]; [done|].
  by destruct Hcfg as [-> | ->].
Qed.

Lemma optionalAuth_without_secret_witness :
  optionalAuth Sample.unconfigured Sample.db 100
    (Sample.bearerHeader
       (Jws {| userId := 3; email := "c1@riwi.io"; roleId := 3;
               iat := Some 0; exp := Some 86400 |} fallbackSecret))
  = anonymous
  /\ authenticateToken Sample.unconfigured Sample.db 100
       (Sample.bearerHeader
          (Jws {| userId := 3; email := "c1@riwi.io"; roleId := 3;
                  iat := Some 0; exp := Some 86400 |} fallbackSecret))
     = Continue (authenticated Sample.client).
Proof.
  split; [|reflexivity].
  apply optionalAuth_without_secret. by left.
Defined.

(** X3. Refresh round trip.  For an active user, either token that
    [generateTokens] issued is accepted by [POST /refresh-token] until it
    expires (the access token for 24 hours, the refresh token for 7
    days), and the access token of the answer authenticates as that
    user.  From its expiry on each of the two is answered 403. *)
Theorem refresh_round_trip (cfg : Config) (db : Db) (issued now : Z) (u : User.t) :
  UserModel.findById db (User.id u) = Some u ->
  User.is_active u = true ->
  issued <= now ->
  exists access refresh,
    generateTokens cfg issued (User.id u) (User.email u) (User.role_id u)
      = Ok (access, refresh)
    /\ (now < issued + refreshExpiresIn ->
        exists access' refresh',
          postRefreshToken cfg db now (Some refresh) = Json 200 (Some (access', refresh'))
          /\ authenticateToken cfg db now (Some [Opaque "Bearer"; access'])
             = Continue (authenticated u))
    /\ (now < issued + expiresIn ->
        exists tokens, postRefreshToken cfg db now (Some access) = Json 200 (Some tokens))
    /\ (issued + refreshExpiresIn <= now ->
        postRefreshToken cfg db now (Some refresh) = Json 403 None)
    /\ (issued + expiresIn <= now ->
        postRefreshToken cfg db now (Some access) = Json 403 None).
Proof.
  intros Hfind Hactive Hle. rewrite generateTokens_access. eexists _, _.
  split; [reflexivity|].
  pose proof (jwtSecret_nonempty cfg) as Hs.
  unfold postRefreshToken, verifyRefreshToken, verify, refreshToken.
  cbn [missing exp userId email roleId].
  rewrite Hs, String.eqb_refl. cbn [negb].
  split; [|split; [|split]].
  - intros Hlt. destruct (Z.geb_spec now (issued + refreshExpiresIn)); [lia|].
    cbn [userId email roleId].
    rewrite Hfind, Hactive, generateTokens_access. cbn [negb].
    eexists _, _. split; [reflexivity|].
    unfold authenticateToken, bearer, verify.
    cbn [mbind option_bind lookup list_lookup missing exp userId].
    rewrite Hs, String.eqb_refl. cbn [negb].
    destruct (Z.geb_spec now (now + expiresIn)); [unfold expiresIn in *; lia|].
    cbn [userId]. by rewrite Hfind, Hactive.
  - intros Hlt. destruct (Z.geb_spec now (issued + expiresIn)); [lia|].
    cbn [userId email roleId].
    rewrite Hfind, Hactive, generateTokens_access. cbn [negb]. by eexists.
  - intros Hge. by destruct (Z.geb_spec now (issued + refreshExpiresIn)); [|lia].
  - intros Hge. by destruct (Z.geb_spec now (issued + expiresIn)); [|lia].
Qed.

Lemma refresh_round_trip_witness :
  exists access refresh,
    generateTokens Sample.configured 0 3 "c1@riwi.io" 3 = Ok (access, refresh)
    /\ postRefreshToken Sample.configured Sample.db 700000 (Some refresh)
       = Json 403 None.
Proof.
  destruct (refresh_round_trip Sample.configured Sample.db 0 700000 Sample.client
              eq_refl eq_refl) as (access & refresh & Hgen & _ & _ & Hlate & _); [lia|].
  exists access, refresh. split; [exact Hgen|]. apply Hlate. vm_compute. discriminate.
Defined.

(** X4. The refresh token outlives the access token: between 24 hours
    and 7 days after issue, [authenticateToken] answers 403 to the
    access token while [POST /refresh-token] still answers 200 to the
    refresh token of an active user. *)
Theorem refresh_outlives_access (cfg : Config) (db : Db) (issued now : Z) (u : User.t) :
  UserModel.findById db (User.id u) = Some u ->
  User.is_active u = true ->
  issued + expiresIn <= now -> now < issued + refreshExpiresIn ->
  exists access refresh,
    generateTokens cfg issued (User.id u) (User.email u) (User.role_id u)
      = Ok (access, refresh)
    /\ authenticateToken cfg db now (Some [Opaque "Bearer"; access]) = Respond 403
    /\ replyStatus (postRefreshToken cfg db now (Some refresh)) = Some 200.
Proof.
  intros Hfind Hactive Hge Hlt. rewrite generateTokens_access. eexists _, _.
  split; [reflexivity|].
  pose proof (jwtSecret_nonempty cfg) as Hs. split.
  - unfold authenticateToken, bearer, verify.
    cbn [mbind option_bind lookup list_lookup missing exp].
    rewrite Hs, String.eqb_refl. cbn [negb].
    by destruct (Z.geb_spec now (issued + expiresIn)); [|lia].
  - unfold postRefreshToken, verifyRefreshToken, verify, refreshToken.
    cbn [missing exp userId email roleId].
    rewrite Hs, String.eqb_refl. cbn [negb].
    destruct (Z.geb_spec now (issued + refreshExpiresIn)); [lia|].
    cbn [userId email roleId].
    by rewrite Hfind, Hactive, generateTokens_access.
Qed.

Lemma refresh_outlives_access_witness :
  exists access refresh,
    generateTokens Sample.configured 0 3 "c1@riwi.io" 3 = Ok (access, refresh)
    /\ authenticateToken Sample.configured Sample.db 100000
         (Some [Opaque "Bearer"; access]) = Respond 403
    /\ replyStatus (postRefreshToken Sample.configured Sample.db 100000 (Some refresh))
       = Some 200.
Proof.
  apply (refresh_outlives_access Sample.configured Sample.db 0 100000 Sample.client
           eq_refl eq_refl); vm_compute; [discriminate|reflexivity].
Defined.

(** X5. [authenticateToken] takes the identity from the user row the
    token's [userId] names: two tokens under the same key that agree on
    [userId] and [exp] get the same answer, whatever [roleId] and
    [email] they carry, and the role attached to the request is the
    [role_id] of the row. *)
Theorem authenticateToken_role_from_store (cfg : Config) (db : Db) (now : Z)
    (p q : JwtPayload) (key : string) :
  userId p = userId q -> exp p = exp q ->
  authenticateToken cfg db now (Some [Opaque "Bearer"; Jws p key])
  = authenticateToken cfg db now (Some [Opaque "Bearer"; Jws q key])
  /\ (forall req, authenticateToken cfg db now (Some [Opaque "Bearer"; Jws p key])
                  = Continue req ->
        exists u, UserModel.findById db (userId p) = Some u
                  /\ User.is_active u = true
                  /\ req = authenticated u).
Proof.
  intros Hid Hexp. unfold authenticateToken, bearer, verify.
  cbn [mbind option_bind lookup list_lookup missing].
  rewrite Hexp.
  destruct (String.eqb (jwtSecret cfg) ""); [done|].
  destruct (negb (String.eqb key (jwtSecret cfg))); [done|].
  assert (Hrow : forall r : JwtPayload, userId r = userId q ->
            match UserModel.findById db (userId r) with
            | Some user =>
                if negb (User.is_active user) then Respond 401
                else Continue {| r_user := Some user;
                                 r_userId := Some (User.id user);
                                 r_roleId := Some (User.role_id user) |}
            | None => Respond 401
            end
            = match UserModel.findById db (userId q) with
              | Some user =>
                  if negb (User.is_active user) then Respond 401
                  else Continue (authenticated user)
              | None => Respond 401
              end) by (by intros r ->).
  assert (Hcont : forall req,
            match UserModel.findById db (userId q) with
            | Some user =>
                if negb (User.is_active user) then Respond 401
                else Continue (authenticated user)
            | None => Respond 401
            end = Continue req ->
            exists u, UserModel.findById db (userId q) = Some u
                      /\ User.is_active u = true /\ req = authenticated u).
  { intros req. destruct (UserModel.findById db (userId q)) as [u|]; [|done].
    destruct (User.is_active u) eqn:Ha; [|done]. intros [= <-]. by exists u. }
  rewrite Hid.
  destruct (exp q) as [e|]; [destruct (now >=? e); [done|]|];
    rewrite (Hrow p Hid), (Hrow q eq_refl); (split; [done|exact Hcont]).
Qed.

Lemma authenticateToken_role_from_store_witness :
  authenticateToken Sample.configured Sample.db 100
    (Some [Opaque "Bearer";
           Jws {| userId := 3; email := "x"; roleId := 1;
                  iat := Some 0; exp := Some 86400 |} "s3cret"])
  = Continue (authenticated Sample.client).
Proof.
  destruct (authenticateToken_role_from_store Sample.configured Sample.db 100
              {| userId := 3; email := "x"; roleId := 1;
                 iat := Some 0; exp := Some 86400 |}
              {| userId := 3; email := "c1@riwi.io"; roleId := 3;
                 iat := Some 0; exp := Some 86400 |} "s3cret" eq_refl eq_refl)
    as [Hsame _].
  rewrite Hsame. reflexivity.
Defined.

End TokenFlows.
(** ** Deactivation and the role gates *)

Section Deactivation.
Import Jwt Auth Middleware TokenController.

Lemma find_user_fmap (g : User.t -> User.t) (j : Z) (l : list User.t) :
  (forall u, User.id (g u) = User.id u) ->
  find (fun u => User.id u =? j) (g <$> l) = g <$> find (fun u => User.id u =? j) l.
Proof.
  intros Hid. induction l as [|u l IH]; [done|].
  cbn [fmap list_fmap find]. rewrite Hid.
  destruct (User.id u =? j); [done|exact IH].
Qed.

Lemma find_user_id (j : Z) (l : list User.t) (u : User.t) :
  find (fun u => User.id u =? j) l = Some u -> User.id u = j.
Proof.
  induction l as [|v l IH]; [done|]. cbn [find].
  destruct (Z.eqb_spec (User.id v) j); [by intros [= <-]|exact IH].
Qed.

Lemma authenticateToken_continue (cfg : Config) (db : Db) (now : Z)
    (authorization : option (list Token)) (req : Req) :
  authenticateToken cfg db now authorization = Continue req ->
  exists u, UserModel.findById db (User.id u) = Some u
            /\ User.is_active u = true /\ req = authenticated u.
Proof.
  unfold authenticateToken.
  destruct (bearer authorization) as [token|]; [|done].
  destruct (missing (Some token)); [done|].
  destruct (verify token (Some (jwtSecret cfg)) now) as [decoded|e]; [|done].
  destruct (UserModel.findById db (userId decoded)) as [u|] eqn:Hfind; [|done].
  destruct (User.is_active u) eqn:Ha; [|done]. intros [= <-]. exists u.
  split; [|done]. by rewrite (find_user_id _ _ _ Hfind).
Qed.

(** X6. [UserModel.delete] is a deactivation: the row stays, with
    [is_active] false and the other columns but [updated_at] as they
    were, and no other row changes.  From then on no bearer token
    authenticates as that user and no token naming that user is
    refreshed. *)
Theorem delete_revokes_access (cfg : Config) (db : Db) (at_ now i : Z) :
  let db' := (UserStore.delete db at_ i).1 in
  (forall u, UserModel.findById db i = Some u ->
     exists u', UserModel.findById db' i = Some u'
                /\ User.is_active u' = false
                /\ User.email u' = User.email u
                /\ User.password_hash u' = User.password_hash u
                /\ User.role_id u' = User.role_id u)
  /\ (forall j, j <> i -> UserModel.findById db' j = UserModel.findById db j)
  /\ (forall authorization req,
        authenticateToken cfg db' now authorization = Continue req ->
        r_userId req <> Some i)
  /\ (forall p key tokens,
        userId p = i ->
        postRefreshToken cfg db' now (Some (Jws p key)) <> Json 200 tokens).
Proof.
  cbn zeta. unfold UserStore.delete. cbn [fst].
  set (g := fun u : User.t => if User.id u =? i then _ else u).
  assert (Hg : forall u, User.id (g u) = User.id u).
  { intros u. unfold g. by destruct (User.id u =? i). }
  assert (Hfind : forall j, UserModel.findById (UserStore.setUsers db (g <$> users db)) j
                            = g <$> UserModel.findById db j).
  { intros j. unfold UserModel.findById, UserStore.setUsers. cbn [users].
    by apply find_user_fmap. }
  assert (Hoff : forall u, UserModel.findById (UserStore.setUsers db (g <$> users db)) i
                           = Some u -> User.is_active u = false).
  { intros u. rewrite Hfind. destruct (UserModel.findById db i) as [v|] eqn:Hv; [|done].
    cbn [fmap option_fmap option_map]. intros [= <-]. unfold g.
    pose proof (find_user_id _ _ _ Hv) as Hid. by rewrite Hid, Z.eqb_refl. }
  split; [|split; [|split]].
  - intros u Hu. rewrite Hfind, Hu. cbn [fmap option_fmap option_map].
    eexists. split; [reflexivity|]. unfold g.
    pose proof (find_user_id _ _ _ Hu) as Hid. by rewrite Hid, Z.eqb_refl.
  - intros j Hj. rewrite Hfind. destruct (UserModel.findById db j) as [v|] eqn:Hv; [|done].
    cbn [fmap option_fmap option_map]. unfold g.
    pose proof (find_user_id _ _ _ Hv) as Hid. rewrite Hid.
    by destruct (Z.eqb_spec j i).
  - intros authorization req Hc.
    apply authenticateToken_continue in Hc as (u & Hu & Ha & ->).
    cbn [authenticated r_userId]. intros [= Hid]. rewrite Hid in Hu.
    apply Hoff in Hu. congruence.
  - intros p key tokens Hp. unfold postRefreshToken, verifyRefreshToken.
    cbn [missing]. destruct (verify (Jws p key) (Some (jwtSecret cfg)) now) as [d|e] eqn:Hv;
      [|done].
    assert (d = p) as ->.
    { unfold verify in Hv. repeat case_match; congruence. }
    unfold refreshToken. rewrite Hp.
    destruct (UserModel.findById _ i) as [u|] eqn:Hu; [|done].
    by rewrite (Hoff u eq_refl).
Qed.

(** X7. The role gates compose with authentication as follows.
    Whatever [requireRole(roles)] lets through, [requireOwnershipOrRole(roles)]
    lets through.  A request that passed [authenticateToken] is never
    answered 401 by [requireRole], and it passes [requireRole(roles)]
    only for an active user of the store whose [role_id] is 1, 2 or 3
    with its name listed in [roles]. *)
Theorem role_gates_compose (allowedRoles : list string) (cfg : Config) (db : Db)
    (now : Z) (authorization : option (list Token)) (req : Req)
    (params_userId params_id : JsValue) :
  (requireRole allowedRoles req = Continue req ->
     requireOwnershipOrRole allowedRoles req params_userId params_id = Continue req)
  /\ (authenticateToken cfg db now authorization = Continue req ->
      requireRole allowedRoles req <> Respond 401
      /\ (forall req', requireRole allowedRoles req = Continue req' ->
            req' = req
            /\ exists u name,
                 UserModel.findById db (User.id u) = Some u
                 /\ User.is_active u = true
                 /\ roleMap (User.role_id u) = Some name
                 /\ name ∈ allowedRoles)).
Proof.
  split.
  - unfold requireRole, requireOwnershipOrRole.
    destruct (r_user req) as [u|]; [|done].
    destruct (roleMap (User.role_id u)) as [name|]; [|done].
    by case_bool_decide.
  - intros Hc. apply authenticateToken_continue in Hc as (u & Hu & Ha & ->).
    unfold requireRole. cbn [authenticated r_user].
    destruct (roleMap (User.role_id u)) as [name|] eqn:Hname; [|done].
    case_bool_decide as Hin; [|done].
    split; [done|]. intros req' [= <-]. split; [done|]. by exists u, name.
Qed.

End Deactivation.

(** ** Slots under the handlers *)

Section Slots.
Import Appointment AppointmentModel AppointmentController.



Lemma findById_elem (db : Db) (i : Z) (a : Appointment.t) :
  findById db i = Some a -> a ∈ appointments db /\ id a = i.
Proof.
  unfold findById. intros H. apply find_some in H as [Hin Hid].
  split; [by apply list_elem_of_In|]. by apply Z.eqb_eq.
Qed.


Lemma cancelledIds_seeded (db : Db) :
  status_types db = seedStatusTypes -> appointmentStatusIds db "CANCELLED" = [4].
Proof. intros Hseed. exact (statusIds_seeded db Cancelled Hseed). Qed.

Lemma occupying_updateWhereId (db : Db) (i : Z) (f : Appointment.t -> Appointment.t)
    (p : Z) (d t : string) :
  occupying (updateWhereId db i f) p d t
  = filter (fun a => psychologist_id a = Some p /\ scheduled_date a = d
                     /\ scheduled_time a = t
                     /\ status_id a ∉ appointmentStatusIds db "CANCELLED")
           ((fun a => if id a =? i then f a else a) <$> appointments db).
Proof. reflexivity. Qed.




End Slots.

Section SlotsWitness.
Import Appointment AppointmentModel AppointmentController.

Lemma sample_slotInvariant : slotInvariant Sample.db.
Proof.
  split.
  - apply (bool_decide_unpack _). vm_compute. exact I.
  - intros p d t _. unfold occupying. cbn [appointments Sample.db].
    rewrite !filter_cons, filter_nil.
    repeat (destruct (decide _) as [(? & ? & ? & ?)|?]);
      cbn [length]; try lia; exfalso; simplify_eq/=.
Qed.


End SlotsWitness.

(** ** Booking, releasing and re-booking a slot *)

Section Booking.
Import Appointment AppointmentModel AppointmentController.

Lemma short_list_eq (l : list Appointment.t) (x y : Appointment.t) :
  (length l <= 1)%nat -> x ∈ l -> y ∈ l -> x = y.
Proof.
  destruct l as [|z [|z' l]]; cbn [length]; intros Hlen Hx Hy; [|  |lia].
  - by apply not_elem_of_nil in Hx.
  - apply list_elem_of_singleton in Hx, Hy. congruence.
Qed.

Lemma checkAvailability_taken (db : Db) (a : Appointment.t) (p : Z) :
  status_types db = seedStatusTypes ->
  a ∈ appointments db -> psychologist_id a = Some p -> status_id a <> 4 ->
  checkAvailability db p (scheduled_date a) (scheduled_time a) = false.
Proof.
  intros Hseed Hin Hp Hst. apply not_true_is_false. intros Hfree.
  apply checkAvailability_occupying in Hfree.
  assert (Hocc : a ∈ occupying db p (scheduled_date a) (scheduled_time a)).
  { unfold occupying. apply list_elem_of_filter. split; [|done].
    rewrite (cancelledIds_seeded db Hseed), list_elem_of_singleton. done. }
  rewrite Hfree in Hocc. by apply not_elem_of_nil in Hocc.
Qed.

(** X9. Cancelling releases the slot.  Under the slot invariant, an
    appointment of clinician [p] that is not Cancelled makes
    [checkAvailability] false for its date and time, and after
    [cancelAppointment] on it [checkAvailability] is true for them. *)
Theorem cancel_frees_slot (db : Db) (now i p : Z) (a : Appointment.t)
    (reason : BindParam) :
  status_types db = seedStatusTypes ->
  slotInvariant db ->
  findById db i = Some a ->
  psychologist_id a = Some p -> p <> 0 ->
  ~ hasStatus db a Cancelled ->
  reason <> BUndefined ->
  checkAvailability db p (scheduled_date a) (scheduled_time a) = false
  /\ checkAvailability (cancelAppointment i reason db now).1 p
       (scheduled_date a) (scheduled_time a) = true.
Proof.
  intros Hseed [Hnd Hslot] Hfind Hp Hpnz Hactive Hreason.
  pose proof (cancelledIds_seeded db Hseed) as Hcan.
  destruct (findById_elem db i a Hfind) as [Hin Hid].
  assert (Hst : status_id a <> 4).
  { intros H4. apply Hactive. by apply (hasStatus_seeded db a Cancelled Hseed). }
  split; [by apply checkAvailability_taken|].
  assert (Hocc : a ∈ occupying db p (scheduled_date a) (scheduled_time a)).
  { unfold occupying. apply list_elem_of_filter. split; [|done].
    rewrite Hcan, list_elem_of_singleton. done. }
  apply checkAvailability_occupying.
  unfold cancelAppointment, cancel.
  pose proof (statusId_seeded db Cancelled Hseed) as Hsid.
  cbn [statusName statusId] in Hsid.
  assert (Hgone : forall f : Appointment.t -> Appointment.t,
            (forall x, status_id (f x) = 4) ->
            occupying (updateWhereId db i f) p (scheduled_date a) (scheduled_time a)
            = []).
  { intros f Hf. rewrite occupying_updateWhereId, Hcan.
    apply elem_of_nil_inv. intros y Hy.
    apply list_elem_of_filter in Hy as [HP Hy].
    apply list_elem_of_fmap in Hy as (x & -> & Hx).
    destruct (Z.eqb_spec (id x) i) as [Hxi|Hne].
    - destruct HP as (_ & _ & _ & Hn). apply Hn. rewrite Hf.
      apply list_elem_of_here.
    - apply Hne. rewrite <- Hid. f_equal.
      apply (short_list_eq _ x a
               (Hslot p (scheduled_date a) (scheduled_time a) Hpnz)); [|exact Hocc].
      unfold occupying. apply list_elem_of_filter. by rewrite Hcan. }
  destruct reason; [done| |]; rewrite Hfind, Hsid;
    (erewrite findById_updateWhereId; [|done|exact Hfind]); cbn [fst];
    by apply Hgone.
Qed.

Lemma cancel_frees_slot_witness :
  checkAvailability Sample.db 2 "2025-03-02" "10:00:00" = false
  /\ checkAvailability (cancelAppointment 2 (BText "moved") Sample.db 5000).1 2
       "2025-03-02" "10:00:00" = true.
Proof.
  apply (cancel_frees_slot Sample.db 5000 2 2 Sample.assignedAppt (BText "moved")
           eq_refl sample_slotInvariant eq_refl eq_refl); discriminate.
Defined.



(** X11. Assigning a clinician by id is not repeatable.  After
    [assignPsychologist] has answered 200 to a body naming clinician
    [p], the same request again is answered 409 and writes nothing:
    the appointment itself now occupies the clinician's slot.  The
    route validates no body, and a body whose [psychologist_id] is
    [null] is answered 200 each time: it leaves the appointment
    Assigned without clinician. *)
Theorem assign_twice_conflicts (db db' : Db) (now now2 i : Z) (q : IdParam)
    (a : option Appointment.t) :
  status_types db = seedStatusTypes ->
  AppointmentController.assignPsychologist i q db now = (db', Json 200 a) ->
  (forall p, q = INum p ->
     AppointmentController.assignPsychologist i q db' now2 = (db', Json 409 None))
  /\ (q = INull ->
      (exists a1, a = Some a1 /\ psychologist_id a1 = None /\ status_id a1 = 2)
      /\ exists db2 a2,
           AppointmentController.assignPsychologist i q db' now2
           = (db2, Json 200 (Some a2))
           /\ psychologist_id a2 = None /\ status_id a2 = 2).
Proof.
  intros Hseed Hfirst. unfold AppointmentController.assignPsychologist in Hfirst.
  destruct (findById db i) as [a0|] eqn:Hfind; [|done].
  pose proof (statusId_seeded db Assigned Hseed) as Hsid.
  cbn [statusName statusId] in Hsid.
  destruct q as [| |p]; cbn [checkAvailabilityFor] in Hfirst; [done| |].
  - unfold AppointmentModel.assignPsychologist in Hfirst. cbn [stored] in Hfirst.
    rewrite Hfind, Hsid in Hfirst. cbn [negb] in Hfirst.
    erewrite findById_updateWhereId in Hfirst; [|done|exact Hfind].
    injection Hfirst as <- <-.
    split; [done|]. intros _. split; [by eexists|].
    match goal with |- context [updateWhereId db i ?f] => set (g := f) end.
    assert (Hnew : findById (updateWhereId db i g) i = Some (g a0))
      by (by apply findById_updateWhereId).
    assert (Hsid' : appointmentStatusId (updateWhereId db i g) "ASSIGNED" = Some 2)
      by exact Hsid.
    unfold AppointmentController.assignPsychologist. cbn [checkAvailabilityFor].
    rewrite Hnew. unfold AppointmentModel.assignPsychologist. cbn [stored].
    rewrite Hnew, Hsid'. cbn [negb].
    erewrite findById_updateWhereId; [|done|exact Hnew].
    eexists _, _. split; [reflexivity|done].
  - destruct (checkAvailability db p _ _); [|done].
    destruct (AppointmentModel.assignPsychologist db now i (INum p))
      as [[db1 a1]|e] eqn:Hm; [|done].
    injection Hfirst as <- <-.
    unfold AppointmentModel.assignPsychologist in Hm. cbn [stored] in Hm.
    rewrite Hfind, Hsid in Hm.
    destruct (negb (userExists db p)); [done|].
    erewrite findById_updateWhereId in Hm; [|done|exact Hfind].
    injection Hm as <- <-.
    split; [|done]. intros p' [= <-].
    unfold AppointmentController.assignPsychologist. cbn [checkAvailabilityFor].
    match goal with |- context [updateWhereId db i ?f] => set (g := f) end.
    assert (Hnew : findById (updateWhereId db i g) i = Some (g a0))
      by (by apply findById_updateWhereId).
    rewrite Hnew. destruct (findById_elem _ _ _ Hnew) as [Hin _].
    by rewrite (checkAvailability_taken (updateWhereId db i g) (g a0) p Hseed Hin).
Qed.

Lemma assign_twice_conflicts_witness :
  AppointmentController.assignPsychologist 1 (INum 2)
    (AppointmentController.assignPsychologist 1 (INum 2) Sample.db 5000).1 6000
  = ((AppointmentController.assignPsychologist 1 (INum 2) Sample.db 5000).1,
     Json 409 None)
  /\ replyStatus
       (AppointmentController.assignPsychologist 1 INull
          (AppointmentController.assignPsychologist 1 INull Sample.db 5000).1 6000).2
     = Some 200.
Proof.
  split.
  - eapply (assign_twice_conflicts Sample.db _ 5000 6000 1 (INum 2));
      reflexivity.
  - destruct (assign_twice_conflicts Sample.db _ 5000 6000 1 INull _ eq_refl eq_refl)
      as [_ Hnull].
    destruct (Hnull eq_refl) as (_ & db2 & a2 & Hagain & _).
    exact (f_equal (fun r => replyStatus r.2) Hagain).
Defined.

(** X12. [updateAppointment] gives up before it writes in two cases
    the schema lets through: a body without any field (the SET clause
    is empty) and a body that carries [status] together with a
    [status_id] (the shim leaves [status], which is no column).  Both
    are handed to the error handler, also when the appointment does
    not exist; the second may be stopped earlier by the 409 of the
    conflict check. *)
Theorem update_rejected_before_write (i : Z) (body : Patch) (db : Db) (now : Z) :
  (fields (shim body) = [] ->
     updateAppointment i body db now = (db, Next ER_PARSE_ERROR))
  /\ (forall s, p_status body = Some s -> given (p_status_id body) = true ->
        updateAppointment i body db now = (db, Next ER_BAD_FIELD_ERROR)
        \/ updateAppointment i body db now = (db, Json 409 None)).
Proof.
  split.
  - intros Hempty. unfold updateAppointment, update. rewrite Hempty.
    assert (p_psychologist_id (shim body) = None) as ->; [|done].
    unfold fields in Hempty. by destruct (p_psychologist_id (shim body)).
  - intros s Hs Hid. unfold updateAppointment.
    assert (Hshim : shim body = body) by (unfold shim; by rewrite Hs, Hid).
    rewrite Hshim.
    destruct (match p_psychologist_id body with
              | Some p => _ | None => false end); [by right|].
    left. unfold update.
    assert (Hf : fields body <> []).
    { unfold fields. rewrite Hs. cbn [present].
      intros H. do 4 (apply app_eq_nil in H as [_ H]).
      apply app_eq_nil in H as [H _]. discriminate H. }
    destruct (fields body); [done|]. by rewrite Hs.
Qed.

End Booking.

(** ** Listing and routing *)

Section Listing.
Import Appointment AppointmentModel AppointmentController.

Lemma elem_of_insertSorted (a x : Appointment.t) (l : list Appointment.t) :
  x ∈ insertSorted a l <-> x = a \/ x ∈ l.
Proof.
  induction l as [|b l IH]; cbn [insertSorted].
  - rewrite list_elem_of_singleton, elem_of_nil. tauto.
  - destruct (later a b).
    + by rewrite elem_of_cons.
    + rewrite !elem_of_cons, IH. tauto.
Qed.

Lemma elem_of_ordered (x : Appointment.t) (l : list Appointment.t) :
  x ∈ ordered l <-> x ∈ l.
Proof.
  unfold ordered. induction l as [|b l IH]; [done|].
  cbn [foldr]. by rewrite elem_of_insertSorted, elem_of_cons, IH.
Qed.

Lemma page_sub (l rows : list Appointment.t) (pageNo limit : Z) :
  page l pageNo limit = Ok rows ->
  (length rows <= Z.to_nat limit)%nat /\ forall x, x ∈ rows -> x ∈ l.
Proof.
  unfold page. destruct (_ || _); [done|]. intros [= <-]. split.
  - rewrite length_take. lia.
  - intros x Hx. apply elem_of_take in Hx as (k & Hk & _).
    rewrite lookup_drop in Hk. by apply list_elem_of_lookup_2 in Hk.
Qed.

(** X13. [getMyAppointments] answers 200 only to clinicians and
    clients, and what it lists is the caller's own: at most [limit]
    rows of the table, each with the caller as clinician (role 2) or as
    student (role 3), and as total the number of all such rows. *)
Theorem getMyAppointments_own (u : User.t) (pageNo limit : Z) (db : Db)
    (rows : list Appointment.t) (total : Z) :
  getMyAppointments (authenticated u) pageNo limit db = Json 200 (Some (rows, total)) ->
  (User.role_id u = 2 \/ User.role_id u = 3)
  /\ (length rows <= Z.to_nat limit)%nat
  /\ (User.role_id u = 2 ->
      (forall a, a ∈ rows ->
         a ∈ appointments db /\ psychologist_id a = Some (User.id u))
      /\ total = Z.of_nat (length (filter
                   (fun a => psychologist_id a = Some (User.id u)) (appointments db))))
  /\ (User.role_id u = 3 ->
      (forall a, a ∈ rows -> a ∈ appointments db /\ student_id a = User.id u)
      /\ total = Z.of_nat (length (filter
                   (fun a => student_id a = User.id u) (appointments db)))).
Proof.
  unfold getMyAppointments, authenticated. cbn [r_userId r_roleId].
  destruct (User.id u =? 0); [done|].
  destruct (User.role_id u) as [|r|] eqn:Hrole; try done.
  destruct r as [[| |]|[| |]|]; try done.
  - (* role 3 *)
    unfold findByStudent.
    destruct (page _ pageNo limit) as [pg|e] eqn:Hpage; [|done]. cbn [bind].
    intros [= <- <-]. apply page_sub in Hpage as [Hlen Hsub].
    split; [by right|]. split; [done|]. split; [done|]. intros _. split; [|done].
    intros a Ha. apply Hsub, elem_of_ordered, list_elem_of_filter in Ha as [Hs Hin].
    done.
  - (* role 2 *)
    unfold findByPsychologist.
    destruct (page _ pageNo limit) as [pg|e] eqn:Hpage; [|done]. cbn [bind].
    intros [= <- <-]. apply page_sub in Hpage as [Hlen Hsub].
    split; [by left|]. split; [done|]. split; [|done]. intros _. split; [|done].
    intros a Ha. apply Hsub, elem_of_ordered, list_elem_of_filter in Ha as [Hs Hin].
    done.
Qed.

Lemma getMyAppointments_own_witness :
  (User.role_id Sample.clinician = 2 \/ User.role_id Sample.clinician = 3)
  /\ (length [Sample.cancelledAppt; Sample.completedAppt] <= Z.to_nat 2)%nat.
Proof.
  destruct (getMyAppointments_own Sample.clinician 1 2 Sample.db
              [Sample.cancelledAppt; Sample.completedAppt] 3 eq_refl)
    as (Hrole & Hlen & _).
  split; [exact Hrole|exact Hlen].
Defined.

(** X14. The routes [GET /student/:studentId] and
    [GET /psychologist/:psychologistId] are mounted behind
    [validateParams(idParamSchema)], whose one required key is [id].
    Their parameters carry no [id], so every request is answered 400
    before the role gate and the handler are reached. *)
Theorem student_routes_answer_400 (joiInteger : JsValue -> option Z)
    (r : AppointmentRoute) (req : Req) (params : gmap string JsValue) :
  r = GetByStudent \/ r = GetByPsychologist ->
  params !! "id" = None ->
  ("id" ∉ routeParams r) /\ beforeHandler joiInteger r req params = Respond 400.
Proof.
  intros Hr Hid. split.
  - destruct Hr as [-> | ->]; cbn [routeParams];
      rewrite list_elem_of_singleton; discriminate.
  - unfold beforeHandler, validateIdParam. rewrite Hid.
    destruct Hr as [-> | ->]; cbn [validatesIdParam]; by destruct (forallb _ _).
Qed.

Lemma student_routes_answer_400_witness :
  beforeHandler (fun v => Js.parseInt v) GetByStudent (authenticated Sample.coordinator)
    {[ "studentId" := JStr "3" ]} = Respond 400.
Proof.
  apply (student_routes_answer_400 (fun v => Js.parseInt v) GetByStudent
           (authenticated Sample.coordinator) {[ "studentId" := JStr "3" ]}).
  - by left.
  - reflexivity.
Defined.

(** X15. A completed appointment keeps its clinician's slot taken,
    also when it was Cancelled before: after [completeAppointment] on
    an appointment of clinician [p], [checkAvailability] is false for
    its date and time. *)
Theorem complete_blocks_slot (db : Db) (now i p : Z) (a : Appointment.t) (n : string) :
  status_types db = seedStatusTypes ->
  findById db i = Some a ->
  psychologist_id a = Some p ->
  checkAvailability (completeAppointment i (BText n) db now).1 p
    (scheduled_date a) (scheduled_time a) = false.
Proof.
  intros Hseed Hfind Hp. unfold completeAppointment, complete. rewrite Hfind.
  pose proof (statusId_seeded db Completed Hseed) as Hsid.
  cbn [statusName statusId] in Hsid. rewrite Hsid.
  match goal with |- context [updateWhereId db i ?f] => set (g := f) end.
  assert (Hnew : findById (updateWhereId db i g) i = Some (g a))
    by (by apply findById_updateWhereId).
  rewrite Hnew. cbn [fst]. destruct (findById_elem _ _ _ Hnew) as [Hin _].
  by apply (checkAvailability_taken (updateWhereId db i g) (g a) p Hseed Hin).
Qed.

Lemma complete_blocks_slot_witness :
  checkAvailability Sample.db 2 "2025-03-04" "12:00:00" = true
  /\ checkAvailability (completeAppointment 4 (BText "late") Sample.db 5000).1 2
       "2025-03-04" "12:00:00" = false.
Proof.
  split; [reflexivity|].
  apply (complete_blocks_slot Sample.db 5000 4 2 Sample.cancelledAppt "late");
    reflexivity.
Defined.

End Listing.


(** ** What the update routes can change in [users] *)

Section UserFrame.
Import User UserModel AuthController UserController.
Variable statement : list (string * JsValue) -> Z -> Z -> Db -> Result (list User.t).

Lemma schema_key_not (c : string) (x : string) :
  c ∈ updateUserSchema -> x ∉ updateUserSchema -> String.eqb c x = false.
Proof.
  intros Hc Hx. destruct (String.eqb_spec c x) as [->|]; [done|done].
Qed.

Lemma setColumn_schema (k : string) (v : JsValue) (u u' : User.t) :
  toLowerCase k ∈ updateUserSchema ->
  setColumn k v u = Ok u' ->
  kept u' = kept u.
Proof.
  intros Hk. unfold setColumn. generalize dependent (toLowerCase k). intros c Hc.
  assert (Hout : forall x, bool_decide (x ∈ updateUserSchema) = false ->
                           String.eqb c x = false).
  { intros x Hx. apply schema_key_not; [done|]. by apply bool_decide_eq_false in Hx. }
  rewrite (Hout "id" eq_refl), (Hout "email" eq_refl),
    (Hout "password_hash" eq_refl), (Hout "role_id" eq_refl),
    (Hout "email_verified_at" eq_refl), (Hout "created_at" eq_refl),
    (Hout "updated_at" eq_refl), (Hout "last_login" eq_refl).
  repeat match goal with
         | |- context [String.eqb c ?x] => destruct (String.eqb c x)
         end.
  all: destruct v; intros [= <-]; reflexivity.
Qed.

Lemma setColumns_schema (kvs : list (string * JsValue)) (u u' : User.t) :
  Forall (fun kv => toLowerCase kv.1 ∈ updateUserSchema) kvs ->
  setColumns kvs u = Ok u' ->
  kept u' = kept u.
Proof.
  intros Hall. revert u. induction Hall as [|[k v] kvs Hk _ IH]; intros u.
  - by intros [= <-].
  - cbn [setColumns]. destruct (setColumn k v u) as [w|e] eqn:E; [|done].
    cbn [bind]. intros Hrest. rewrite (IH _ Hrest).
    by apply (setColumn_schema k v).
Qed.

Lemma updateRows_schema (now i : Z) (kvs : list (string * JsValue))
    (rows rows' : list User.t) :
  Forall (fun kv => toLowerCase kv.1 ∈ updateUserSchema) kvs ->
  updateRows now i kvs rows = Ok rows' ->
  Forall2 (fun u u' => kept u' = kept u /\ (id u <> i -> u' = u)) rows rows'.
Proof.
  intros Hall. revert rows'. induction rows as [|u rows IH]; intros rows'.
  - intros [= <-]. constructor.
  - cbn [updateRows].
    destruct (Z.eqb_spec (id u) i) as [Hi|Hi].
    + destruct (setColumns kvs u) as [w|e] eqn:E; [|done]. cbn [bind].
      destruct (updateRows now i kvs rows) as [rest|e]; [|done]. cbn [bind].
      intros [= <-]. constructor; [|by apply IH].
      split; [|done]. rewrite <- (setColumns_schema kvs u w Hall E). reflexivity.
    + cbn [bind].
      destruct (updateRows now i kvs rows) as [rest|e]; [|done]. cbn [bind].
      intros [= <-]. constructor; [done|by apply IH].
Qed.

Lemma frame_findById (i : Z) (rows rows' : list User.t) :
  Forall2 (fun u u' => kept u' = kept u /\ (id u <> i -> u' = u)) rows rows' ->
  kept <$> rows' = kept <$> rows
  /\ forall j, j <> i ->
       find (fun u => id u =? j) rows' = find (fun u => id u =? j) rows.
Proof.
  induction 1 as [|u u' rows rows' [Hk Hsame] _ [IHk IHf]]; [done|].
  split; [cbn [fmap list_fmap]; by rewrite Hk, IHk|].
  intros j Hj. cbn [find].
  assert (Hid : id u' = id u) by (unfold kept in Hk; congruence).
  rewrite Hid. destruct (Z.eqb_spec (id u) j) as [Hu|Hu]; [|by apply IHf].
  rewrite Hsame; [done|congruence].
Qed.

Lemma update_schema (db db' : Db) (now i : Z) (updateData : gmap string JsValue)
    (r : option User.t) :
  (forall k v, updateData !! k = Some v -> toLowerCase k ∈ updateUserSchema) ->
  UserModel.update statement db now i updateData = Ok (db', r) ->
  kept <$> users db' = kept <$> users db
  /\ forall j, j <> i -> UserModel.findById db' j = UserModel.findById db j.
Proof.
  intros Hkeys. unfold UserModel.update.
  set (kvs := filter (fun kv => kv.1 ≠ "id") (map_to_list updateData)).
  assert (Hall : Forall (fun kv => toLowerCase kv.1 ∈ updateUserSchema) kvs).
  { apply Forall_forall. intros [k v] Hin.
    apply list_elem_of_filter in Hin as [_ Hin].
    apply elem_of_map_to_list in Hin. by apply (Hkeys k v). }
  destruct kvs as [|kv kvs'] eqn:Ekvs; [done|].
  rewrite <- Ekvs in *. clear Ekvs.
  assert (Hcols : forallb (fun kv => bool_decide (toLowerCase kv.1 ∈ columns)) kvs = true).
  { apply forallb_forall. intros x Hin. apply bool_decide_eq_true.
    apply list_elem_of_In in Hin. rewrite Forall_forall in Hall.
    specialize (Hall x Hin). revert Hall. generalize (toLowerCase x.1). intros c Hc.
    unfold updateUserSchema in Hc. unfold columns.
    repeat (apply elem_of_cons in Hc as [->|Hc]);
      try (by apply elem_of_nil in Hc); repeat constructor. }
  destruct (existsb _ kvs); [done|].
  rewrite Hcols. cbn [negb].
  destruct (updateRows now i kvs (users db)) as [rows|e] eqn:E; [|done].
  cbn [bind]. destruct (negb (uniqueOk rows)); [done|].
  destruct (negb (roleReferenceOk db rows)); [done|].
  intros [= <- _]. unfold UserModel.findById. cbn [users].
  by apply frame_findById, (updateRows_schema now i kvs).
Qed.

Lemma schema_lower (k : string) :
  k ∈ updateUserSchema -> toLowerCase k ∈ updateUserSchema.
Proof.
  unfold updateUserSchema. intros Hin.
  repeat (apply elem_of_cons in Hin as [->|Hin]);
    try (by apply elem_of_nil in Hin); vm_compute; repeat constructor.
Qed.

Lemma deleted_keys (body : gmap string JsValue) (ks : list string) (k : string)
    (v : JsValue) :
  foldr delete body ks !! k = Some v -> body !! k = Some v.
Proof.
  induction ks as [|x ks IH]; [done|]. cbn [foldr].
  intros H. apply lookup_delete_Some in H as [_ H]. by apply IH.
Qed.

(** X16. [PUT /profile] writes the caller's row only.  Whatever the
    header and the body, no user row is added or removed and [id],
    [email], [password_hash], [role_id], [email_verified_at],
    [created_at] and [last_login] keep their values in every row; when
    the token authenticates user [u], every row other than that of [u]
    is found unchanged; and a request that is not authenticated
    changes nothing. *)
Theorem putProfile_writes_own_row (joi : string -> JsValue -> option JsValue)
    (cfg : Config) (authorization : option (list Jwt.Token))
    (body : gmap string JsValue) (db : Db) (now : Z) :
  kept <$> users (putProfile statement joi cfg authorization body db now).1 = kept <$> users db
  /\ (forall u j,
        Auth.authenticateToken cfg db now authorization = Continue (authenticated u) ->
        j <> id u ->
        UserModel.findById (putProfile statement joi cfg authorization body db now).1 j
        = UserModel.findById db j)
  /\ (forall status,
        Auth.authenticateToken cfg db now authorization = Respond status ->
        putProfile statement joi cfg authorization body db now = (db, Json status None)).
Proof.
  unfold putProfile.
  destruct (Auth.authenticateToken cfg db now authorization) as [req|st] eqn:Hauth;
    [|by repeat split; try done; intros ? [= <-]].
  destruct (validate joi updateUserSchema body) as [value|] eqn:Hval;
    [|by repeat split].
  unfold updateProfile.
  destruct (r_userId req) as [uid|] eqn:Huid; [|by repeat split].
  destruct (uid =? 0); [by repeat split|].
  match goal with
  | |- context [if ?c then _ else _] => destruct c; [by repeat split|]
  end.
  destruct (UserModel.update statement db now uid _) as [[db' r]|e] eqn:E;
    [|by repeat split].
  apply update_schema in E as [Hk Hf].
  - destruct r; cbn [fst]; (split; [exact Hk|]); (split; [|done]);
      intros u j [= ->] Hj; apply Hf; cbn [authenticated r_userId] in Huid; congruence.
  - intros k v Hlook.
    apply (deleted_keys value ["created_at"; "id"; "role_id"; "password_hash"]) in Hlook.
    apply schema_lower. exact (validate_keys joi _ _ _ _ _ Hval Hlook).
Qed.

(** X17. [PUT /users/:id] never changes [id], [email],
    [password_hash], [role_id], [email_verified_at], [created_at] or
    [last_login] of any row, whoever asks; it writes no row but the one
    the parameter names; and for a caller who is not a coordinator it
    writes no row but the caller's own: with a parameter other than the
    caller's id the store stays as it was. *)
Theorem putUser_scope (joi : string -> JsValue -> option JsValue)
    (joiInteger : JsValue -> option Z) (cfg : Config)
    (authorization : option (list Jwt.Token)) (params body : gmap string JsValue)
    (db : Db) (now : Z) :
  kept <$> users (putUser statement joi joiInteger cfg authorization params body db now).1
    = kept <$> users db
  /\ (forall n j, validateIdParam joiInteger params = Some n -> j <> n ->
        UserModel.findById (putUser statement joi joiInteger cfg authorization params body db now).1 j
        = UserModel.findById db j)
  /\ (forall u n,
        Auth.authenticateToken cfg db now authorization = Continue (authenticated u) ->
        role_id u <> 1 ->
        validateIdParam joiInteger params = Some n -> n <> id u ->
        (putUser statement joi joiInteger cfg authorization params body db now).1 = db).
Proof.
  unfold putUser.
  destruct (Auth.authenticateToken cfg db now authorization) as [req|st] eqn:Hauth;
    [|by repeat split].
  destruct (validateIdParam joiInteger params) as [n|] eqn:Hn; [|by repeat split].
  destruct (validate joi updateUserSchema body) as [value|] eqn:Hval;
    [|by repeat split].
  split; [|split].
  - destruct (Auth.requireOwnershipOrRole _ req _ _); [|done].
    unfold updateUser.
    match goal with
    | |- context [if ?c then _ else _] => destruct c; [done|]
    end.
    destruct (UserModel.update statement db now n _) as [[db' r]|e] eqn:E; [|done].
    apply update_schema in E as [Hk _]; [by destruct r|].
    intros k v Hlook.
    apply (deleted_keys value ["created_at"; "id"; "password_hash"]) in Hlook.
    apply schema_lower. exact (validate_keys joi _ _ _ _ _ Hval Hlook).
  - intros n' j [= <-] Hj.
    destruct (Auth.requireOwnershipOrRole _ req _ _); [|done].
    unfold updateUser.
    match goal with
    | |- context [if ?c then _ else _] => destruct c; [done|]
    end.
    destruct (UserModel.update statement db now n _) as [[db' r]|e] eqn:E; [|done].
    apply update_schema in E as [_ Hf]; [destruct r; by apply Hf|].
    intros k v Hlook.
    apply (deleted_keys value ["created_at"; "id"; "password_hash"]) in Hlook.
    apply schema_lower. exact (validate_keys joi _ _ _ _ _ Hval Hlook).
  - intros u n' [= ->] Hrole [= <-] Hne.
    unfold Auth.requireOwnershipOrRole, authenticated. cbn [r_user r_userId].
    assert (Hgate : match Auth.roleMap (role_id u) with
                    | Some name => bool_decide (name ∈ ["TL_MAYOR"])
                    | None => false
                    end = false).
    { destruct (role_id u) as [|r|]; try done.
      destruct r as [[| |]|[| |]|]; try done. }
    rewrite Hgate.
    assert (Hcoord : bool_decide (Auth.roleMap (role_id u) = Some "TL_MAYOR") = false).
    { apply bool_decide_eq_false. intros H.
      destruct (role_id u) as [|r|]; try done.
      destruct r as [[| |]|[| |]|]; try done. }
    rewrite Hcoord. cbn [or_else truthy parseInt Auth.sameNumber].
    destruct (Z.eqb_spec (id u) n) as [Heq|_]; [congruence|done].
Qed.

End UserFrame.

(** ** DELETE /users/:id *)

Section DeleteRoute.

Variable joiInteger : JsValue -> option Z.

Lemma delete_unmatched (db : Db) (now i : Z) :
  (UserStore.delete db now i).2 = false -> (UserStore.delete db now i).1 = db.
Proof.
  unfold UserStore.delete, UserStore.setUsers. cbn [fst snd]. intros Hnone.
  destruct db as [rs sts us aps]. cbn [users roles status_types appointments] in *.
  f_equal. induction us as [|u us IH]; [done|].
  cbn [existsb] in Hnone. apply orb_false_iff in Hnone as [Hu Hrest].
  cbn [fmap list_fmap]. rewrite Hu. f_equal. by apply IH.
Qed.

Lemma requireTLMayor_continue (u : User.t) (req : Req) :
  Auth.requireTLMayor (authenticated u) = Continue req -> User.role_id u = 1.
Proof.
  unfold Auth.requireTLMayor, Auth.requireRole. cbn [authenticated r_user].
  unfold Auth.roleMap.
  destruct (User.role_id u) as [|[[|[]|]|[|[]|]|]|]; try done.
Qed.

(** X18. [DELETE /users/:id] as routed removes no row, and writes
    only when it answers 200; it answers 200 only to an authenticated
    coordinator, and then the row of the validated id is there and
    inactive.  The target may be the coordinator's own row. *)
Theorem deleteUserRoute_coordinator_only (cfg : Config)
    (authorization : option (list Jwt.Token)) (params : gmap string JsValue)
    (db : Db) (now : Z) :
  let out := deleteUserRoute joiInteger cfg authorization params db now in
  User.id <$> users out.1 = User.id <$> users db
  /\ (out.2 = Json 200 None \/ out.1 = db)
  /\ (out.2 = Json 200 None ->
      exists u n v,
        Auth.authenticateToken cfg db now authorization = Continue (authenticated u)
        /\ User.role_id u = 1
        /\ validateIdParam joiInteger params = Some n
        /\ UserModel.findById out.1 n = Some v
        /\ User.is_active v = false).
Proof.
  cbn zeta. unfold deleteUserRoute.
  destruct (Auth.authenticateToken cfg db now authorization) as [req|s] eqn:Hauth;
    [|cbn [fst snd]; split; [done|split; [by right|]];
      intros [= Hs]].
  2:{ exfalso. clear -Hs Hauth. unfold Auth.authenticateToken in Hauth.
      repeat case_match; simplify_eq. }
  destruct (authenticateToken_continue _ _ _ _ _ Hauth) as (u & Hu & Ha & ->).
  destruct (validateIdParam joiInteger params) as [n|] eqn:Hn;
    [|cbn [fst snd]; split; [done|split; [by right|done]]].
  destruct (Auth.requireTLMayor (authenticated u)) as [req'|s] eqn:Hgate.
  2:{ cbn [fst snd]. split; [done|split; [by right|]]. intros [= Hs].
      exfalso. clear -Hs Hgate. unfold Auth.requireTLMayor, Auth.requireRole in Hgate.
      repeat case_match; simplify_eq. }
  apply requireTLMayor_continue in Hgate.
  unfold UserController.deleteUser.
  pose proof (delete_unmatched db now n) as Hnone.
  destruct (UserStore.delete db now n) as [db' deleted] eqn:Hdel.
  cbn [fst snd] in Hnone.
  assert (Hids : User.id <$> users db' = User.id <$> users db).
  { unfold UserStore.delete in Hdel. injection Hdel as <- _.
    unfold UserStore.setUsers. cbn [users]. rewrite <- list_fmap_compose.
    apply list_fmap_ext. intros _ v _. cbn. by destruct (User.id v =? n). }
  destruct deleted; cbn [fst snd].
  - split; [exact Hids|split; [by left|]]. intros _.
    unfold UserStore.delete in Hdel. injection Hdel as <- Hex.
    apply existsb_exists in Hex as (w & Hw & Hwid).
    set (g := fun u0 : User.t => if User.id u0 =? n then _ else u0).
    assert (Hg : forall x, User.id (g x) = User.id x).
    { intros x. unfold g. by destruct (User.id x =? n). }
    destruct (UserModel.findById db n) as [v|] eqn:Hv.
    2:{ exfalso. unfold UserModel.findById in Hv.
        eapply find_none in Hv; [|exact Hw]. cbn in Hv. congruence. }
    exists u, n, (g v). split; [done|]. split; [done|]. split; [done|].
    split.
    + unfold UserModel.findById, UserStore.setUsers. cbn [users].
      rewrite (find_user_fmap g n (users db) Hg).
      unfold UserModel.findById in Hv. by rewrite Hv.
    + unfold g. pose proof (find_user_id _ _ _ Hv) as Hid.
      by rewrite Hid, Z.eqb_refl.
  - split; [exact Hids|split; [right; by apply Hnone|done]].
Qed.

End DeleteRoute.

(** ** Accounts: register, login, logout, change of password *)

Section AccountProperties.
Import UserInsert UserActivityModel.

Variable statement : list (string * JsValue) -> Z -> Z -> Db -> Result (list User.t).
Variable collate : string -> string -> bool.
Variable bcryptHash : string -> string -> string.
Variable bcryptCompare : string -> string -> bool.

(** A value equals itself under every collation. *)
Hypothesis collate_refl : forall e, collate e e = true.

(** bcrypt accepts a password against each of its own hashes. *)
Hypothesis compare_hash :
  forall salt password, bcryptCompare password (bcryptHash salt password) = true.

Lemma user_id_below_insertId (db : Db) (u : User.t) :
  u ∈ users db -> User.id u < insertId db.
Proof.
  unfold insertId. induction (users db) as [|v l IH]; [by intros ?%elem_of_nil|].
  intros [->|Hin]%elem_of_cons; cbn [fmap list_fmap foldr]; [lia|].
  specialize (IH Hin). lia.
Qed.

Lemma find_user_appended (db : Db) (row : User.t) :
  User.id row = insertId db ->
  find (fun u => User.id u =? insertId db) (users db ++ [row])%list = Some row.
Proof.
  intros Hid.
  assert (H : forall l, (forall u, u ∈ l -> User.id u < insertId db) ->
                find (fun u => User.id u =? insertId db) (l ++ [row])%list = Some row).
  { induction l as [|v l IH]; intros Hl.
    - cbn. by rewrite Hid, Z.eqb_refl.
    - cbn [app find]. pose proof (Hl v (list_elem_of_here _ _)) as Hv.
      destruct (Z.eqb_spec (User.id v) (insertId db)); [lia|].
      apply IH. intros u Hu. apply Hl. by apply list_elem_of_further. }
  apply H. intros u Hu. by apply user_id_below_insertId.
Qed.

Lemma create_ok (db db1 : Db) (now : Z) (d : NewUser) (u : User.t) :
  create collate db now d = Ok (db1, u) ->
  db1 = UserStore.setUsers db (users db ++ [u])%list
  /\ User.id u = insertId db
  /\ User.email u = n_email d
  /\ User.password_hash u = n_password_hash d
  /\ User.role_id u = n_role_id d
  /\ User.is_active u = n_is_active d
  /\ User.is_verified u = n_is_verified d
  /\ existsb (fun r => r.1 =? n_role_id d) (roles db) = true.
Proof.
  unfold create. destruct (fits d); [|done]. cbn [negb].
  destruct (existsb _ (users db)); [done|].
  destruct (existsb _ (roles db)) eqn:Hrole; [|done]. cbn [negb].
  unfold UserModel.findById, UserStore.setUsers. cbn [users].
  rewrite find_user_appended; [|done]. by intros [= <- <-].
Qed.

Lemma findByEmail_none (db : Db) (e : string) :
  UserStore.findByEmail collate db e = None ->
  existsb (fun u => collate (User.email u) e) (users db) = false.
Proof.
  unfold UserStore.findByEmail. induction (users db) as [|v l IH]; [done|].
  cbn [find existsb]. destruct (collate (User.email v) e); [done|exact IH].
Qed.

Lemma findByEmail_appended (db : Db) (u : User.t) :
  UserStore.findByEmail collate db (User.email u) = None ->
  UserStore.findByEmail collate (UserStore.setUsers db (users db ++ [u])%list)
    (User.email u) = Some u.
Proof.
  unfold UserStore.findByEmail, UserStore.setUsers. cbn [users].
  induction (users db) as [|v l IH].
  - intros _. cbn. by rewrite collate_refl.
  - cbn [app find]. destruct (collate (User.email v) (User.email u)); [done|exact IH].
Qed.

Lemma userExists_elem (db : Db) (u : User.t) :
  u ∈ users db -> userExists db (User.id u) = true.
Proof.
  intros Hin. unfold userExists. apply existsb_exists. exists u.
  split; [by apply list_elem_of_In|apply Z.eqb_refl].
Qed.

Lemma updateActivity_ok (db : Db) (activity : gmap Z UserActivityStatus) (now uid : Z)
    (d : ActivityData) (s : string) :
  userExists db uid = true ->
  d_status d = Some s -> s ∈ statusEnum ->
  exists a,
    updateActivity db activity now uid d = Ok (<[uid := a]> activity, a)
    /\ is_online a = default false (d_is_online d)
    /\ status a = s.
Proof.
  intros Hex Hs Hin. unfold updateActivity. rewrite Hex, Hs. cbn [negb].
  assert (Hne : String.eqb s "" = false).
  { destruct (String.eqb_spec s ""); [|done]. subst s. exfalso.
    unfold statusEnum in Hin. rewrite !elem_of_cons in Hin.
    destruct Hin as [?|[?|[?|[?|?%elem_of_nil]]]]; done. }
  rewrite Hne. rewrite bool_decide_eq_true_2 by done. cbn [negb].
  unfold findByUserId. rewrite lookup_insert_eq. eexists. split; [reflexivity|done].
Qed.

Lemma updateLastLogin_find (db : Db) (now i j : Z) :
  UserModel.findById (UserStore.updateLastLogin db now i) j
  = (fun u => if User.id u =? i
              then User.Build_t (User.id u) (User.email u) (User.password_hash u)
                     (User.first_name u) (User.last_name u) (User.phone u)
                     (User.avatar_url u) (User.role_id u) (User.is_active u)
                     (User.is_verified u) (User.email_verified_at u)
                     (User.created_at u) now (Some now)
              else u) <$> UserModel.findById db j.
Proof.
  unfold UserModel.findById, UserStore.updateLastLogin, UserStore.setUsers.
  cbn [users]. apply find_user_fmap. intros u. by destruct (User.id u =? i).
Qed.

Lemma updateLastLogin_exists (db : Db) (now i j : Z) :
  userExists (UserStore.updateLastLogin db now i) j = userExists db j.
Proof.
  unfold userExists, UserStore.updateLastLogin, UserStore.setUsers. cbn [users].
  induction (users db) as [|v l IH]; [done|].
  cbn [fmap list_fmap existsb]. rewrite <- IH. f_equal.
  by destruct (User.id v =? i).
Qed.

Lemma findByEmail_elem (db : Db) (e : string) (u : User.t) :
  UserStore.findByEmail collate db e = Some u -> u ∈ users db.
Proof.
  unfold UserStore.findByEmail. intros H. apply find_some in H as [Hin _].
  by apply list_elem_of_In.
Qed.

(** The answer of [login] to correct credentials of an active account. *)
Lemma login_accepts (cfg : Config) (mail password : string) (db : Db)
    (activity : gmap Z UserActivityStatus) (now : Z) (u : User.t) :
  UserStore.findByEmail collate db mail = Some u ->
  User.is_active u = true ->
  bcryptCompare password (User.password_hash u) = true ->
  exists a,
    login collate bcryptCompare cfg mail password db activity now
    = (UserStore.updateLastLogin db now (User.id u),
       <[User.id u := a]> activity,
       Json 200 (Some (u,
         (Jwt.Jws {| Jwt.userId := User.id u; Jwt.email := User.email u;
                     Jwt.roleId := User.role_id u; Jwt.iat := Some now;
                     Jwt.exp := Some (now + expiresIn) |} (Auth.jwtSecret cfg),
          Jwt.Jws {| Jwt.userId := User.id u; Jwt.email := User.email u;
                     Jwt.roleId := User.role_id u; Jwt.iat := Some now;
                     Jwt.exp := Some (now + refreshExpiresIn) |} (Auth.jwtSecret cfg)))))
    /\ is_online a = true /\ status a = "online".
Proof.
  intros Hfind Hact Hpw. unfold login. rewrite Hfind, Hact, Hpw. cbn [negb].
  destruct (updateActivity_ok (UserStore.updateLastLogin db now (User.id u)) activity now
              (User.id u) online "online") as (a & -> & Hon & Hst).
  - rewrite updateLastLogin_exists. apply userExists_elem.
    by apply findByEmail_elem in Hfind.
  - done.
  - unfold statusEnum. repeat constructor.
  - exists a. rewrite generateTokens_access. done.
Qed.

(** X19. [login] answers 200 or 401 and hands no exception on.  It
    answers 200 only for a stored row that is active and whose hash
    bcrypt accepts for the password; it then stamps [last_login] on the
    rows of that id and marks the account online.  A 401 writes
    nothing. *)
Theorem login_outcome (cfg : Config) (mail password : string) (db : Db)
    (activity : gmap Z UserActivityStatus) (now : Z) :
  let out := login collate bcryptCompare cfg mail password db activity now in
  (exists u tokens a,
      out.2 = Json 200 (Some (u, tokens))
      /\ u ∈ users db
      /\ User.is_active u = true
      /\ bcryptCompare password (User.password_hash u) = true
      /\ out.1.1 = UserStore.updateLastLogin db now (User.id u)
      /\ out.1.2 = <[User.id u := a]> activity
      /\ is_online a = true /\ status a = "online")
  \/ (out.2 = Json 401 None /\ out.1 = (db, activity)).
Proof.
  cbn zeta.
  destruct (UserStore.findByEmail collate db mail) as [u|] eqn:Hfind.
  2:{ right. unfold login. by rewrite Hfind. }
  destruct (User.is_active u) eqn:Hact.
  2:{ right. unfold login. by rewrite Hfind, Hact. }
  destruct (bcryptCompare password (User.password_hash u)) eqn:Hpw.
  2:{ right. unfold login. by rewrite Hfind, Hact, Hpw. }
  left. destruct (login_accepts cfg mail password db activity now u Hfind Hact Hpw)
    as (a & -> & Hon & Hst).
  cbn [fst snd]. exists u. eexists _, a.
  split; [reflexivity|]. split; [by apply findByEmail_elem in Hfind|done].
Qed.


Lemma bearer_accepted (cfg : Config) (db : Db) (issued now : Z) (u : User.t)
    (ttl : Z) :
  UserModel.findById db (User.id u) = Some u ->
  User.is_active u = true ->
  now < issued + ttl ->
  forall mail role,
  Auth.authenticateToken cfg db now
    (Some [Jwt.Opaque "Bearer";
           Jwt.Jws {| Jwt.userId := User.id u; Jwt.email := mail;
                      Jwt.roleId := role; Jwt.iat := Some issued;
                      Jwt.exp := Some (issued + ttl) |} (Auth.jwtSecret cfg)])
  = Continue (authenticated u).
Proof.
  intros Hfind Hact Hnow mail role.
  unfold Auth.authenticateToken, Auth.bearer. cbn [mbind option_bind lookup list_lookup].
  cbn [Auth.missing]. unfold Jwt.verify.
  rewrite jwtSecret_nonempty, String.eqb_refl. cbn [negb Jwt.exp].
  destruct (Z.geb_spec now (issued + ttl)); [lia|].
  cbn [Jwt.userId]. by rewrite Hfind, Hact.
Qed.

(** X20. After a successful [login] the access token it returned
    authenticates, until its expiry, as the account that logged in:
    the row of the same id, role and email, with [last_login] at the
    time of the login. *)
Theorem login_token_accepted (cfg : Config) (mail password : string) (db : Db)
    (activity : gmap Z UserActivityStatus) (now now' : Z) (u : User.t) :
  UserStore.findByEmail collate db mail = Some u ->
  UserModel.findById db (User.id u) = Some u ->
  User.is_active u = true ->
  bcryptCompare password (User.password_hash u) = true ->
  now' < now + expiresIn ->
  let out := login collate bcryptCompare cfg mail password db activity now in
  exists access refresh u',
    out.2 = Json 200 (Some (u, (access, refresh)))
    /\ Auth.authenticateToken cfg out.1.1 now' (Some [Jwt.Opaque "Bearer"; access])
       = Continue (authenticated u')
    /\ User.id u' = User.id u
    /\ User.role_id u' = User.role_id u
    /\ User.email u' = User.email u
    /\ User.last_login u' = Some now.
Proof.
  intros Hfind Hpk Hact Hpw Hnow. cbn zeta.
  destruct (login_accepts cfg mail password db activity now u Hfind Hact Hpw)
    as (a & -> & _). cbn [fst snd].
  set (u' := User.Build_t (User.id u) (User.email u) (User.password_hash u)
               (User.first_name u) (User.last_name u) (User.phone u)
               (User.avatar_url u) (User.role_id u) (User.is_active u)
               (User.is_verified u) (User.email_verified_at u)
               (User.created_at u) now (Some now)).
  eexists _, _, u'. split; [reflexivity|].
  split; [|done].
  apply (bearer_accepted cfg _ now now' u' expiresIn); [|done|done].
  rewrite updateLastLogin_find. cbn [User.id u']. rewrite Hpk.
  cbn [fmap option_fmap option_map]. by rewrite Z.eqb_refl.
Qed.

(** The answer of [register] to an address that is free, with values
    that fit their columns and a role that exists. *)
Lemma register_creates (cfg : Config) (salt : string) (body : RegisterRequest)
    (db : Db) (activity : gmap Z UserActivityStatus) (now : Z) :
  UserStore.findByEmail collate db (q_email body) = None ->
  fits (userData body (bcryptHash salt (q_password body))) = true ->
  existsb (fun r => r.1 =? q_role_id body) (roles db) = true ->
  exists u a,
    register collate bcryptHash cfg salt body db activity now
    = (UserStore.setUsers db (users db ++ [u])%list,
       <[User.id u := a]> activity,
       Json 201 (Some (u,
         (Jwt.Jws {| Jwt.userId := User.id u; Jwt.email := User.email u;
                     Jwt.roleId := User.role_id u; Jwt.iat := Some now;
                     Jwt.exp := Some (now + expiresIn) |} (Auth.jwtSecret cfg),
          Jwt.Jws {| Jwt.userId := User.id u; Jwt.email := User.email u;
                     Jwt.roleId := User.role_id u; Jwt.iat := Some now;
                     Jwt.exp := Some (now + refreshExpiresIn) |} (Auth.jwtSecret cfg)))))
    /\ User.id u = insertId db
    /\ User.email u = q_email body
    /\ User.password_hash u = bcryptHash salt (q_password body)
    /\ User.role_id u = q_role_id body
    /\ User.is_active u = true
    /\ User.is_verified u = false
    /\ is_online a = false /\ status a = "offline".
Proof.
  intros Hfree Hfits Hrole. unfold register. rewrite Hfree.
  destruct (create collate db now (userData body (bcryptHash salt (q_password body))))
    as [[db1 u]|e] eqn:Hcreate.
  2:{ exfalso. unfold create in Hcreate. rewrite Hfits in Hcreate.
      cbn [negb userData n_email n_role_id] in Hcreate.
      rewrite (findByEmail_none _ _ Hfree), Hrole in Hcreate. cbn [negb] in Hcreate.
      unfold UserModel.findById, UserStore.setUsers in Hcreate. cbn [users] in Hcreate.
      by rewrite find_user_appended in Hcreate. }
  apply create_ok in Hcreate as (-> & Hid & Hmail & Hhash & Hr & Hact & Hver & _).
  cbn [userData n_email n_password_hash n_role_id n_is_active n_is_verified] in *.
  rewrite generateTokens_access.
  destruct (updateActivity_ok (UserStore.setUsers db (users db ++ [u])%list) activity now
              (User.id u) offline "offline") as (a & -> & Hon & Hst).
  - apply userExists_elem. unfold UserStore.setUsers. cbn [users].
    apply elem_of_app. right. by apply list_elem_of_singleton.
  - done.
  - unfold statusEnum. repeat constructor.
  - exists u, a. done.
Qed.

(** X21. [register] answers 201, 409 or hands an exception on, and
    writes only when it answers 201.  It answers 409 exactly when a
    row has the address; an exception comes from the insertion alone
    (a value wider than its column, a role without row).  On 201 one
    row is appended, with a fresh id, the requested address and role,
    the bcrypt hash of the password, active and not verified. *)
Theorem register_outcome (cfg : Config) (salt : string) (body : RegisterRequest)
    (db : Db) (activity : gmap Z UserActivityStatus) (now : Z) :
  let out := register collate bcryptHash cfg salt body db activity now in
  (exists u tokens a,
      out = (UserStore.setUsers db (users db ++ [u])%list,
             <[User.id u := a]> activity, Json 201 (Some (u, tokens)))
      /\ UserStore.findByEmail collate db (q_email body) = None
      /\ (forall v, v ∈ users db -> User.id v < User.id u)
      /\ User.email u = q_email body
      /\ User.password_hash u = bcryptHash salt (q_password body)
      /\ User.role_id u = q_role_id body
      /\ User.is_active u = true
      /\ User.is_verified u = false)
  \/ (out = (db, activity, Json 409 None)
      /\ exists v, UserStore.findByEmail collate db (q_email body) = Some v)
  \/ (exists e, out = (db, activity, Next e)
      /\ UserStore.findByEmail collate db (q_email body) = None
      /\ (fits (userData body (bcryptHash salt (q_password body))) = false
          \/ existsb (fun r => r.1 =? q_role_id body) (roles db) = false)).
Proof.
  cbn zeta.
  destruct (UserStore.findByEmail collate db (q_email body)) as [v|] eqn:Hfree.
  { right. left. unfold register. rewrite Hfree. split; [done|by exists v]. }
  destruct (fits (userData body (bcryptHash salt (q_password body)))) eqn:Hfits.
  2:{ right. right. unfold register, create. rewrite Hfree, Hfits. cbn [negb].
      eexists. split; [reflexivity|]. split; [done|by left]. }
  destruct (existsb (fun r => r.1 =? q_role_id body) (roles db)) eqn:Hrole.
  2:{ right. right. unfold register, create. rewrite Hfree, Hfits.
      cbn [negb userData n_email n_role_id].
      rewrite (findByEmail_none _ _ Hfree), Hrole. cbn [negb].
      eexists. split; [reflexivity|]. split; [done|by right]. }
  left.
  destruct (register_creates cfg salt body db activity now Hfree Hfits Hrole)
    as (u & a & -> & Hid & Hmail & Hhash & Hr & Hact & Hver & _).
  exists u. eexists _, a. split; [reflexivity|]. split; [done|].
  split; [|done]. intros v Hv. rewrite Hid. by apply user_id_below_insertId.
Qed.

(** X22. Registration and login agree: after a successful [register]
    a [login] with the same address and password answers 200 with the
    row the registration created. *)
Theorem register_then_login (cfg : Config) (salt : string) (body : RegisterRequest)
    (db : Db) (activity : gmap Z UserActivityStatus) (now : Z) :
  UserStore.findByEmail collate db (q_email body) = None ->
  fits (userData body (bcryptHash salt (q_password body))) = true ->
  existsb (fun r => r.1 =? q_role_id body) (roles db) = true ->
  let out := register collate bcryptHash cfg salt body db activity now in
  exists u tokens,
    out.2 = Json 201 (Some (u, tokens))
    /\ forall activity' now', exists tokens',
         (login collate bcryptCompare cfg (q_email body) (q_password body)
            out.1.1 activity' now').2
         = Json 200 (Some (u, tokens')).
Proof.
  intros Hfree Hfits Hrole. cbn zeta.
  destruct (register_creates cfg salt body db activity now Hfree Hfits Hrole)
    as (u & a & -> & Hid & Hmail & Hhash & Hr & Hact & Hver & _).
  cbn [fst snd]. exists u. eexists. split; [reflexivity|].
  intros activity' now'.
  destruct (login_accepts cfg (q_email body) (q_password body)
              (UserStore.setUsers db (users db ++ [u])%list) activity' now' u)
    as (a' & -> & _).
  - rewrite <- Hmail. apply findByEmail_appended. by rewrite Hmail.
  - exact Hact.
  - rewrite Hhash. apply compare_hash.
  - cbn [snd]. by eexists.
Qed.

(** X23. [register] gives the role the body asks for, to a caller it
    has not authenticated: the access token it returns authenticates
    as the new row until its expiry, and for role 1 it passes the
    coordinator gate. *)
Theorem register_self_grants_role (cfg : Config) (salt : string)
    (body : RegisterRequest) (db : Db) (activity : gmap Z UserActivityStatus)
    (now now' : Z) :
  UserStore.findByEmail collate db (q_email body) = None ->
  fits (userData body (bcryptHash salt (q_password body))) = true ->
  existsb (fun r => r.1 =? q_role_id body) (roles db) = true ->
  now' < now + expiresIn ->
  let out := register collate bcryptHash cfg salt body db activity now in
  exists u access refresh,
    out.2 = Json 201 (Some (u, (access, refresh)))
    /\ User.role_id u = q_role_id body
    /\ Auth.authenticateToken cfg out.1.1 now' (Some [Jwt.Opaque "Bearer"; access])
       = Continue (authenticated u)
    /\ (q_role_id body = 1 ->
        Auth.requireTLMayor (authenticated u) = Continue (authenticated u)).
Proof.
  intros Hfree Hfits Hrole Hnow. cbn zeta.
  destruct (register_creates cfg salt body db activity now Hfree Hfits Hrole)
    as (u & a & -> & Hid & Hmail & Hhash & Hr & Hact & Hver & _).
  cbn [fst snd]. exists u. eexists _, _. split; [reflexivity|].
  split; [exact Hr|]. split.
  - apply (bearer_accepted cfg _ now now' u expiresIn); [|done|done].
    unfold UserModel.findById, UserStore.setUsers. cbn [users].
    rewrite Hid. by apply find_user_appended.
  - intros H1. unfold Auth.requireTLMayor, Auth.requireRole.
    cbn [authenticated r_user]. rewrite Hr, H1. cbn [Auth.roleMap].
    by rewrite bool_decide_eq_true_2 by repeat constructor.
Qed.


Lemma updateRows_password (now i : Z) (h : string) (rows : list User.t) :
  UserModel.updateRows now i [("password_hash", JStr h)] rows
  = Ok (rehashed now i h <$> rows).
Proof.
  induction rows as [|u rows IH]; [done|].
  cbn [UserModel.updateRows]. rewrite IH.
  change (rehashed now i h <$> u :: rows)
    with (rehashed now i h u :: (rehashed now i h <$> rows)).
  assert (Hrow : rehashed now i h u
                 = if User.id u =? i
                   then UserModel.touch now
                          (User.Build_t (User.id u) (User.email u) h (User.first_name u)
                             (User.last_name u) (User.phone u) (User.avatar_url u)
                             (User.role_id u) (User.is_active u) (User.is_verified u)
                             (User.email_verified_at u) (User.created_at u)
                             (User.updated_at u) (User.last_login u))
                   else u) by reflexivity.
  rewrite Hrow. destruct (User.id u =? i); reflexivity.
Qed.

Lemma update_password (db db' : Db) (now i : Z) (h : string) (r : option User.t) :
  UserModel.update statement db now i {[ "password_hash" := JStr h ]} = Ok (db', r) ->
  db' = UserStore.setUsers db (rehashed now i h <$> users db).
Proof.
  unfold UserModel.update. rewrite map_to_list_singleton.
  rewrite filter_cons_True by done. rewrite filter_nil.
  cbn [existsb snd orb]. cbn [forallb fst andb].
  replace (bool_decide (toLowerCase "password_hash" ∈ UserModel.columns)) with true
    by (vm_compute; reflexivity).
  cbn [negb]. rewrite updateRows_password. cbn [bind].
  destruct (UserModel.uniqueOk _); [|done].
  destruct (UserModel.roleReferenceOk _ _); [|done].
  by intros [= <- _].
Qed.

Lemma find_fmap_same {A : Type} (P : A -> bool) (g : A -> A) (l : list A) :
  (forall x, P (g x) = P x) -> find P (g <$> l) = g <$> find P l.
Proof.
  intros HP. induction l as [|x l IH]; [done|].
  cbn [fmap list_fmap find]. rewrite HP. destruct (P x); [done|exact IH].
Qed.

Lemma rehashed_findById (db : Db) (now i j : Z) (h : string) :
  UserModel.findById (UserStore.setUsers db (rehashed now i h <$> users db)) j
  = rehashed now i h <$> UserModel.findById db j.
Proof.
  unfold UserModel.findById, UserStore.setUsers. cbn [users].
  apply find_fmap_same. intros u. unfold rehashed. by destruct (User.id u =? i).
Qed.

Lemma rehashed_findByEmail (db : Db) (now i : Z) (h mail : string) :
  UserStore.findByEmail collate
    (UserStore.setUsers db (rehashed now i h <$> users db)) mail
  = rehashed now i h <$> UserStore.findByEmail collate db mail.
Proof.
  unfold UserStore.findByEmail, UserStore.setUsers. cbn [users].
  apply find_fmap_same. intros u. unfold rehashed. by destruct (User.id u =? i).
Qed.

(** What a 200 of [changePassword] tells. *)
Lemma changePassword_done (salt : string) (req : Req) (current fresh : string)
    (db db' : Db) (now : Z) (r : Reply unit) :
  changePassword statement bcryptHash bcryptCompare salt req current fresh db now = (db', r) ->
  (r <> Json 200 None /\ db' = db)
  \/ exists u, r_userId req = Some (User.id u)
               /\ UserModel.findById db (User.id u) = Some u
               /\ bcryptCompare current (User.password_hash u) = true
               /\ r = Json 200 None
               /\ db' = UserStore.setUsers db
                          (rehashed now (User.id u) (bcryptHash salt fresh) <$> users db).
Proof.
  unfold changePassword.
  destruct (r_userId req) as [i|]; [|intros [= <- <-]; by left].
  destruct (i =? 0); [intros [= <- <-]; by left|].
  destruct (UserModel.findById db i) as [u|] eqn:Hu; [|intros [= <- <-]; by left].
  destruct (bcryptCompare current (User.password_hash u)) eqn:Hpw;
    [|intros [= <- <-]; by left]. cbn [negb].
  destruct (UserModel.update statement db now i _) as [[db1 r1]|e] eqn:Hupd;
    [|clear Hupd; intros [= <- <-]; by left].
  intros [= <- <-]. right. apply update_password in Hupd.
  pose proof (find_user_id _ _ _ Hu) as Hid. exists u. by rewrite Hid.
Qed.

(** X24. A change of password that answers 200 was asked with the
    current password of the caller's row; it writes the bcrypt hash
    of the new password and the update time on the rows of that id
    and nothing else.  From then on a [login] to that row answers 200
    exactly for the passwords bcrypt accepts against the new hash, the
    new password among them. *)
Theorem changePassword_rotates (salt : string) (req : Req) (current fresh : string)
    (db db' : Db) (now : Z) :
  changePassword statement bcryptHash bcryptCompare salt req current fresh db now
  = (db', Json 200 None) ->
  exists u,
    r_userId req = Some (User.id u)
    /\ UserModel.findById db (User.id u) = Some u
    /\ bcryptCompare current (User.password_hash u) = true
    /\ UserModel.findById db' (User.id u)
       = Some (rehashed now (User.id u) (bcryptHash salt fresh) u)
    /\ User.password_hash (rehashed now (User.id u) (bcryptHash salt fresh) u)
       = bcryptHash salt fresh
    /\ (forall j, j <> User.id u -> UserModel.findById db' j = UserModel.findById db j)
    /\ (forall cfg mail password activity now',
          UserStore.findByEmail collate db mail = Some u ->
          User.is_active u = true ->
          replyStatus (login collate bcryptCompare cfg mail password db' activity now').2
          = Some (if bcryptCompare password (bcryptHash salt fresh) then 200 else 401))
    /\ (forall cfg mail activity now',
          UserStore.findByEmail collate db mail = Some u ->
          User.is_active u = true ->
          replyStatus (login collate bcryptCompare cfg mail fresh db' activity now').2
          = Some 200).
Proof.
  intros Hrun.
  destruct (changePassword_done _ _ _ _ _ _ _ _ Hrun)
    as [[Hne _]|(u & Hreq & Hu & Hpw & _ & ->)]; [done|].
  clear Hrun.
  set (h := bcryptHash salt fresh) in *.
  assert (Hrow : rehashed now (User.id u) h u
                 = User.Build_t (User.id u) (User.email u) h (User.first_name u)
                     (User.last_name u) (User.phone u) (User.avatar_url u)
                     (User.role_id u) (User.is_active u) (User.is_verified u)
                     (User.email_verified_at u) (User.created_at u) now
                     (User.last_login u)).
  { unfold rehashed. by rewrite Z.eqb_refl. }
  assert (Hlogin : forall cfg mail password activity now',
            UserStore.findByEmail collate db mail = Some u ->
            User.is_active u = true ->
            replyStatus (login collate bcryptCompare cfg mail password
                           (UserStore.setUsers db (rehashed now (User.id u) h <$> users db))
                           activity now').2
            = Some (if bcryptCompare password h then 200 else 401)).
  { intros cfg mail password activity now' Hmail Hact.
    assert (Hfind : UserStore.findByEmail collate
                      (UserStore.setUsers db (rehashed now (User.id u) h <$> users db)) mail
                    = Some (rehashed now (User.id u) h u)).
    { by rewrite rehashed_findByEmail, Hmail. }
    rewrite Hrow in Hfind.
    destruct (bcryptCompare password h) eqn:Hc.
    - by destruct (login_accepts cfg mail password _ activity now' _ Hfind Hact Hc)
        as (a & -> & _).
    - unfold login. rewrite Hfind. cbn [User.is_active User.password_hash].
      by rewrite Hact, Hc. }
  exists u. split; [done|]. split; [done|]. split; [done|].
  split; [by rewrite rehashed_findById, Hu|].
  split; [by rewrite Hrow|].
  split.
  { intros j Hj. rewrite rehashed_findById.
    destruct (UserModel.findById db j) as [v|] eqn:Hv; [|done].
    cbn [fmap option_fmap option_map]. unfold rehashed.
    pose proof (find_user_id _ _ _ Hv) as Hid. rewrite Hid.
    by destruct (Z.eqb_spec j (User.id u)). }
  split; [exact Hlogin|].
  intros cfg mail activity now' Hmail Hact.
  rewrite (Hlogin cfg mail fresh activity now' Hmail Hact).
  unfold h. by rewrite compare_hash.
Qed.


(** X25. A change of password ends no session: whatever it answers,
    every bearer value [authenticateToken] let through before it is let
    through afterwards, as the same id and role. *)
Theorem changePassword_keeps_sessions (salt : string) (req : Req)
    (current fresh : string) (db : Db) (now : Z) (cfg : Config) (now' : Z)
    (authorization : option (list Jwt.Token)) (v : User.t) :
  Auth.authenticateToken cfg db now' authorization = Continue (authenticated v) ->
  let db' := (changePassword statement bcryptHash bcryptCompare salt req current fresh db now).1 in
  exists v',
    Auth.authenticateToken cfg db' now' authorization = Continue (authenticated v')
    /\ User.id v' = User.id v
    /\ User.role_id v' = User.role_id v
    /\ User.email v' = User.email v.
Proof.
  intros Hauth. cbn zeta.
  destruct (changePassword statement bcryptHash bcryptCompare salt req current fresh db now)
    as [db' r] eqn:Hrun. cbn [fst].
  apply changePassword_done in Hrun as [[_ ->]|(u & _ & _ & _ & _ & ->)];
    [exists v; split; [exact Hauth|done]|].
  pose (g := rehashed now (User.id u) (bcryptHash salt fresh)).
  assert (Hg : forall x, User.id (g x) = User.id x /\ User.role_id (g x) = User.role_id x
                         /\ User.email (g x) = User.email x
                         /\ User.is_active (g x) = User.is_active x).
  { intros x. unfold g, rehashed. by destruct (User.id x =? User.id u). }
  revert Hauth. unfold Auth.authenticateToken.
  destruct (Auth.bearer authorization) as [token|]; [|done].
  destruct (Auth.missing (Some token)); [done|].
  destruct (Jwt.verify token (Some (Auth.jwtSecret cfg)) now') as [decoded|e]; [|done].
  rewrite rehashed_findById.
  destruct (UserModel.findById db (Jwt.userId decoded)) as [w|]; [|done].
  cbn [fmap option_fmap option_map]. fold g.
  destruct (Hg w) as (Hid & Hrole & Hmail & Hact). rewrite Hact.
  destruct (User.is_active w); [|done]. cbn [negb]. unfold authenticated at 1.
  intros [= <- _ _].
  exists (g w). split.
  - unfold authenticated. by rewrite Hid, Hrole.
  - done.
Qed.

(** X26. [logout] after a [login]: the activity row of the account
    is offline, last seen at the time of the logout, and the rows of
    the other users are as before the login.  [logout] answers 200
    whatever the request, and creates no row. *)
Theorem logout_after_login (cfg : Config) (mail password : string) (db : Db)
    (activity : gmap Z UserActivityStatus) (now later : Z) (u : User.t) :
  UserStore.findByEmail collate db mail = Some u ->
  User.is_active u = true ->
  bcryptCompare password (User.password_hash u) = true ->
  User.id u <> 0 ->
  let out := login collate bcryptCompare cfg mail password db activity now in
  let out' := logout (authenticated u) out.1.2 later in
  (exists a, out'.1 !! User.id u = Some a
             /\ is_online a = false /\ status a = "offline"
             /\ last_seen_at a = Some later)
  /\ (forall k, k <> User.id u -> out'.1 !! k = activity !! k)
  /\ (forall req activity0 now0,
        (logout req activity0 now0).2 = Json 200 None
        /\ forall k, activity0 !! k = None -> (logout req activity0 now0).1 !! k = None).
Proof.
  intros Hfind Hact Hpw Hid. cbn zeta.
  destruct (login_accepts cfg mail password db activity now u Hfind Hact Hpw)
    as (a & -> & _). cbn [fst snd].
  unfold logout at 1 2. cbn [authenticated r_userId].
  destruct (Z.eqb_spec (User.id u) 0) as [|_]; [done|]. cbn [fst snd].
  unfold setOffline. split; [|split].
  - rewrite lookup_alter_eq, lookup_insert_eq. cbn [fmap option_fmap option_map].
    eexists. split; [reflexivity|done].
  - intros k Hk. rewrite lookup_alter_ne by done. by rewrite lookup_insert_ne.
  - intros req activity0 now0. unfold logout.
    destruct (r_userId req) as [i|]; [|done]. destruct (i =? 0); [done|].
    cbn [fst snd]. split; [done|]. intros k Hk. unfold setOffline.
    destruct (decide (i = k)) as [->|Hne].
    + by rewrite lookup_alter_eq, Hk.
    + by rewrite lookup_alter_ne.
Qed.

End AccountProperties.

(** ** The account theorems on the sample store *)

Section AccountWitnesses.
Import UserActivityModel.

Lemma login_token_accepted_witness :
  exists access refresh u',
    (login String.eqb Plain.compare Sample.configured "c1@riwi.io" "$2a$12$hash"
       Sample.db Plain.nobody 50).2
    = Json 200 (Some (Sample.client, (access, refresh)))
    /\ Auth.authenticateToken Sample.configured
         (login String.eqb Plain.compare Sample.configured "c1@riwi.io" "$2a$12$hash"
            Sample.db Plain.nobody 50).1.1 60 (Some [Jwt.Opaque "Bearer"; access])
       = Continue (authenticated u')
    /\ User.last_login u' = Some 50.
Proof.
  destruct (login_token_accepted String.eqb Plain.compare Sample.configured
              "c1@riwi.io" "$2a$12$hash" Sample.db Plain.nobody 50 60 Sample.client
              eq_refl eq_refl eq_refl eq_refl)
    as (access & refresh & u' & H1 & H2 & _ & _ & _ & H3); [reflexivity|].
  exists access, refresh, u'. split; [exact H1|]. split; [exact H2|exact H3].
Defined.

Lemma register_then_login_witness :
  exists u tokens tokens',
    (register String.eqb Plain.hash Sample.configured "salt" Plain.ana
       Sample.db Plain.nobody 50).2
    = Json 201 (Some (u, tokens))
    /\ (login String.eqb Plain.compare Sample.configured "ana@riwi.io" "Secr3t!pw"
          (register String.eqb Plain.hash Sample.configured "salt" Plain.ana
             Sample.db Plain.nobody 50).1.1 Plain.nobody 60).2
       = Json 200 (Some (u, tokens')).
Proof.
  destruct (register_then_login String.eqb Plain.hash Plain.compare
              String.eqb_refl (fun _ p => String.eqb_refl p)
              Sample.configured "salt" Plain.ana Sample.db Plain.nobody 50
              eq_refl eq_refl eq_refl)
    as (u & tokens & H1 & H2).
  destruct (H2 Plain.nobody 60) as (tokens' & H3).
  exists u, tokens, tokens'. split; [exact H1|exact H3].
Defined.

Lemma register_self_grants_role_witness :
  exists u access refresh,
    (register String.eqb Plain.hash Sample.configured "salt" Plain.ana
       Sample.db Plain.nobody 50).2
    = Json 201 (Some (u, (access, refresh)))
    /\ User.role_id u = 1
    /\ Auth.authenticateToken Sample.configured
         (register String.eqb Plain.hash Sample.configured "salt" Plain.ana
            Sample.db Plain.nobody 50).1.1 60 (Some [Jwt.Opaque "Bearer"; access])
       = Continue (authenticated u)
    /\ Auth.requireTLMayor (authenticated u) = Continue (authenticated u).
Proof.
  destruct (register_self_grants_role String.eqb Plain.hash Sample.configured "salt"
              Plain.ana Sample.db Plain.nobody 50 60 eq_refl eq_refl eq_refl)
    as (u & access & refresh & H1 & H2 & H3 & H4); [reflexivity|].
  exists u, access, refresh. split; [exact H1|]. split; [exact H2|].
  split; [exact H3|]. by apply H4.
Defined.

Lemma changePassword_rotates_witness :
  let db' := (changePassword Sample.qualified Plain.hash Plain.compare "salt"
                (authenticated Sample.client) "$2a$12$hash" "N3w!passw"
                Sample.db 70).1 in
  replyStatus (login String.eqb Plain.compare Sample.configured "c1@riwi.io"
                 "N3w!passw" db' Plain.nobody 80).2 = Some 200
  /\ replyStatus (login String.eqb Plain.compare Sample.configured "c1@riwi.io"
                    "$2a$12$hash" db' Plain.nobody 80).2 = Some 401.
Proof.
  cbn zeta.
  destruct (changePassword_rotates Sample.qualified String.eqb Plain.hash Plain.compare
              (fun _ p => String.eqb_refl p) "salt" (authenticated Sample.client)
              "$2a$12$hash" "N3w!passw" Sample.db
              (changePassword Sample.qualified Plain.hash Plain.compare "salt"
                 (authenticated Sample.client) "$2a$12$hash" "N3w!passw"
                 Sample.db 70).1 70)
    as (u & Hreq & Hu & _ & _ & _ & _ & Hlogin & Hfresh).
  - vm_compute. reflexivity.
  - cbn [authenticated r_userId] in Hreq. injection Hreq as Hid.
    rewrite <- Hid in Hu. vm_compute in Hu. injection Hu as <-.
    split.
    + apply Hfresh; reflexivity.
    + rewrite (Hlogin Sample.configured "c1@riwi.io" "$2a$12$hash" Plain.nobody 80 eq_refl eq_refl).
      reflexivity.
Defined.

Lemma changePassword_keeps_sessions_witness :
  exists v',
    Auth.authenticateToken Sample.configured
      (changePassword Sample.qualified Plain.hash Plain.compare "salt" (authenticated Sample.client)
         "$2a$12$hash" "N3w!passw" Sample.db 70).1 80
      (Sample.bearerHeader Sample.clientToken)
    = Continue (authenticated v')
    /\ User.id v' = 3.
Proof.
  destruct (changePassword_keeps_sessions Sample.qualified Plain.hash Plain.compare "salt"
              (authenticated Sample.client) "$2a$12$hash" "N3w!passw" Sample.db 70
              Sample.configured 80 (Sample.bearerHeader Sample.clientToken)
              Sample.client eq_refl)
    as (v' & H1 & H2 & _).
  exists v'. split; [exact H1|exact H2].
Defined.

Lemma logout_after_login_witness :
  exists a,
    (logout (authenticated Sample.client)
       (login String.eqb Plain.compare Sample.configured "c1@riwi.io" "$2a$12$hash"
          Sample.db Plain.nobody 50).1.2 90).1 !! 3
    = Some a
    /\ is_online a = false /\ status a = "offline" /\ last_seen_at a = Some 90.
Proof.
  destruct (logout_after_login String.eqb Plain.compare Sample.configured
              "c1@riwi.io" "$2a$12$hash" Sample.db Plain.nobody 50 90 Sample.client
              eq_refl eq_refl eq_refl)
    as ((a & Ha) & _); [discriminate|].
  exists a. exact Ha.
Defined.

End AccountWitnesses.
